(** * DNS-GEE-O: the WHOIS invoker, the CLI configuration and the
      GeoLite refresh, embedded in Rocq.

    Sources: [internal/dnsgeeo/whois_tool.go] (RunWhoisTool,
    RunWhoisPSLPrivateList, uniqueDomains), [cmd/dnsgeeo/config_loader.go]
    (applyConfigValues), the CLI [main] and the GeoLite refresher
    [maybeUpdateGeoLiteDatabases].

    Go strings are byte strings: they are [string] here, one [ascii] per
    byte.  Go [int] and [time.Duration] are 64-bit: they are [Z] with the
    wrap-around written out where the code multiplies.  Floating point
    ([Duration.Seconds]) uses the kernel's binary64 floats. *)

From Stdlib Require Import ZArith String Ascii List Bool Lia.
From Stdlib Require Import PrimFloat SpecFloat FloatOps FloatAxioms Uint63.
From stdpp Require Import base gmap strings.

Import ListNotations.
Open Scope Z_scope.
Open Scope string_scope.

(* ------------------------------------------------------------------ *)
(** ** Go runtime helpers *)

Module Go.

(** Wrap-around of a 64-bit signed integer. *)
Definition wrap64 (z : Z) : Z :=
  let m := z mod 2 ^ 64 in if Z.leb (2 ^ 63) m then m - 2 ^ 64 else m.

(** [time.Duration] constants, in nanoseconds. *)
Definition Millisecond : Z := 1000000.
Definition Second : Z := 1000000000.
Definition Minute : Z := 60 * Second.
Definition Hour : Z := 60 * Minute.

(** [d * c] on [time.Duration] (int64 multiplication). *)
Definition dur_mul (d c : Z) : Z := wrap64 (d * c).

(** [float64(z)] for an [int64] [z]: round to nearest even. *)
Definition float64_of_int64 (z : Z) : float :=
  if Z.eqb z (- 2 ^ 63) then
    PrimFloat.opp (PrimFloat.mul (PrimFloat.of_uint63 2) (PrimFloat.of_uint63 (Uint63.of_Z (2 ^ 62))))
  else if Z.ltb z 0 then PrimFloat.opp (PrimFloat.of_uint63 (Uint63.of_Z (- z)))
  else PrimFloat.of_uint63 (Uint63.of_Z z).

(** The literal [1e9]. *)
Definition float_1e9 : float := PrimFloat.of_uint63 (Uint63.of_Z 1000000000).

(** [func (d Duration) Seconds() float64]:
    [sec := d / Second; nsec := d % Second;
     return float64(sec) + float64(nsec)/1e9]
    (Go's [/] and [%] truncate toward zero). *)
Definition Seconds (d : Z) : float :=
  let sec := Z.quot d Second in
  let nsec := Z.rem d Second in
  PrimFloat.add (float64_of_int64 sec) (PrimFloat.div (float64_of_int64 nsec) float_1e9).

(** [int(f)] for a [float64] [f] on amd64: the fraction is discarded;
    NaN, infinities and out-of-range values give the "integer indefinite"
    [-2^63] of CVTTSD2SI. *)
Definition int_of_float64 (f : float) : Z :=
  match Prim2SF f with
  | S754_zero _ => 0
  | S754_finite s m e =>
      let a := if Z.leb 0 e then Z.shiftl (Zpos m) e else Z.shiftr (Zpos m) (- e) in
      let v := if s then - a else a in
      if andb (Z.leb (- 2 ^ 63) v) (Z.ltb v (2 ^ 63)) then v else - 2 ^ 63
  | _ => - 2 ^ 63
  end.

(** Decimal digits of a non-negative integer, [fuel] bounding the digit
    count. *)
Fixpoint dec_digits (fuel : nat) (n : Z) (acc : string) : string :=
  match fuel with
  | O => acc
  | S f =>
      let acc' := String (ascii_of_nat (48 + Z.to_nat (Z.rem n 10))) acc in
      let q := Z.quot n 10 in
      if Z.eqb q 0 then acc' else dec_digits f q acc'
  end.

(** [fmt.Sprintf("%d", z)]. *)
Definition Sprintf_d (z : Z) : string :=
  let n := Z.abs z in
  let s := dec_digits (S (Pos.size_nat (Z.to_pos (n + 1)))) n "" in
  if Z.ltb z 0 then String "-" s else s.

(** [strings.Join(elems, sep)]. *)
Fixpoint Join (elems : list string) (sep : string) : string :=
  match elems with
  | [] => ""
  | [x] => x
  | x :: rest => x ++ sep ++ Join rest sep
  end.

(** [strings.HasSuffix] / [strings.TrimSuffix]. *)
Definition HasSuffix (s suffix : string) : bool :=
  let n := String.length s in
  let m := String.length suffix in
  Nat.leb m n && String.eqb (substring (n - m) m s) suffix.

Definition TrimSuffix (s suffix : string) : string :=
  if HasSuffix s suffix then substring 0 (String.length s - String.length suffix) s
  else s.

Definition HasPrefix (s prefix : string) : bool :=
  String.eqb (substring 0 (String.length prefix) s) prefix.

(** The UTF-8 encodings of the code points [unicode.IsSpace] accepts:
    U+0009..U+000D, U+0020, U+0085, U+00A0, U+1680, U+2000..U+200A,
    U+2028, U+2029, U+202F, U+205F and U+3000. *)
Definition space_encodings : list string :=
  map (fun n => String (ascii_of_nat n) "") [9; 10; 11; 12; 13; 32]%nat ++
  [ String (ascii_of_nat 194) (String (ascii_of_nat 133) "");
    String (ascii_of_nat 194) (String (ascii_of_nat 160) "");
    String (ascii_of_nat 225) (String (ascii_of_nat 154) (String (ascii_of_nat 128) "")) ] ++
  map (fun n => String (ascii_of_nat 226) (String (ascii_of_nat 128) (String (ascii_of_nat n) "")))
      [128; 129; 130; 131; 132; 133; 134; 135; 136; 137; 138; 168; 169; 175]%nat ++
  [ String (ascii_of_nat 226) (String (ascii_of_nat 129) (String (ascii_of_nat 159) ""));
    String (ascii_of_nat 227) (String (ascii_of_nat 128) (String (ascii_of_nat 128) "")) ].

(** The length of the space rune [s] starts with (0 when none). *)
Definition leading_space (s : string) : nat :=
  match List.find (HasPrefix s) space_encodings with
  | Some e => String.length e
  | None => O
  end.

Definition trailing_space (s : string) : nat :=
  match List.find (HasSuffix s) space_encodings with
  | Some e => String.length e
  | None => O
  end.

Fixpoint trim_left (fuel : nat) (s : string) : string :=
  match fuel with
  | O => s
  | S f =>
      match leading_space s with
      | O => s
      | k => trim_left f (substring k (String.length s - k) s)
      end
  end.

Fixpoint trim_right (fuel : nat) (s : string) : string :=
  match fuel with
  | O => s
  | S f =>
      match trailing_space s with
      | O => s
      | k => trim_right f (substring 0 (String.length s - k) s)
      end
  end.

(** [strings.TrimSpace]: leading and trailing white-space runes removed
    (its ASCII fast path and its [TrimFunc(unicode.IsSpace)] fallback
    agree on every input). *)
Definition TrimSpace (s : string) : string :=
  trim_right (String.length s) (trim_left (String.length s) s).

(** [strings.Split(s, sep)] for a one-byte separator. *)
Fixpoint Split (s : string) (sep : ascii) : list string :=
  match s with
  | EmptyString => [""]
  | String c rest =>
      if Ascii.eqb c sep then "" :: Split rest sep
      else match Split rest sep with
           | [] => [String c ""]
           | w :: ws => String c w :: ws
           end
  end.

End Go.

(* ------------------------------------------------------------------ *)
(** ** Effects: a program is a finite tree of requests *)

Section Prog.
Context {E : Type} {Resp : E -> Type}.

(** [Vis e k]: perform the effect [e], continue with [k] on its answer. *)
Inductive Prog (A : Type) : Type :=
| Ret (a : A)
| Vis (e : E) (k : Resp e -> Prog A).

Fixpoint bind {A B} (p : Prog A) (f : A -> Prog B) : Prog B :=
  match p with
  | Ret _ a => f a
  | Vis _ e k => Vis B e (fun r => bind (k r) f)
  end.

(** Running a program against an environment that answers every request:
    the requests made, in order, and the result. *)
Fixpoint run {A} (oracle : forall e, Resp e) (p : Prog A) : list E * A :=
  match p with
  | Ret _ a => ([], a)
  | Vis _ e k => let '(t, a) := run oracle (k (oracle e)) in (e :: t, a)
  end.

End Prog.

Arguments Ret {E Resp A} a.
Arguments Vis {E Resp A} e k.
Arguments Prog E Resp A : clear implicits.

Notation "x <- p ;; q" := (bind p (fun x => q))
  (at level 100, p at next level, right associativity).

(* ------------------------------------------------------------------ *)
(** ** The WHOIS invoker ([internal/dnsgeeo/whois_tool.go]) *)

Module Whois.

(** A Go slice: [None] is the nil slice, [Some l] a non-nil one. *)
Definition GoSlice (A : Type) : Type := option (list A).

Record RDAPEvent := {
  Action : string;
  Date : string
}.

Record PSLPrivateEntry := {
  Suffix : string;
  Owner : string
}.

Record WhoisToolInfo := {
  Domain : string;
  RootDomain : string;
  Registrar : string;
  RegistrarCountry : string;
  RegistrantOrg : string;
  RegistrantAddress : string;
  NameServers : GoSlice string;
  IsAfraidHosted : bool;
  PSLRegistrableDomain : string;
  PSLPublicRegistrableDomain : string;
  PSLPrivateSuffix : string;
  PSLPublicSuffix : string;
  PSLPrivateOwner : string;
  PSLIsPrivate : bool;
  DDNSProviderBySuffix : string;
  DDNSProvidersByNS : GoSlice string;
  DDNSProviders : GoSlice string;
  CreatedAt : string;
  CreatedAtSource : string;
  AgeDays : option Z;
  RDAPURL : string;
  RDAPCreatedAt : string;
  RDAPStatus : GoSlice string;
  RDAPEvents : GoSlice RDAPEvent;
  WhoisCreatedAt : string;
  WhoisExpirationDate : string;
  WhoisUpdatedDate : string;
  WhoisError : string;
  RDAPError : string;
  CacheHit : bool
}.

(** [info] with its two DDNS provider slices replaced. *)
Definition with_ddns (info : WhoisToolInfo) (byNS providers : GoSlice string) : WhoisToolInfo :=
  {| Domain := Domain info; RootDomain := RootDomain info;
     Registrar := Registrar info; RegistrarCountry := RegistrarCountry info;
     RegistrantOrg := RegistrantOrg info; RegistrantAddress := RegistrantAddress info;
     NameServers := NameServers info; IsAfraidHosted := IsAfraidHosted info;
     PSLRegistrableDomain := PSLRegistrableDomain info;
     PSLPublicRegistrableDomain := PSLPublicRegistrableDomain info;
     PSLPrivateSuffix := PSLPrivateSuffix info; PSLPublicSuffix := PSLPublicSuffix info;
     PSLPrivateOwner := PSLPrivateOwner info; PSLIsPrivate := PSLIsPrivate info;
     DDNSProviderBySuffix := DDNSProviderBySuffix info;
     DDNSProvidersByNS := byNS; DDNSProviders := providers;
     CreatedAt := CreatedAt info; CreatedAtSource := CreatedAtSource info;
     AgeDays := AgeDays info; RDAPURL := RDAPURL info;
     RDAPCreatedAt := RDAPCreatedAt info; RDAPStatus := RDAPStatus info;
     RDAPEvents := RDAPEvents info; WhoisCreatedAt := WhoisCreatedAt info;
     WhoisExpirationDate := WhoisExpirationDate info;
     WhoisUpdatedDate := WhoisUpdatedDate info; WhoisError := WhoisError info;
     RDAPError := RDAPError info; CacheHit := CacheHit info |}.

(** The subprocess: [exec.CommandContext(ctx, name, args...)] and
    [cmd.Run()]. *)
Inductive ProcE : Type :=
| ExecE (name : string) (args : list string).

(** What [cmd.Run] leaves behind: the bytes written to stdout and stderr
    and its error ([None] is nil).  The context's deadline, which kills
    the process, shows up only through this answer. *)
Record ExecResult := {
  res_stdout : string;
  res_stderr : string;
  res_err : option string
}.

Definition ProcResp (_ : ProcE) : Type := ExecResult.

Definition Tool (A : Type) : Type := Prog ProcE ProcResp A.

(** The errors the invoker returns. *)
Inductive InvokeError : Type :=
| ErrToolPathEmpty                 (* "whois tool path is empty" *)
| ErrToolFailed (stderr : string)  (* "whois tool failed: %s", trimmed stderr *)
| ErrToolFailedWrap (err : string) (* "whois tool failed: %w", the Run error *)
| ErrOutputEmpty                   (* "whois tool output was empty" *)
| ErrParse (err : string).         (* "whois tool output parse error: %w" *)

(** [timeoutSeconds := int(timeout.Seconds()); if <= 0 then 8]. *)
Definition timeoutSeconds (timeout : Z) : Z :=
  let t := Go.int_of_float64 (Go.Seconds timeout) in
  if Z.leb t 0 then 8 else t.

Definition default_python (pythonPath : string) : string :=
  if String.eqb pythonPath "" then "python3" else pythonPath.

(** The error returned when stdout is empty, or when it does not parse
    and [cmd.Run] failed. *)
Definition run_failure (res : ExecResult) : InvokeError :=
  match res_err res with
  | Some e =>
      if Nat.ltb 0 (String.length (res_stderr res))
      then ErrToolFailed (Go.TrimSpace (res_stderr res))
      else ErrToolFailedWrap e
  | None => ErrOutputEmpty
  end.

(** The loop building the result map (lines 103-116). *)
Definition build_result (parsed : list WhoisToolInfo) : gmap string WhoisToolInfo :=
  fold_left
    (fun (result : gmap string WhoisToolInfo) info =>
       if String.eqb (Domain info) "" then result
       else
         let byNS := match DDNSProvidersByNS info with None => Some [] | s => s end in
         let providers := match DDNSProviders info with None => Some [] | s => s end in
         <[Domain info := with_ddns info byNS providers]> result)
    parsed ∅.

Section Invoker.

(** [json.Unmarshal] into [[]WhoisToolInfo] and into [[]PSLPrivateEntry]
    (Go's library decoder): an error message or the decoded slice. *)
Variable Unmarshal : string -> string + GoSlice WhoisToolInfo.
Variable UnmarshalPSL : string -> string + GoSlice PSLPrivateEntry.

(** The returned pair: the map ([None] is a nil map) and the error. *)
Definition RunWhoisTool (pythonPath toolPath : string) (domains : list string) (timeout : Z)
  : Tool (option (gmap string WhoisToolInfo) * option InvokeError) :=
  if String.eqb toolPath "" then Ret (None, Some ErrToolPathEmpty) else
  let pythonPath := default_python pythonPath in
  match domains with
  | [] => Ret (Some ∅, None)
  | _ :: _ =>
      let joined := Go.Join domains "," in
      let secs := timeoutSeconds timeout in
      let args := [toolPath; "--list"; joined; "--timeout"; Go.Sprintf_d secs] in
      Vis (ExecE pythonPath args) (fun res : ExecResult =>
        let output := res_stdout res in
        if Nat.eqb (String.length output) 0 then Ret (None, Some (run_failure res)) else
        match Unmarshal output with
        | inl unmarshalErr =>
            match res_err res with
            | Some _ => Ret (None, Some (run_failure res))
            | None => Ret (None, Some (ErrParse unmarshalErr))
            end
        | inr parsed => Ret (Some (build_result (default [] parsed)), None)
        end)
  end.

(** The slice returned is [None] (nil) on error, and whatever the decoder
    produced on success. *)
Definition RunWhoisPSLPrivateList (pythonPath toolPath : string) (timeout : Z)
  : Tool (GoSlice PSLPrivateEntry * option InvokeError) :=
  if String.eqb toolPath "" then Ret (None, Some ErrToolPathEmpty) else
  let pythonPath := default_python pythonPath in
  let secs := timeoutSeconds timeout in
  let args := [toolPath; "--psl-private-list"; "--timeout"; Go.Sprintf_d secs] in
  Vis (ExecE pythonPath args) (fun res : ExecResult =>
    let output := res_stdout res in
    if Nat.eqb (String.length output) 0 then Ret (None, Some (run_failure res)) else
    match UnmarshalPSL output with
    | inl unmarshalErr =>
        match res_err res with
        | Some _ => Ret (None, Some (run_failure res))
        | None => Ret (None, Some (ErrParse unmarshalErr))
        end
    | inr parsed => Ret (parsed, None)
    end).

End Invoker.

End Whois.

(* ------------------------------------------------------------------ *)
(** ** [net.ParseIP] (Go 1.23: [netip.ParseAddr], zones rejected) *)

Module NetIP.

Definition is_digit (c : ascii) : bool :=
  let n := nat_of_ascii c in Nat.leb 48 n && Nat.leb n 57.

Definition digit_val (c : ascii) : Z := Z.of_nat (nat_of_ascii c) - 48.

Definition hex_val (c : ascii) : option Z :=
  let n := Z.of_nat (nat_of_ascii c) in
  if (Z.leb 48 n && Z.leb n 57)%bool then Some (n - 48)
  else if (Z.leb 97 n && Z.leb n 102)%bool then Some (n - 97 + 10)
  else if (Z.leb 65 n && Z.leb n 70)%bool then Some (n - 65 + 10)
  else None.

(** [parseIPv4Fields] on the remaining bytes: [at_start] is [i == 0],
    [prev_dot] is [s[i-1] == '.'], then [val], [digLen] and [pos]. *)
Fixpoint parseIPv4Fields (s : list ascii) (at_start prev_dot : bool) (val digLen pos : Z) : bool :=
  match s with
  | [] => Z.leb 3 pos
  | c :: rest =>
      if is_digit c then
        if (Z.eqb digLen 1 && Z.eqb val 0)%bool then false
        else
          let val' := val * 10 + digit_val c in
          if Z.ltb 255 val' then false
          else parseIPv4Fields rest false false val' (digLen + 1) pos
      else if Ascii.eqb c "." then
        if (at_start || match rest with [] => true | _ => false end || prev_dot)%bool then false
        else if Z.eqb pos 3 then false
        else parseIPv4Fields rest false true 0 0 (pos + 1)
      else false
  end.

Definition parseIPv4 (s : list ascii) : bool := parseIPv4Fields s true false 0 0 0.

(** The hex group at the front of [s]: [Some (off, acc)] or an error
    ("each group must have 4 or less digits", "value >=2^16"). *)
Fixpoint hex_group (s : list ascii) (off : nat) (acc : Z) : option (nat * Z) :=
  match s with
  | [] => Some (off, acc)
  | c :: rest =>
      match hex_val c with
      | None => Some (off, acc)
      | Some v =>
          let acc' := acc * 16 + v in
          if Nat.ltb 3 off then None
          else if Z.ltb 65535 acc' then None
          else hex_group rest (S off) acc'
      end
  end.

(** The [for i < 16] loop of [parseIPv6]: the remaining bytes, [i] and
    [ellipsis] when it stops, [None] on an error.  Each round adds at
    least 2 to [i], so 9 rounds of fuel suffice. *)
Fixpoint ipv6_loop (fuel : nat) (s : list ascii) (i ellipsis : Z) : option (list ascii * Z * Z) :=
  match fuel with
  | O => None
  | S f =>
      if negb (Z.ltb i 16) then Some (s, i, ellipsis) else
      match hex_group s 0 0 with
      | None => None
      | Some (off, _) =>
          if Nat.eqb off 0 then None else
          match skipn off s with
          | "."%char :: _ =>
              if (Z.ltb ellipsis 0 && negb (Z.eqb i 12))%bool then None
              else if Z.ltb 16 (i + 4) then None
              else if parseIPv4 s then Some ([], i + 4, ellipsis)
              else None
          | rest =>
              let i := i + 2 in
              match rest with
              | [] => Some ([], i, ellipsis)
              | c :: rest' =>
                  if negb (Ascii.eqb c ":") then None else
                  match rest' with
                  | [] => None
                  | c2 :: rest'' =>
                      if Ascii.eqb c2 ":" then
                        if Z.leb 0 ellipsis then None
                        else match rest'' with
                             | [] => Some ([], i, i)
                             | _ => ipv6_loop f rest'' i i
                             end
                      else ipv6_loop f rest' i ellipsis
                  end
              end
          end
      end
  end.

(** [break_at c s]: the bytes before the first [c] and, when there is
    one, the bytes after it. *)
Fixpoint break_at (c : ascii) (s : list ascii) : list ascii * option (list ascii) :=
  match s with
  | [] => ([], None)
  | x :: rest =>
      if Ascii.eqb x c then ([], Some rest)
      else let '(a, b) := break_at c rest in (x :: a, b)
  end.

(** [parseIPv6]: [Some zone] on success. *)
Definition parseIPv6 (input : list ascii) : option (list ascii) :=
  let '(s, z) := break_at "%" input in
  let zone := match z with Some zn => zn | None => [] end in
  if (match z with Some [] => true | _ => false end) then None else
  let '(s, ellipsis) :=
    match s with
    | ":"%char :: ":"%char :: rest => (rest, 0)
    | _ => (s, -1)
    end in
  if (Z.eqb ellipsis 0 && match s with [] => true | _ => false end)%bool then Some zone else
  match ipv6_loop 9 s 0 ellipsis with
  | None => None
  | Some (s', i, ell) =>
      match s' with
      | _ :: _ => None
      | [] =>
          if Z.ltb i 16 then (if Z.ltb ell 0 then None else Some zone)
          else if Z.leb 0 ell then None
          else Some zone
      end
  end.

(** [netip.ParseAddr]: dispatch on the first '.', ':' or '%'. *)
Fixpoint ParseAddr_scan (s : list ascii) (whole : list ascii) : option (list ascii) :=
  match s with
  | [] => None
  | c :: rest =>
      if Ascii.eqb c "." then (if parseIPv4 whole then Some [] else None)
      else if Ascii.eqb c ":" then parseIPv6 whole
      else if Ascii.eqb c "%" then None
      else ParseAddr_scan rest whole
  end.

(** [net.ParseIP(s) != nil]: [netip.ParseAddr] succeeds with no zone. *)
Definition ParseIP (s : string) : bool :=
  let l := list_ascii_of_string s in
  match ParseAddr_scan l l with
  | Some [] => true
  | _ => false
  end.

End NetIP.

Module Unique.

(** [strings.TrimSpace(strings.TrimSuffix(raw, "."))]. *)
Definition normalize (raw : string) : string :=
  Go.TrimSpace (Go.TrimSuffix raw ".").

(** [uniqueDomains]: the loop over [inputs] with [seen] and [out]. *)
Definition uniqueDomains (inputs : list string) : list string :=
  snd (fold_left
    (fun (acc : gset string * list string) raw =>
       let '(seen, out) := acc in
       let host := normalize raw in
       if String.eqb host "" then acc
       else if NetIP.ParseIP host then acc
       else if decide (host ∈ seen) then acc
       else ({[host]} ∪ seen, app out [host]))
    inputs (∅, [])).

End Unique.

(* ------------------------------------------------------------------ *)
(** ** Observing an invocation *)

Module WhoisRun.
Import Whois.

(** The program which the first request is [cmd.Run] answers with. *)
Definition after_exec {A} (p : Tool A) (res : ExecResult) : option (Tool A) :=
  match p with
  | Vis (ExecE _ _) k => Some (k res)
  | Ret _ => None
  end.

(** The interpreter and argument vector of the first launch, if any. *)
Definition exec_of {A} (p : Tool A) : option (string * list string) :=
  match p with
  | Vis (ExecE name args) _ => Some (name, args)
  | Ret _ => None
  end.

(** [p] launches [name args] once and then returns, whatever the
    process did. *)
Definition launches_once {A} (p : Tool A) (name : string) (args : list string) : Prop :=
  exists k, p = Vis (ExecE name args) k /\ forall res, exists a, k res = Ret a.

(** [p] may return [r]: at once, or after one launch. *)
Definition may_return {A} (p : Tool A) (r : A) : Prop :=
  p = Ret r \/ exists res, after_exec p res = Some (Ret r).

(** The record kept for [key]: the last parsed record with that domain. *)
Definition last_with_domain (key : string) (parsed : list WhoisToolInfo) : option WhoisToolInfo :=
  List.find (fun r => String.eqb (Domain r) key) (rev parsed).

(** A record as it is stored: nil DDNS slices replaced by empty ones. *)
Definition filled (info : WhoisToolInfo) : WhoisToolInfo :=
  with_ddns info
    (match DDNSProvidersByNS info with None => Some [] | s => s end)
    (match DDNSProviders info with None => Some [] | s => s end).

(** *** The validation the specification describes (claim C1), over a
    file system given by [stat] and the interpreter's [--version] banner. *)
Record FileInfo := {
  fi_regular : bool;
  fi_dir : bool;
  fi_executable : bool;
  fi_version_banner : option string  (* the output of [--version] within 2s *)
}.

Definition FileSystem : Type := string -> option FileInfo.

Fixpoint contains (s sub : string) : bool :=
  match s with
  | EmptyString => String.eqb sub ""
  | String _ rest => Go.HasPrefix s sub || contains rest sub
  end.

Definition python_allowlist : list string :=
  ["python3"; "python"; "/usr/bin/python3"; "/usr/bin/python";
   "/usr/local/bin/python3"; "/usr/local/bin/python"].

Definition spec_tool_rejected (fs : FileSystem) (tool : string) : Prop :=
  tool = "" \/ contains tool "/" = false \/
  (match fs tool with Some fi => fi_regular fi = false | None => True end) \/
  Go.HasSuffix tool ".py" = false.

Definition spec_python_rejected (fs : FileSystem) (py : string) : Prop :=
  ~ In py python_allowlist /\
  ~ (Go.HasPrefix py "/" = true /\
     exists fi, fs py = Some fi /\ fi_dir fi = false /\ fi_executable fi = true /\
       exists banner, fi_version_banner fi = Some banner /\ contains banner "python" = true).

(** A record as [json.Unmarshal] fills it from
    [{"domain": d, "registrar": r}]: every other field has its zero value. *)
Definition decoded_record (d r : string) : WhoisToolInfo :=
  {| Domain := d; RootDomain := ""; Registrar := r; RegistrarCountry := "";
     RegistrantOrg := ""; RegistrantAddress := ""; NameServers := None;
     IsAfraidHosted := false; PSLRegistrableDomain := ""; PSLPublicRegistrableDomain := "";
     PSLPrivateSuffix := ""; PSLPublicSuffix := ""; PSLPrivateOwner := "";
     PSLIsPrivate := false; DDNSProviderBySuffix := ""; DDNSProvidersByNS := None;
     DDNSProviders := None; CreatedAt := ""; CreatedAtSource := ""; AgeDays := None;
     RDAPURL := ""; RDAPCreatedAt := ""; RDAPStatus := None; RDAPEvents := None;
     WhoisCreatedAt := ""; WhoisExpirationDate := ""; WhoisUpdatedDate := "";
     WhoisError := ""; RDAPError := ""; CacheHit := false |}.

Definition dq : string := String (ascii_of_nat 34) "".

(** The JSON text value [s], quoted. *)
Definition jstr (s : string) : string := dq ++ s ++ dq.

(** The stdout [[{"domain":"a.example","registrar":"One"},
    {"domain":"a.example","registrar":"Two"}]]. *)
Definition duplicate_stdout : string :=
  "[{" ++ jstr "domain" ++ ":" ++ jstr "a.example" ++ "," ++ jstr "registrar" ++ ":" ++ jstr "One" ++
  "},{" ++ jstr "domain" ++ ":" ++ jstr "a.example" ++ "," ++ jstr "registrar" ++ ":" ++ jstr "Two" ++ "}]".

(** [json.Unmarshal] at that stdout. *)
Definition duplicate_decoder (s : string) : string + GoSlice WhoisToolInfo :=
  if String.eqb s duplicate_stdout
  then inr (Some [decoded_record "a.example" "One"; decoded_record "a.example" "Two"])
  else inl "invalid character".

End WhoisRun.

(* ------------------------------------------------------------------ *)
(** ** The configuration loader ([cmd/dnsgeeo/config_loader.go]) *)

Module Loader.

(** The variables the CLI options point to.  A Go [*string] points into
    the string cells, a [*int] into the integer cells, a [*bool] into the
    boolean cells; two pointers of one type may point to the same cell. *)
Definition loc := nat.

Record Heap := {
  hs : loc -> string;
  hi : loc -> Z;
  hb : loc -> bool
}.

Definition upd_s (h : Heap) (l : loc) (v : string) : Heap :=
  {| hs := fun l' => if Nat.eqb l' l then v else hs h l'; hi := hi h; hb := hb h |}.
Definition upd_i (h : Heap) (l : loc) (v : Z) : Heap :=
  {| hs := hs h; hi := fun l' => if Nat.eqb l' l then v else hi h l'; hb := hb h |}.
Definition upd_b (h : Heap) (l : loc) (v : bool) : Heap :=
  {| hs := hs h; hi := hi h; hb := fun l' => if Nat.eqb l' l then v else hb h l' |}.

(** [cliOptions]: each field a pointer, [None] for nil. *)
Record cliOptions := {
  dnsServers : option loc;
  timeoutMS : option loc;
  parallel : option loc;
  preferIPv6 : option loc;
  cityDB : option loc;
  asnDB : option loc;
  pretty : option loc;
  checkMalicious : option loc;
  enableWhois : option loc;
  whoisToolPath : option loc;
  whoisPython : option loc;
  whoisTimeoutMS : option loc;
  outputFile : option loc;
  maxmindKey : option loc;
  dbUpdateHours : option loc
}.

(** [strconv.Atoi] on a 64-bit platform: an optional sign, at least one
    decimal digit, a value in the int64 range. *)
Fixpoint dec_value (s : list ascii) (acc : Z) : option Z :=
  match s with
  | [] => Some acc
  | c :: rest =>
      if NetIP.is_digit c then dec_value rest (acc * 10 + NetIP.digit_val c) else None
  end.

Definition Atoi (s : string) : option Z :=
  let l := list_ascii_of_string s in
  let '(neg, digits) :=
    match l with
    | "-"%char :: rest => (true, rest)
    | "+"%char :: rest => (false, rest)
    | _ => (false, l)
    end in
  match digits with
  | [] => None
  | _ =>
      match dec_value digits 0 with
      | None => None
      | Some n =>
          let v := if neg then - n else n in
          if (Z.leb (- 2 ^ 63) v && Z.ltb v (2 ^ 63))%bool then Some v else None
      end
  end.

(** [strconv.ParseBool]. *)
Definition ParseBool (s : string) : option bool :=
  if existsb (String.eqb s) ["1"; "t"; "T"; "TRUE"; "true"; "True"] then Some true
  else if existsb (String.eqb s) ["0"; "f"; "F"; "FALSE"; "false"; "False"] then Some false
  else None.

(** [setFlags[name]]: a missing key reads false. *)
Definition is_set (setFlags : gmap string bool) (name : string) : bool :=
  default false (setFlags !! name).

(** [strconv.ErrSyntax] and [strconv.ErrRange]. *)
Inductive NumErrorKind : Type :=
| ErrSyntax
| ErrRange.

(** [*strconv.NumError]: the function that failed, its input and the
    cause. *)
Record NumError := {
  ne_Func : string;
  ne_Num : string;
  ne_Err : NumErrorKind
}.

(** The digit loop of [strconv.ParseUint(s, 10, 0)] on a 64-bit
    platform: a byte that is not a decimal digit is a syntax error, an
    accumulated value reaching 2^64 a range error, whichever comes
    first. *)
Fixpoint uint_scan (s : list ascii) (n : Z) : option NumErrorKind :=
  match s with
  | [] => None
  | c :: rest =>
      if NetIP.is_digit c then
        let n1 := n * 10 + NetIP.digit_val c in
        if Z.leb (2 ^ 64) n1 then Some ErrRange else uint_scan rest n1
      else Some ErrSyntax
  end.

(** The error [strconv.Atoi(s)] returns when it fails ([Atoi s = None]):
    strings of 1 to 18 bytes take the fast path, which only reports
    syntax errors; the others go through [ParseInt(s, 10, 0)], whose
    range errors (of [ParseUint] or of the int64 bounds) and syntax
    errors keep [Num = s], with [Func] set to [Atoi]. *)
Definition atoi_error (s : string) : NumError :=
  let len := String.length s in
  let kind :=
    if (Nat.ltb 0 len && Nat.ltb len 19)%bool then ErrSyntax
    else
      let l := list_ascii_of_string s in
      let digits :=
        match l with
        | "-"%char :: rest => rest
        | "+"%char :: rest => rest
        | _ => l
        end in
      match digits with
      | [] => ErrSyntax
      | _ => match uint_scan digits 0 with Some k => k | None => ErrRange end
      end in
  {| ne_Func := "Atoi"; ne_Num := s; ne_Err := kind |}.

(** The error of [strconv.ParseBool(s)]: [syntaxError("ParseBool", s)]. *)
Definition parse_bool_error (s : string) : NumError :=
  {| ne_Func := "ParseBool"; ne_Num := s; ne_Err := ErrSyntax |}.

(** The errors [applyConfigValues] returns:
    [fmt.Errorf("<name> must be an integer: %w", err)] and
    [fmt.Errorf("<name> must be a boolean: %w", err)], wrapping the
    strconv error. *)
Inductive ApplyError : Type :=
| ErrMustBeInteger (name : string) (err : NumError)
| ErrMustBeBoolean (name : string) (err : NumError).

(** The [Error] method of [*strconv.NumError]: ["strconv." + Func + ": parsing " +
    Quote(Num) + ": " + Err.Error()].  [strconv.Quote] depends on
    Unicode's printable ranges and is a parameter. *)
Definition NumError_Error (Quote : string -> string) (e : NumError) : string :=
  "strconv." ++ ne_Func e ++ ": parsing " ++ Quote (ne_Num e) ++ ": " ++
  match ne_Err e with
  | ErrSyntax => "invalid syntax"
  | ErrRange => "value out of range"
  end.

(** The text of an [applyConfigValues] error, as [%v] prints it. *)
Definition ApplyError_Error (Quote : string -> string) (e : ApplyError) : string :=
  match e with
  | ErrMustBeInteger name err => name ++ " must be an integer: " ++ NumError_Error Quote err
  | ErrMustBeBoolean name err => name ++ " must be a boolean: " ++ NumError_Error Quote err
  end.

(** One arm of the switch: [if opt != nil && !setFlags[name] { ... }].
    The result is the new heap, or the error returned. *)
Definition set_string (setFlags : gmap string bool) (opt : option loc) (name val : string) (h : Heap)
  : Heap + ApplyError :=
  match opt with
  | Some l => if is_set setFlags name then inl h else inl (upd_s h l val)
  | None => inl h
  end.

Definition set_int (setFlags : gmap string bool) (opt : option loc) (name val : string) (h : Heap)
  : Heap + ApplyError :=
  match opt with
  | Some l =>
      if is_set setFlags name then inl h
      else match Atoi val with
           | Some n => inl (upd_i h l n)
           | None => inr (ErrMustBeInteger name (atoi_error val))
           end
  | None => inl h
  end.

Definition set_bool (setFlags : gmap string bool) (opt : option loc) (name val : string) (h : Heap)
  : Heap + ApplyError :=
  match opt with
  | Some l =>
      if is_set setFlags name then inl h
      else match ParseBool val with
           | Some b => inl (upd_b h l b)
           | None => inr (ErrMustBeBoolean name (parse_bool_error val))
           end
  | None => inl h
  end.

(** The body of [for key, val := range values { switch key { ... } }]. *)
Definition apply_entry (setFlags : gmap string bool) (opts : cliOptions) (key val : string) (h : Heap)
  : Heap + ApplyError :=
  if String.eqb key "dns" then set_string setFlags (dnsServers opts) "dns" val h
  else if String.eqb key "timeout-ms" then set_int setFlags (timeoutMS opts) "timeout-ms" val h
  else if String.eqb key "parallel" then set_int setFlags (parallel opts) "parallel" val h
  else if String.eqb key "prefer-ipv6" then set_bool setFlags (preferIPv6 opts) "prefer-ipv6" val h
  else if String.eqb key "city-db" then set_string setFlags (cityDB opts) "city-db" val h
  else if String.eqb key "asn-db" then set_string setFlags (asnDB opts) "asn-db" val h
  else if String.eqb key "pretty" then set_bool setFlags (pretty opts) "pretty" val h
  else if String.eqb key "check-malicious" then set_bool setFlags (checkMalicious opts) "check-malicious" val h
  else if String.eqb key "whois" then set_bool setFlags (enableWhois opts) "whois" val h
  else if String.eqb key "whois-tool" then set_string setFlags (whoisToolPath opts) "whois-tool" val h
  else if String.eqb key "whois-python" then set_string setFlags (whoisPython opts) "whois-python" val h
  else if String.eqb key "whois-timeout-ms" then set_int setFlags (whoisTimeoutMS opts) "whois-timeout-ms" val h
  else if String.eqb key "output" then set_string setFlags (outputFile opts) "output" val h
  else if String.eqb key "maxmind-license-key" then set_string setFlags (maxmindKey opts) "maxmind-license-key" val h
  else if String.eqb key "db-update-hours" then set_int setFlags (dbUpdateHours opts) "db-update-hours" val h
  else inl h.

(** [applyConfigValues]: [values] lists the map's entries in the order the
    range loop visits them (Go picks it at run time).  The first error is
    returned, leaving the writes made before it in place. *)
Fixpoint applyConfigValues (values : list (string * string)) (setFlags : gmap string bool)
    (opts : cliOptions) (h : Heap) : Heap * option ApplyError :=
  match values with
  | [] => (h, None)
  | (key, val) :: rest =>
      match apply_entry setFlags opts key val h with
      | inl h' => applyConfigValues rest setFlags opts h'
      | inr err => (h, Some err)
      end
  end.

(** The config keys of the options, with their pointers. *)
Definition option_keys (opts : cliOptions) : list (string * option loc * nat) :=
  [("dns", dnsServers opts, 0);      ("timeout-ms", timeoutMS opts, 1);
   ("parallel", parallel opts, 1);   ("prefer-ipv6", preferIPv6 opts, 2);
   ("city-db", cityDB opts, 0);      ("asn-db", asnDB opts, 0);
   ("pretty", pretty opts, 2);       ("check-malicious", checkMalicious opts, 2);
   ("whois", enableWhois opts, 2);   ("whois-tool", whoisToolPath opts, 0);
   ("whois-python", whoisPython opts, 0); ("whois-timeout-ms", whoisTimeoutMS opts, 1);
   ("output", outputFile opts, 0);   ("maxmind-license-key", maxmindKey opts, 0);
   ("db-update-hours", dbUpdateHours opts, 1)]%nat.

End Loader.

(* ------------------------------------------------------------------ *)
(** ** The GeoLite refresher ([maybeUpdateGeoLiteDatabases]) *)

Module GeoUpdate.

(** [os.Stat]: the file is missing, [Stat] failed otherwise, or the file
    exists and [time.Since(info.ModTime())] is [age]. *)
Inductive StatAnswer : Type :=
| StatNotExist
| StatError (err : string)
| StatOK (age : Z).

Inductive UpdE : Type :=
| UStat (path : string)
| UStderr (msg : string)
| UDownload (licenseKey editionID destPath : string).

(** [downloadGeoLiteEdition] answers its error ([None] for nil). *)
Definition UpdResp (e : UpdE) : Type :=
  match e with
  | UStat _ => StatAnswer
  | UStderr _ => unit
  | UDownload _ _ _ => option string
  end.

Definition Upd (A : Type) : Type := Prog UpdE UpdResp A.

(** [fileNeedsRefresh(path, maxAge)]: the flag, or the error. *)
Definition fileNeedsRefresh (path : string) (maxAge : Z) : Upd (bool + string) :=
  Vis (UStat path) (fun a : StatAnswer =>
    match a with
    | StatNotExist => Ret (inl true)
    | StatError err => Ret (inr err)
    | StatOK age => if Z.leb maxAge 0 then Ret (inl false) else Ret (inl (Z.leb maxAge age))
    end).

(** The loop over [targets]. *)
Fixpoint refresh_targets (licenseKey : string) (maxAge : Z)
    (targets : list (string * string * string)) : Upd (option string) :=
  match targets with
  | [] => Ret None
  | (path, edition, label) :: rest =>
      if String.eqb path "" then refresh_targets licenseKey maxAge rest else
      r <- fileNeedsRefresh path maxAge ;;
      match r with
      | inr err => Ret (Some ("check " ++ label ++ " freshness: " ++ err))
      | inl false => refresh_targets licenseKey maxAge rest
      | inl true =>
          _ <- Vis (UStderr ("Refreshing " ++ label ++ " database (target: " ++ path ++ ")"))
                   (fun _ : unit => Ret tt) ;;
          Vis (UDownload licenseKey edition path) (fun derr : option string =>
            match derr with
            | Some err => Ret (Some ("refresh " ++ label ++ " database: " ++ err))
            | None => refresh_targets licenseKey maxAge rest
            end)
      end
  end.

(** [maybeUpdateGeoLiteDatabases]: the error returned ([None] for nil). *)
Definition maybeUpdateGeoLiteDatabases (licenseKey : string) (maxAge : Z) (cityPath asnPath : string)
  : Upd (option string) :=
  if Z.leb maxAge 0 then Ret None
  else if String.eqb (Go.TrimSpace licenseKey) "" then
    Ret (Some "maxmind license key is required when db-update-hours is set")
  else refresh_targets licenseKey maxAge
         [(cityPath, "GeoLite2-City", "GeoLite2 City"); (asnPath, "GeoLite2-ASN", "GeoLite2 ASN")].

End GeoUpdate.

(* ------------------------------------------------------------------ *)
(** ** The CLI ([func main]) *)

Module CLI.
Import Loader.

(** [dnsgeeo.Config] as [main] fills it. *)
Record Config := {
  DNSServers : list string;
  LookupTimeout : Z;
  Parallelism : Z;
  PreferIPv6 : bool;
  CheckMalicious : bool;
  EnableWhois : bool;
  WhoisToolPath : string;
  WhoisPython : string;
  WhoisTimeout : Z;
  CityDBPath : string;
  ASNDBPath : string;
  IPCacheSize : Z;
  IPCacheTTL : Z
}.

(** The cells of [main]'s local variables. *)
Definition L_list : loc := 0%nat.
Definition L_dnsServers : loc := 1%nat.
Definition L_cityDB : loc := 2%nat.
Definition L_asnDB : loc := 3%nat.
Definition L_whoisToolPath : loc := 4%nat.
Definition L_whoisPython : loc := 5%nat.
Definition L_outputFile : loc := 6%nat.
Definition L_configPath : loc := 7%nat.
Definition L_maxmindKey : loc := 8%nat.
Definition L_timeoutMS : loc := 0%nat.
Definition L_parallel : loc := 1%nat.
Definition L_whoisTimeoutMS : loc := 2%nat.
Definition L_dbUpdateHours : loc := 3%nat.
Definition L_preferIPv6 : loc := 0%nat.
Definition L_pretty : loc := 1%nat.
Definition L_checkMalicious : loc := 2%nat.
Definition L_enableWhois : loc := 3%nat.
Definition L_pslPrivateList : loc := 4%nat.

(** A flag registration: [flag.StringVar(&v, name, def, usage)] etc. *)
Inductive FlagDef : Type :=
| FString (l : loc) (def : string)
| FInt (l : loc) (def : Z)
| FBool (l : loc) (def : bool).

Definition flag_defs (getenv : string -> string) : list (string * FlagDef) :=
  [("list", FString L_list "");
   ("dns", FString L_dnsServers "8.8.8.8:53,8.8.4.4:53");
   ("timeout-ms", FInt L_timeoutMS 2000);
   ("parallel", FInt L_parallel 64);
   ("prefer-ipv6", FBool L_preferIPv6 true);
   ("city-db", FString L_cityDB (getenv "GEOLITE2_CITY_DB"));
   ("asn-db", FString L_asnDB (getenv "GEOLITE2_ASN_DB"));
   ("pretty", FBool L_pretty false);
   ("check-malicious", FBool L_checkMalicious true);
   ("whois", FBool L_enableWhois true);
   ("whois-tool", FString L_whoisToolPath "");
   ("whois-python", FString L_whoisPython "python3");
   ("whois-timeout-ms", FInt L_whoisTimeoutMS 20000);
   ("psl-private-list", FBool L_pslPrivateList false);
   ("output", FString L_outputFile "");
   ("config", FString L_configPath "");
   ("maxmind-license-key", FString L_maxmindKey (getenv "MAXMIND_LICENSE_KEY"));
   ("db-update-hours", FInt L_dbUpdateHours 0)].

Definition zero_heap : Heap := {| hs := fun _ => ""; hi := fun _ => 0; hb := fun _ => false |}.

(** The registration stores each default in its variable. *)
Definition register (h : Heap) (d : string * FlagDef) : Heap :=
  match snd d with
  | FString l v => upd_s h l v
  | FInt l v => upd_i h l v
  | FBool l v => upd_b h l v
  end.

Definition initial_heap (getenv : string -> string) : Heap :=
  fold_left register (flag_defs getenv) zero_heap.

(** The command line as [flag.Parse] reads it: the flags given, in order,
    with their values, and the remaining arguments. *)
Inductive FlagValue : Type :=
| VString (s : string)
| VInt (n : Z)
| VBool (b : bool).

Record CommandLine := {
  cl_flags : list (string * FlagValue);
  cl_args : list string
}.

(** [flag.Parse]: each flag given sets its variable; an undefined flag or
    an ill-typed value makes it fail, and exit with [flag_exit_status]. *)
Fixpoint parse_flags (defs : list (string * FlagDef)) (h : Heap) (given : list (string * FlagValue))
  : option Heap :=
  match given with
  | [] => Some h
  | (name, v) :: rest =>
      match List.find (fun d => String.eqb (fst d) name) defs, v with
      | Some (_, FString l _), VString s => parse_flags defs (upd_s h l s) rest
      | Some (_, FInt l _), VInt n => parse_flags defs (upd_i h l n) rest
      | Some (_, FBool l _), VBool b => parse_flags defs (upd_b h l b) rest
      | _, _ => None
      end
  end.

(** The exit status of [flag.Parse] (ExitOnError) when [parse_flags]
    fails: the first flag it cannot take decides.  An undefined [-h] or
    [-help] is [flag.ErrHelp], on which it exits 0; any other undefined
    flag or ill-typed value makes it exit 2. *)
Fixpoint flag_exit_status (defs : list (string * FlagDef)) (given : list (string * FlagValue)) : Z :=
  match given with
  | [] => 2
  | (name, v) :: rest =>
      match List.find (fun d => String.eqb (fst d) name) defs, v with
      | Some (_, FString _ _), VString _ => flag_exit_status defs rest
      | Some (_, FInt _ _), VInt _ => flag_exit_status defs rest
      | Some (_, FBool _ _), VBool _ => flag_exit_status defs rest
      | None, _ => if (String.eqb name "h" || String.eqb name "help")%bool then 0 else 2
      | _, _ => 2
      end
  end.

(** [flag.Visit] over the flags set: [setFlags[f.Name] = true]. *)
Definition visited (given : list (string * FlagValue)) : gmap string bool :=
  fold_left (fun (m : gmap string bool) fv => <[fst fv := true]> m) given ∅.

Definition main_opts : cliOptions :=
  {| dnsServers := Some L_dnsServers; timeoutMS := Some L_timeoutMS;
     parallel := Some L_parallel; preferIPv6 := Some L_preferIPv6;
     cityDB := Some L_cityDB; asnDB := Some L_asnDB; pretty := Some L_pretty;
     checkMalicious := Some L_checkMalicious; enableWhois := Some L_enableWhois;
     whoisToolPath := Some L_whoisToolPath; whoisPython := Some L_whoisPython;
     whoisTimeoutMS := Some L_whoisTimeoutMS; outputFile := Some L_outputFile;
     maxmindKey := Some L_maxmindKey; dbUpdateHours := Some L_dbUpdateHours |}.

(** What [resolveConfigPath] returns: the map's entries (in the order a
    range over it visits them; none for a nil map), the source and the
    error. *)
Definition ConfigAnswer : Type := list (string * string) * string * option string.

(** The requests [main] makes, each with the error it gets back
    ([None] for nil) where it has one. *)
Inductive MainE : Type :=
| EResolveConfig (explicitPath : string)
| EStatFile (path : string)
| ERunPSL (pythonPath toolPath : string) (timeout : Z)
| EGeoUpdate (licenseKey : string) (maxAge : Z) (cityPath asnPath : string)
| EOpenDBs (cfg : Config)
| EInitCache (size ttl : Z)
| EBatch (cfg : Config) (inputs : list string)
| EWriteFile (path : string)
| EStdout
| EStderr (msg : string)
| ECloseDBs.

Definition MainResp (e : MainE) : Type :=
  match e with
  | EResolveConfig _ => ConfigAnswer
  | EStatFile _ => bool
  | ERunPSL _ _ _ | EGeoUpdate _ _ _ _ | EOpenDBs _ | EBatch _ _ | EWriteFile _ => option string
  | EInitCache _ _ | EStdout | EStderr _ | ECloseDBs => unit
  end.

(** A run of [main] ends with its exit status. *)
Definition Main (A : Type) : Type := Prog MainE MainResp A.

Definition say (msg : string) : Main unit := Vis (EStderr msg) (fun _ : unit => Ret tt).

(** [os.WriteFile(outputFile, ...)] or [os.Stdout.Write]; [finish] runs
    after a successful write ([os.Exit(1)] on a failed one). *)
Definition write_output (h : Heap) (finish : Main Z) : Main Z :=
  if negb (String.eqb (hs h L_outputFile) "") then
    Vis (EWriteFile (hs h L_outputFile)) (fun err : option string =>
      match err with
      | Some e => _ <- say ("Failed to write output file: " ++ e) ;; Ret 1
      | None => finish
      end)
  else Vis EStdout (fun _ : unit => finish).

(** The inputs: the trimmed non-empty pieces of [--list], then
    [flag.Args()]. *)
Definition collect_inputs (listv : string) (args : list string) : list string :=
  let fromList :=
    if String.eqb listv "" then []
    else filter (fun t => negb (String.eqb t "")) (map Go.TrimSpace (Go.Split listv ",")) in
  app fromList args.

Section Main.
Variable ParseServers : string -> list string.
(** [strconv.Quote], used when an [applyConfigValues] error is printed. *)
Variable Quote : string -> string.

Definition build_config (h : Heap) : Config :=
  {| DNSServers := ParseServers (hs h L_dnsServers);
     LookupTimeout := Go.dur_mul (hi h L_timeoutMS) Go.Millisecond;
     Parallelism := hi h L_parallel;
     PreferIPv6 := hb h L_preferIPv6;
     CheckMalicious := hb h L_checkMalicious;
     EnableWhois := hb h L_enableWhois;
     WhoisToolPath := hs h L_whoisToolPath;
     WhoisPython := hs h L_whoisPython;
     WhoisTimeout := Go.dur_mul (hi h L_whoisTimeoutMS) Go.Millisecond;
     CityDBPath := hs h L_cityDB;
     ASNDBPath := hs h L_asnDB;
     IPCacheSize := 10000;
     IPCacheTTL := 10 * Go.Minute |}.

(** From the [db-update-hours] check to the end of [main]. *)
Definition batch_mode (h : Heap) (inputs : list string) : Main Z :=
  if Z.ltb (hi h L_dbUpdateHours) 0 then
    _ <- say "--db-update-hours cannot be negative" ;; Ret 2
  else
  let dbUpdateInterval := Go.dur_mul (hi h L_dbUpdateHours) Go.Hour in
  upd <- (if Z.ltb 0 dbUpdateInterval then
            if (String.eqb (hs h L_cityDB) "" && String.eqb (hs h L_asnDB) "")%bool then
              _ <- say "db-update-hours is set but no GeoLite2 DB paths were provided; skipping auto-update" ;;
              Ret None
            else
              Vis (EGeoUpdate (hs h L_maxmindKey) dbUpdateInterval (hs h L_cityDB) (hs h L_asnDB))
                  (fun err : option string => Ret err)
          else Ret None) ;;
  match upd with
  | Some e => _ <- say ("DB auto-update error: " ++ e) ;; Ret 1
  | None =>
      let cfg := build_config h in
      Vis (EOpenDBs cfg) (fun err : option string =>
        match err with
        | Some e => _ <- say ("DB error: " ++ e) ;; Ret 1
        | None =>
            Vis (EInitCache (IPCacheSize cfg) (IPCacheTTL cfg)) (fun _ : unit =>
              Vis (EBatch cfg inputs) (fun err : option string =>
                match err with
                | Some e => _ <- say ("Lookup error: " ++ e) ;; Ret 1
                | None => write_output h (Vis ECloseDBs (fun _ : unit => Ret 0))
                end))
        end)
  end.

(** The [--psl-private-list] branch. *)
Definition psl_mode (h : Heap) : Main Z :=
  if String.eqb (hs h L_whoisToolPath) "" then
    _ <- say "psl-private-list requires whois-rdap tool path; use --whois-tool" ;; Ret 2
  else
    Vis (ERunPSL (hs h L_whoisPython) (hs h L_whoisToolPath)
                 (Go.dur_mul (hi h L_whoisTimeoutMS) Go.Millisecond))
      (fun err : option string =>
         match err with
         | Some e => _ <- say ("PSL private list error: " ++ e) ;; Ret 1
         | None => write_output h (Ret 0)
         end).

Definition main (getenv : string -> string) (cl : CommandLine) : Main Z :=
  match parse_flags (flag_defs getenv) (initial_heap getenv) (cl_flags cl) with
  | None => Ret (flag_exit_status (flag_defs getenv) (cl_flags cl))
  | Some h0 =>
  let setFlags := visited (cl_flags cl) in
  Vis (EResolveConfig (hs h0 L_configPath)) (fun ans : ConfigAnswer =>
  let '(configValues, configSource, err) := ans in
  match err with
  | Some e =>
      let configSource := if String.eqb configSource "" then hs h0 L_configPath else configSource in
      _ <- say ("Config error (" ++ configSource ++ "): " ++ e) ;; Ret 1
  | None =>
  let applied :=
    if Nat.ltb 0 (length configValues)
    then applyConfigValues configValues setFlags main_opts h0 else (h0, None) in
  match snd applied with
  | Some e =>
      let configSource := if String.eqb configSource "" then "config file" else configSource in
      _ <- say ("Config parse error (" ++ configSource ++ "): " ++ ApplyError_Error Quote e) ;; Ret 1
  | None =>
  let h1 := fst applied in
  h2 <- (if String.eqb (hs h1 L_whoisToolPath) "" then
           Vis (EStatFile "./tools/whois_rdap.py") (fun ok : bool =>
             Ret (if ok then upd_s h1 L_whoisToolPath "./tools/whois_rdap.py" else h1))
         else Ret h1) ;;
  if hb h2 L_pslPrivateList then psl_mode h2 else
  let h3 :=
    if (negb (is_set setFlags "whois") &&
        negb (existsb (fun kv => String.eqb (fst kv) "whois") configValues) &&
        negb (String.eqb (hs h2 L_whoisToolPath) "") && negb (hb h2 L_enableWhois))%bool
    then upd_b h2 L_enableWhois true else h2 in
  let inputs := collect_inputs (hs h3 L_list) (cl_args cl) in
  match inputs with
  | [] => _ <- say "Usage: dnsgeeo [--config file] [--list host1,host2] ..." ;; Ret 2
  | _ :: _ => batch_mode h3 inputs
  end
  end
  end)
  end.

End Main.

End CLI.

(** The normalization as the specification words it: surrounding
    whitespace stripped, then a single trailing dot. *)
Module UniqueSpec.

Definition spec_normalize (raw : string) : string :=
  Go.TrimSuffix (Go.TrimSpace raw) ".".

End UniqueSpec.

(** Reading the heap cell of a kind (0 string, 1 integer, 2 boolean), and
    whether two options of one kind ever share a pointer. *)
Module LoaderFrame.
Import Loader.

Definition same_cell (k : nat) (l : loc) (h h' : Heap) : Prop :=
  match k with
  | O => hs h l = hs h' l
  | S O => hi h l = hi h' l
  | S (S O) => hb h l = hb h' l
  | _ => True
  end.

Definition opt_loc_eqb (p q : option loc) : bool :=
  match p, q with
  | Some a, Some b => Nat.eqb a b
  | _, _ => false
  end.

Definition pointers_distinct (opts : cliOptions) : bool :=
  let keys := option_keys opts in
  forallb (fun '(k1, p1, t1) =>
    forallb (fun '(k2, p2, t2) =>
      implb (opt_loc_eqb p1 p2 && Nat.eqb t1 t2) (String.eqb k1 k2)) keys) keys.

End LoaderFrame.

(** Properties of the requests a program can make, whatever it is
    answered, and the configurations [main] hands over. *)
Module MainTrace.
Import Loader CLI.

Inductive Safe {E : Type} {Resp : E -> Type} {A : Type} (P : E -> Prop) : Prog E Resp A -> Prop :=
| safe_ret (a : A) : Safe P (Ret a)
| safe_vis (e : E) (k : Resp e -> Prog E Resp A) :
    P e -> (forall r, Safe P (k r)) -> Safe P (Vis e k).

(** The [Config] a request carries: [OpenDBs(cfg)] and [RunBatch(cfg, ...)]. *)
Definition event_config (e : MainE) : option Config :=
  match e with
  | EOpenDBs cfg => Some cfg
  | EBatch cfg _ => Some cfg
  | _ => None
  end.

Definition cfg_events (Q : Config -> Prop) (e : MainE) : Prop :=
  forall cfg, event_config e = Some cfg -> Q cfg.

Definition cfg_in_trace (cfg : Config) (trace : list MainE) : Prop :=
  exists e, In e trace /\ event_config e = Some cfg.

(** The cell a flag stores into: kind (0 string, 1 int, 2 bool) and location. *)
Definition def_cell (d : FlagDef) : nat * loc :=
  match d with
  | FString l _ => (0%nat, l)
  | FInt l _ => (1%nat, l)
  | FBool l _ => (2%nat, l)
  end.

(** The keys whose defaults C6 speaks of. *)
Definition default_keys : list string := ["dns"; "timeout-ms"; "parallel"].

(** The config entries [resolveConfigPath] answers. *)
Definition config_entries (ans : ConfigAnswer) : list (string * string) := fst (fst ans).

Definition event_name (e : MainE) : string :=
  match e with
  | EResolveConfig _ => "resolveConfigPath"
  | EStatFile _ => "os.Stat"
  | ERunPSL _ _ _ => "RunWhoisPSLPrivateList"
  | EGeoUpdate _ _ _ _ => "maybeUpdateGeoLiteDatabases"
  | EOpenDBs _ => "OpenDBs"
  | EInitCache _ _ => "InitIPCache"
  | EBatch _ _ => "RunBatch"
  | EWriteFile _ => "os.WriteFile"
  | EStdout => "os.Stdout.Write"
  | EStderr _ => "os.Stderr"
  | ECloseDBs => "CloseDBs"
  end.

(** An environment with no config file, no bundled tool, and every
    operation succeeding. *)
Definition quiet_oracle (e : MainE) : MainResp e :=
  match e as e0 return MainResp e0 with
  | EResolveConfig _ => ([], "", None)
  | EStatFile _ => false
  | EInitCache _ _ | EStdout | EStderr _ | ECloseDBs => tt
  | ERunPSL _ _ _ | EGeoUpdate _ _ _ _ | EOpenDBs _ | EBatch _ _ | EWriteFile _ => None
  end.

End MainTrace.

(* ------------------------------------------------------------------ *)
(** ** [cmd/dnsgeeo/config_loader.go]: reading config files *)

Module ConfigFile.

Definition newline : ascii := ascii_of_nat 10.
Definition carriage_return : ascii := ascii_of_nat 13.
Definition double_quote : ascii := ascii_of_nat 34.
Definition single_quote : ascii := ascii_of_nat 39.

(** [strings.IndexByte(s, c)] (and [strings.IndexRune] for an ASCII rune). *)
Fixpoint IndexByte (s : string) (c : ascii) : option nat :=
  match s with
  | EmptyString => None
  | String x rest =>
      if Ascii.eqb x c then Some O
      else option_map S (IndexByte rest c)
  end.

(** [strings.ReplaceAll(s, old, new)] for one-byte [old] and [new]. *)
Fixpoint ReplaceAll_byte (s : string) (old new : ascii) : string :=
  match s with
  | EmptyString => EmptyString
  | String x rest =>
      String (if Ascii.eqb x old then new else x) (ReplaceAll_byte rest old new)
  end.

Definition is_ascii (s : string) : bool :=
  forallb (fun c => Nat.ltb (nat_of_ascii c) 128) (list_ascii_of_string s).

Definition ascii_lower (c : ascii) : ascii :=
  let n := nat_of_ascii c in
  if (Nat.leb 65 n && Nat.leb n 90)%bool then ascii_of_nat (n + 32) else c.

Fixpoint map_bytes (f : ascii -> ascii) (s : string) : string :=
  match s with
  | EmptyString => EmptyString
  | String x rest => String (f x) (map_bytes f rest)
  end.

(** The pieces of [data] between newlines, as [bufio.ScanLines] cuts
    them: a final newline ends the last line and starts none. *)
Definition segments (data : string) : list string :=
  let segs := Go.Split data newline in
  match rev segs with
  | "" :: before => rev before
  | _ => segs
  end.

(** [bufio.ScanLines]'s [dropCR]. *)
Definition dropCR (s : string) : string :=
  if Go.HasSuffix s (String carriage_return "") then substring 0 (String.length s - 1) s else s.

(** [bufio.MaxScanTokenSize]: a line whose bytes and line ending do not
    fit in 64 KiB stops the scanner with [bufio.ErrTooLong]. *)
Definition MaxScanTokenSize : nat := Nat.pow 2 16.

(** The tokens [scanner.Scan] hands out, and whether it then stopped
    because a line was too long. *)
Fixpoint take_tokens (segs : list string) : list string * bool :=
  match segs with
  | [] => ([], false)
  | x :: rest =>
      if Nat.leb MaxScanTokenSize (String.length x) then ([], true)
      else let '(t, e) := take_tokens rest in (dropCR x :: t, e)
  end.

(** The errors [parseConfig] and [parseConfigFile] return. *)
Inductive ConfigError : Type :=
| ErrInvalidLine (lineNumber : nat) (line : string)   (* invalid config line %d: %q *)
| ErrInvalidKey (lineNumber : nat)                    (* invalid config key on line %d *)
| ErrTooLong                                          (* bufio.ErrTooLong *)
| ErrRead (msg : string)                              (* the reader's error *)
| ErrOpen (notExist : bool) (msg : string).           (* os.Open's error; errors.Is(err, os.ErrNotExist) *)

(** [value = value[1 : len(value)-1]] when it is wrapped in a pair of
    double or single quotes. *)
Definition strip_quotes (value : string) : string :=
  let n := String.length value in
  if Nat.leb 2 n then
    match String.get 0 value, String.get (n - 1) value with
    | Some a, Some b =>
        if ((Ascii.eqb a double_quote && Ascii.eqb b double_quote) ||
            (Ascii.eqb a single_quote && Ascii.eqb b single_quote))%bool
        then substring 1 (n - 2) value else value
    | _, _ => value
    end
  else value.

Section Parser.

(** [strings.ToLower] on a string with a non-ASCII byte:
    [strings.Map(unicode.ToLower, s)] (Unicode case tables). *)
Variable ToLowerUnicode : string -> string.

(** [strings.ToLower]: its ASCII path, else the Unicode mapping. *)
Definition ToLower (s : string) : string :=
  if is_ascii s then map_bytes ascii_lower s else ToLowerUnicode s.

(** [canonicalKey]. *)
Definition canonicalKey (key : string) : string :=
  let key := Go.TrimSpace (ToLower key) in
  ReplaceAll_byte key "_" "-".

(** The body of [for scanner.Scan() { ... }]: [lineNumber] counts the
    lines read so far. *)
Fixpoint parse_lines (lines : list string) (lineNumber : nat) (result : gmap string string)
  : gmap string string + ConfigError :=
  match lines with
  | [] => inl result
  | text :: rest =>
      let lineNumber := S lineNumber in
      let line := Go.TrimSpace text in
      if (String.eqb line "" || Go.HasPrefix line "#" || Go.HasPrefix line ";")%bool
      then parse_lines rest lineNumber result else
      match IndexByte line "=" with
      | None => inr (ErrInvalidLine lineNumber line)
      | Some idx =>
          let rawKey := Go.TrimSpace (substring 0 idx line) in
          let value := Go.TrimSpace (substring (S idx) (String.length line - S idx) line) in
          let key := canonicalKey rawKey in
          if String.eqb key "" then inr (ErrInvalidKey lineNumber) else
          parse_lines rest lineNumber (<[key := strip_quotes value]> result)
      end
  end.

(** [parseConfig] on a reader yielding [data] and then EOF ([readErr =
    None]) or the error [readErr]. *)
Definition parseConfig (data : string) (readErr : option string) : gmap string string + ConfigError :=
  let '(tokens, tooLong) := take_tokens (segments data) in
  match parse_lines tokens 0 ∅ with
  | inr e => inr e
  | inl result =>
      if tooLong then inr ErrTooLong
      else match readErr with
           | Some e => inr (ErrRead e)
           | None => inl result
           end
  end.

(** What [os.Open] and reading the file give. *)
Inductive FileAnswer : Type :=
| FOpenError (notExist : bool) (msg : string)
| FData (data : string) (readErr : option string).

Definition parseConfigFile (fs : string -> FileAnswer) (path : string) : gmap string string + ConfigError :=
  match fs path with
  | FOpenError ne msg => inr (ErrOpen ne msg)
  | FData data readErr => parseConfig data readErr
  end.

(** The [for _, path := range defaultConfigPaths()] loop. *)
Fixpoint search_paths (fs : string -> FileAnswer) (paths : list string)
  : option (gmap string string) * string * option ConfigError :=
  match paths with
  | [] => (None, "", None)
  | path :: rest =>
      match parseConfigFile fs path with
      | inr (ErrOpen true _) => search_paths fs rest
      | inr e => (None, path, Some e)
      | inl cfg => (Some cfg, path, None)
      end
  end.

End Parser.

(** [filepath.Clean] on a Unix path, element by element: empty and [.]
    elements dropped, [..] cancelling the element before it (dropped at
    the root), the result [.] when nothing is left. *)
Fixpoint clean_elems (rooted : bool) (elems : list string) (stack : list string) : list string :=
  match elems with
  | [] => stack
  | e :: rest =>
      if (String.eqb e "" || String.eqb e ".")%bool then clean_elems rooted rest stack
      else if String.eqb e ".." then
        match stack with
        | top :: below =>
            if String.eqb top ".." then clean_elems rooted rest (e :: stack)
            else clean_elems rooted rest below
        | [] => if rooted then clean_elems rooted rest [] else clean_elems rooted rest [e]
        end
      else clean_elems rooted rest (e :: stack)
  end.

Definition Clean (path : string) : string :=
  let rooted := Go.HasPrefix path "/" in
  let body := Go.Join (rev (clean_elems rooted (Go.Split path "/") [])) "/" in
  let out := if rooted then "/" ++ body else body in
  if String.eqb out "" then "." else out.

(** [filepath.Join(elem...)]: from the first non-empty element on,
    joined with "/" and cleaned; "" when all are empty. *)
Fixpoint Join (elems : list string) : string :=
  match elems with
  | [] => ""
  | e :: rest => if String.eqb e "" then Join rest else Clean (Go.Join elems "/")
  end.

(** [filepath.Dir]: everything up to the last "/", cleaned. *)
Fixpoint last_slash (s : string) (i : nat) (found : option nat) : option nat :=
  match s with
  | EmptyString => found
  | String c rest => last_slash rest (S i) (if Ascii.eqb c "/" then Some i else found)
  end.

Definition Dir (path : string) : string :=
  match last_slash path 0 None with
  | Some i => Clean (substring 0 (S i) path)
  | None => Clean ""
  end.

(** [defaultConfigPaths]: [home] is what [os.UserHomeDir] returns
    ([None] for an error). *)
Definition defaultConfigPaths (configPathOverrides : list string) (home : option string) : list string :=
  if Nat.ltb 0 (length configPathOverrides) then configPathOverrides else
  let paths := ["/usr/local/etc/dnsgeeo.conf"; "/etc/dnsgeeo.conf"] in
  match home with
  | None => paths
  | Some h =>
      if String.eqb h "" then paths
      else Join [h; ".config"; "dnsgeeo"; "dnsgeeo.conf"] :: paths
  end.

(** [resolveConfigPath(explicitPath)]: the map ([None] for nil), the
    path it came from and the error. *)
Definition resolveConfigPath (ToLowerUnicode : string -> string) (fs : string -> FileAnswer)
    (configPathOverrides : list string) (home : option string) (explicitPath : string)
  : option (gmap string string) * string * option ConfigError :=
  if negb (String.eqb explicitPath "") then
    match parseConfigFile ToLowerUnicode fs explicitPath with
    | inl cfg => (Some cfg, explicitPath, None)
    | inr e => (None, explicitPath, Some e)
    end
  else search_paths ToLowerUnicode fs (defaultConfigPaths configPathOverrides home).

End ConfigFile.

(* ------------------------------------------------------------------ *)
(** ** [downloadGeoLiteEdition] and [writeMMDBFile] *)

Module GeoDownload.

Definition geoLiteDownloadEndpoint : string := "https://download.maxmind.com/app/geoip_download".

Definition hex_upper (n : nat) : ascii :=
  match String.get n "0123456789ABCDEF" with Some c => c | None => "0"%char end.

(** [shouldEscape(c, encodeQueryComponent)] is false exactly on these. *)
Definition unreserved (c : ascii) : bool :=
  let n := nat_of_ascii c in
  (Nat.leb 97 n && Nat.leb n 122) || (Nat.leb 65 n && Nat.leb n 90) ||
  (Nat.leb 48 n && Nat.leb n 57) ||
  Ascii.eqb c "-" || Ascii.eqb c "_" || Ascii.eqb c "." || Ascii.eqb c "~".

(** [url.QueryEscape]: a space becomes [+], other escaped bytes [%XX]. *)
Fixpoint QueryEscape (s : string) : string :=
  match s with
  | EmptyString => EmptyString
  | String c rest =>
      if unreserved c then String c (QueryEscape rest)
      else if Ascii.eqb c " " then String "+" (QueryEscape rest)
      else String "%" (String (hex_upper (nat_of_ascii c / 16))
                        (String (hex_upper (nat_of_ascii c mod 16)) (QueryEscape rest)))
  end.

(** [geoLiteDownloadEndpoint + "?" + params.Encode()]: [Encode] writes
    the keys in sorted order, [edition_id], [license_key], [suffix]. *)
Definition download_url (licenseKey editionID : string) : string :=
  geoLiteDownloadEndpoint ++ "?" ++
  "edition_id=" ++ QueryEscape editionID ++ "&" ++
  "license_key=" ++ QueryEscape licenseKey ++ "&" ++
  "suffix=" ++ QueryEscape "tar.gz".

(** The response of [client.Do(req)] (the client has a two-minute
    timeout): an error, or a status code and the body. *)
Inductive GetAnswer : Type :=
| GetError (msg : string)
| GetResponse (status : Z) (body : string).

(** The entries [tar.NewReader(gzr).Next()] yields: a header (its name,
    whether it is a directory, and the bytes of the entry), [io.EOF], or an
    error. *)
Inductive TarStream : Type :=
| TarEOF
| TarError (msg : string)
| TarEntry (name : string) (isDir : bool) (data : string) (rest : TarStream).

(** The file-system and network requests; [DRemove] and the deferred
    [DClose] have their errors ignored. *)
Inductive DlE : Type :=
| DMkdirAll (dir : string) (perm : Z)
| DGet (url : string)
| DGunzip (body : string)
| DCreateTemp (dir pattern : string)
| DCopy (tmp data : string)
| DSync (tmp : string)
| DChmod (tmp : string) (mode : Z)
| DClose (tmp : string)
| DRename (oldpath newpath : string)
| DRemove (name : string).

Definition DlResp (e : DlE) : Type :=
  match e with
  | DGet _ => GetAnswer
  | DGunzip _ => string + TarStream
  | DCreateTemp _ _ => string + string
  | _ => option string
  end.

Definition Dl (A : Type) : Type := Prog DlE DlResp A.

(** [if err := op; err != nil { return fmt.Errorf(prefix + ": %w", err) }]. *)
Definition check (e : DlE) (prefix : string) (k : Dl (option string))
  (H : DlResp e = option string) : Dl (option string) :=
  Vis e (fun r => match eq_rect _ (fun T => T) r _ H with
                  | Some err => Ret (Some (prefix ++ ": " ++ err))
                  | None => k
                  end).

(** [writeMMDBFile(r, destPath)]: [tmp] is created in [Dir(destPath)];
    the deferred [tmp.Close()] and [os.Remove(tmp.Name())] run on every
    return after that. *)
Definition writeMMDBFile (data destPath : string) : Dl (option string) :=
  Vis (DCreateTemp (ConfigFile.Dir destPath) "geolite-*") (fun r : string + string =>
    match r with
    | inr err => Ret (Some ("create temp file: " ++ err))
    | inl tmp =>
        res <- check (DCopy tmp data) "write mmdb" (
               check (DSync tmp) "sync mmdb" (
               check (DChmod tmp 420) "chmod mmdb" (
               check (DClose tmp) "close mmdb" (
               check (DRename tmp destPath) "rename mmdb" (Ret None)
                 eq_refl) eq_refl) eq_refl) eq_refl) eq_refl ;;
        Vis (DClose tmp) (fun _ : option string =>
          Vis (DRemove tmp) (fun _ : option string => Ret res))
    end).

Section Download.

Variable ToLowerUnicode : string -> string.

(** The [for { hdr, err := tr.Next() ... }] loop. *)
Fixpoint tar_loop (destPath : string) (tr : TarStream) : Dl (option string) :=
  match tr with
  | TarEOF => Ret (Some "no .mmdb file found in archive")
  | TarError err => Ret (Some ("read tar: " ++ err))
  | TarEntry name isDir data rest =>
      if isDir then tar_loop destPath rest
      else if negb (Go.HasSuffix (ConfigFile.ToLower ToLowerUnicode name) ".mmdb")
      then tar_loop destPath rest
      else writeMMDBFile data destPath
  end.

(** [downloadGeoLiteEdition(ctx, licenseKey, editionID, destPath)]
    ([http.NewRequestWithContext] cannot fail: the method is GET and the
    URL is well formed). *)
Definition downloadGeoLiteEdition (licenseKey editionID destPath : string) : Dl (option string) :=
  if String.eqb (Go.TrimSpace destPath) "" then Ret (Some "destination path is required") else
  check (DMkdirAll (ConfigFile.Dir destPath) 493) "create destination directory" (
    Vis (DGet (download_url licenseKey editionID)) (fun a : GetAnswer =>
      match a with
      | GetError err => Ret (Some ("download " ++ editionID ++ " archive: " ++ err))
      | GetResponse status body =>
          if negb (Z.eqb status 200) then
            Ret (Some ("download " ++ editionID ++ " archive: unexpected status " ++
                       Go.Sprintf_d status ++ ": " ++ Go.TrimSpace (substring 0 1024 body)))
          else
            Vis (DGunzip body) (fun g : string + TarStream =>
              match g with
              | inl err => Ret (Some ("read gzip: " ++ err))
              | inr tr => tar_loop destPath tr
              end)
      end)) eq_refl.

End Download.

End GeoDownload.

(* ------------------------------------------------------------------ *)
(** ** Reference functions and scenarios for the further properties *)

Module Reference.
Import Loader.
(** The hosts [uniqueDomains] keeps: non-empty and not an IP literal. *)
Definition valid_host (h : string) : bool :=
  negb (String.eqb h "") && negb (NetIP.ParseIP h).

(** The elements of [l] not in [seen], each at its first occurrence. *)
Fixpoint keep_first (seen : list string) (l : list string) : list string :=
  match l with
  | [] => []
  | x :: rest =>
      if existsb (String.eqb x) seen then keep_first seen rest
      else x :: keep_first (x :: seen) rest
  end.

(** Whether the value of [key] is accepted: the key names an option
    with a non-nil pointer whose flag is not set, of integer kind with a
    value [strconv.Atoi] rejects, or of boolean kind with a value
    [strconv.ParseBool] rejects, is the only way to fail. *)
Definition entry_valid (opts : cliOptions) (setFlags : gmap string bool) (key val : string) : bool :=
  match List.find (fun '(k, _, _) => String.eqb k key) (option_keys opts) with
  | Some (_, Some _, kind) =>
      is_set setFlags key ||
      match kind with
      | 1%nat => match Atoi val with Some _ => true | None => false end
      | 2%nat => match ParseBool val with Some _ => true | None => false end
      | _ => true
      end
  | _ => true
  end.

(** The variable of kind [kind] at [l] holds the config text [val]. *)
Definition holds_value (kind : nat) (l : loc) (h : Heap) (val : string) : Prop :=
  match kind with
  | O => hs h l = val
  | 1%nat => Atoi val = Some (hi h l)
  | 2%nat => ParseBool val = Some (hb h l)
  | _ => True
  end.

End Reference.

Module ConfigText.
Import ConfigFile.





(** The text of a file made of [lines], each ended by a newline. *)
Fixpoint lines_text (lines : list string) : string :=
  match lines with
  | [] => ""
  | l :: rest => l ++ String newline (lines_text rest)
  end.

(** A line the scanner hands out whole: no newline, no final carriage
    return, and shorter than the 64 KiB token limit with room for a CR. *)
Definition simple_line (l : string) : bool :=
  match IndexByte l newline with None => true | Some _ => false end &&
  negb (Go.HasSuffix l (String carriage_return "")) &&
  Nat.ltb (String.length l) (MaxScanTokenSize - 1).

(** The lines the loop skips: blank once trimmed, or a [#] or [;] comment. *)
Definition comment_line (l : string) : bool :=
  let t := Go.TrimSpace l in
  (String.eqb t "" || Go.HasPrefix t "#" || Go.HasPrefix t ";")%bool.

(** A line the loop rejects: not skipped, and without a [=] or with an
    empty key before it. *)
Definition line_fault (ToLowerUnicode : string -> string) (t : string) : bool :=
  negb (comment_line t) &&
  match IndexByte (Go.TrimSpace t) "=" with
  | None => true
  | Some idx =>
      String.eqb (canonicalKey ToLowerUnicode (Go.TrimSpace (substring 0 idx (Go.TrimSpace t)))) ""
  end.

(** [os.Open] reports that the file does not exist. *)
Definition missing (fs : string -> FileAnswer) (path : string) : bool :=
  match fs path with FOpenError true _ => true | _ => false end.



End ConfigText.

Module GeoRef.
Import GeoUpdate GeoDownload.

(** The answer of [os.Stat] makes [fileNeedsRefresh] report [true]. *)
Definition stale (oracle : forall e, UpdResp e) (maxAge : Z) (path : string) : bool :=
  match oracle (UStat path) with
  | StatNotExist => true
  | StatError _ => false
  | StatOK age => Z.leb maxAge age
  end.

Definition stat_ok (oracle : forall e, UpdResp e) (path : string) : bool :=
  match oracle (UStat path) with StatError _ => false | _ => true end.

(** The [downloadGeoLiteEdition] calls of a trace. *)
Fixpoint download_requests (t : list UpdE) : list (string * string * string) :=
  match t with
  | [] => []
  | UDownload k ed p :: rest => (k, ed, p) :: download_requests rest
  | _ :: rest => download_requests rest
  end.

(** The requests [maybeUpdateGeoLiteDatabases(ctx, licenseKey, _, cityPath, asnPath)] may make. *)
Definition upd_allowed (licenseKey cityPath asnPath : string) (e : UpdE) : Prop :=
  match e with
  | UStat p => p <> "" /\ (p = cityPath \/ p = asnPath)
  | UStderr _ => True
  | UDownload k ed p =>
      k = licenseKey /\ p <> "" /\
      ((ed = "GeoLite2-City" /\ p = cityPath) \/ (ed = "GeoLite2-ASN" /\ p = asnPath))
  end.

(** The error a request of [writeMMDBFile] or [downloadGeoLiteEdition]
    answers, for the ones that answer an error. *)
Definition err_answer (oracle : forall e, DlResp e) (e : DlE) : option string :=
  (match e as e0 return DlResp e0 -> option string with
   | DGet _ => fun _ => None
   | DGunzip _ => fun _ => None
   | DCreateTemp _ _ => fun _ => None
   | DMkdirAll _ _ => fun r => r
   | DCopy _ _ => fun r => r
   | DSync _ => fun r => r
   | DChmod _ _ => fun r => r
   | DClose _ => fun r => r
   | DRename _ _ => fun r => r
   | DRemove _ => fun r => r
   end) (oracle e).

(** The checked steps of [writeMMDBFile] after [os.CreateTemp], with the
    prefix of their error. *)
Definition write_steps (tmp data destPath : string) : list (DlE * string) :=
  [(DCopy tmp data, "write mmdb"); (DSync tmp, "sync mmdb"); (DChmod tmp 420, "chmod mmdb");
   (DClose tmp, "close mmdb"); (DRename tmp destPath, "rename mmdb")].

(** The entry of a tar stream that [downloadGeoLiteEdition] copies: the
    data of the first entry that is not a directory and whose lower-cased
    name ends in [.mmdb], [None] at the end of the stream, or the error
    of the reader. *)
Fixpoint tar_pick (ToLowerUnicode : string -> string) (tr : TarStream) : option string + string :=
  match tr with
  | TarEOF => inl None
  | TarError err => inr err
  | TarEntry name isDir data rest =>
      if isDir then tar_pick ToLowerUnicode rest
      else if Go.HasSuffix (ConfigFile.ToLower ToLowerUnicode name) ".mmdb" then inl (Some data)
      else tar_pick ToLowerUnicode rest
  end.

(** A byte [url.QueryEscape] may emit. *)
Definition query_safe (c : ascii) : bool :=
  unreserved c || Ascii.eqb c "+" || Ascii.eqb c "%".

Definition fresh_city_oracle : forall e, UpdResp e :=
  fun e => match e as e0 return UpdResp e0 with
           | UStat p => if String.eqb p "/db/city.mmdb" then StatOK 7200 else StatNotExist
           | UStderr _ => tt
           | UDownload _ _ _ => None
           end.

Definition failing_asn_oracle : forall e, UpdResp e :=
  fun e => match e as e0 return UpdResp e0 with
           | UStat p => StatNotExist
           | UStderr _ => tt
           | UDownload _ ed _ => if String.eqb ed "GeoLite2-ASN" then Some "status 401" else None
           end.

Definition good_dl_oracle : forall e, DlResp e :=
  fun e => match e as e0 return DlResp e0 with
           | DGet _ => GetResponse 200 "gzipped"
           | DGunzip _ => inr (TarEntry "GeoLite2-City_20240101/" true ""
                                (TarEntry "GeoLite2-City_20240101/README.txt" false "readme"
                                  (TarEntry "GeoLite2-City_20240101/GeoLite2-City.MMDB" false "MMDB-DATA" TarEOF)))
           | DCreateTemp _ _ => inl "/db/geolite-123"
           | _ => None
           end.

End GeoRef.

Module MainRef.
Import CLI.

(** The requests [main] makes before it can exit with status 2. *)
Definition early_event (e : MainE) : Prop :=
  match e with
  | EResolveConfig _ | EStatFile _ | EStderr _ => True
  | _ => False
  end.

Fixpoint last_event (t : list MainE) : option MainE :=
  match t with
  | [] => None
  | [e] => Some e
  | _ :: rest => last_event rest
  end.

(** The messages [main] prints before [os.Exit(1)]. *)
Definition exit1_prefixes : list string :=
  ["Config error ("; "Config parse error ("; "PSL private list error: ";
   "DB auto-update error: "; "DB error: "; "Lookup error: "; "Failed to write output file: "].

Definition fail_trace (t : list MainE) : Prop :=
  exists pfx rest, In pfx exit1_prefixes /\ last_event t = Some (EStderr (pfx ++ rest)).

(** The output written by [os.WriteFile] or [os.Stdout.Write], and it
    succeeded. *)
Definition write_ok (oracle : forall e, MainResp e) (w : MainE) : Prop :=
  match w with
  | EStdout => True
  | EWriteFile p => p <> "" /\ oracle (EWriteFile p) = None
  | _ => False
  end.

(** A run that ends normally: the lookup batch, or the PSL list, ran and
    succeeded and its output was written. *)
Definition ok_trace (oracle : forall e, MainResp e) (t : list MainE) : Prop :=
  exists pre,
    (exists cfg inputs w, inputs <> [] /\
       t = app pre [EOpenDBs cfg; EInitCache (IPCacheSize cfg) (IPCacheTTL cfg); EBatch cfg inputs; w; ECloseDBs] /\
       oracle (EOpenDBs cfg) = None /\ oracle (EBatch cfg inputs) = None /\ write_ok oracle w) \/
    (exists py tool timeout w, tool <> "" /\
       t = app pre [ERunPSL py tool timeout; w] /\
       oracle (ERunPSL py tool timeout) = None /\ write_ok oracle w).

Definition outcome (oracle : forall e, MainResp e) (t : list MainE) (status : Z) : Prop :=
  (status = 0 /\ ok_trace oracle t) \/ (status = 1 /\ fail_trace t) \/
  (status = 2 /\ Forall early_event t).

(** The command line asks for help: [-h] or [-help], which [main] does
    not define. *)
Definition help_requested (cl : CommandLine) : Prop :=
  In "h" (map fst (cl_flags cl)) \/ In "help" (map fst (cl_flags cl)).

(** The requests that touch the GeoLite2 databases or run the lookups. *)
Definition db_event (e : MainE) : bool :=
  match e with
  | EGeoUpdate _ _ _ _ | EOpenDBs _ | EInitCache _ _ | EBatch _ _ | ECloseDBs => true
  | _ => false
  end.

Definition psl_command_line : CommandLine :=
  {| cl_flags := [("psl-private-list", VBool true); ("whois-tool", VString "/opt/whois_rdap.py")];
     cl_args := ["example.com"] |}.

Definition tool_present_oracle (e : MainE) : MainResp e :=
  match e as e0 return MainResp e0 with
  | EResolveConfig _ => ([], "", None)
  | EStatFile _ => true
  | EInitCache _ _ | EStdout | EStderr _ | ECloseDBs => tt
  | ERunPSL _ _ _ | EGeoUpdate _ _ _ _ | EOpenDBs _ | EBatch _ _ | EWriteFile _ => None
  end.

End MainRef.

Module WhoisRef.
Import Whois WhoisRun.

(** A decoder that reads every output as the empty list. *)
Definition empty_psl_decoder (_ : string) : string + GoSlice PSLPrivateEntry := inr (Some []).

End WhoisRef.

(* ================================================================== *)
(** * Theorems *)

Example ParseIP_v4 : NetIP.ParseIP "1.2.3.4" = true. Proof. reflexivity. Qed.
Example ParseIP_v6 : NetIP.ParseIP "::1" = true. Proof. reflexivity. Qed.
Example ParseIP_v6full : NetIP.ParseIP "1:2:3:4:5:6:7:8" = true. Proof. reflexivity. Qed.
Example ParseIP_v6long : NetIP.ParseIP "1:2:3:4:5:6:7:8:9" = false. Proof. reflexivity. Qed.
Example ParseIP_mapped : NetIP.ParseIP "::ffff:1.2.3.4" = true. Proof. reflexivity. Qed.
Example ParseIP_zone : NetIP.ParseIP "fe80::1%eth0" = false. Proof. reflexivity. Qed.
Example ParseIP_lead0 : NetIP.ParseIP "01.2.3.4" = false. Proof. reflexivity. Qed.
Example ParseIP_2ell : NetIP.ParseIP "1::2::3" = false. Proof. reflexivity. Qed.
Example ParseIP_host : NetIP.ParseIP "example.com" = false. Proof. reflexivity. Qed.
Example ParseIP_empty : NetIP.ParseIP "" = false. Proof. reflexivity. Qed.
Example ParseIP_v6end : NetIP.ParseIP "1:2:3:4:5:6:7::" = true. Proof. reflexivity. Qed.
Example ParseIP_v6endfull : NetIP.ParseIP "1:2:3:4:5:6:7:8::" = false. Proof. reflexivity. Qed.
Example Unique_ex : Unique.uniqueDomains [" a.com. "; "a.com"; "1.2.3.4"; "."; "b.org."; "a.com."] = ["a.com."; "a.com"; "b.org"].
Proof. vm_compute. reflexivity. Qed.
Example Secs_ex : Whois.timeoutSeconds 20000000000 = 20. Proof. vm_compute. reflexivity. Qed.
Example Secs_ex2 : Whois.timeoutSeconds 500000000 = 8. Proof. vm_compute. reflexivity. Qed.
Example Sprintf_ex : Go.Sprintf_d 1234 = "1234". Proof. reflexivity. Qed.

(* ------------------------------------------------------------------ *)
(** ** Lemmas: [int(d.Seconds())] of a non-positive duration *)

Module SecondsFacts.

















End SecondsFacts.

(* ------------------------------------------------------------------ *)
(** ** The WHOIS invoker *)

Module WhoisClaims.
Import Whois WhoisRun.

Lemma eqb_neq_false (s t : string) : s <> t -> String.eqb s t = false.
Proof. intros H. destruct (String.eqb_spec s t); [contradiction | reflexivity]. Qed.

Lemma length_zero_empty (s : string) : Nat.eqb (String.length s) 0 = String.eqb s "".
Proof. destruct s; reflexivity. Qed.

Ltac invoker_cases tool ds :=
  unfold RunWhoisTool, RunWhoisPSLPrivateList;
  destruct (String.eqb_spec tool "") as [->|?];
  [|try (destruct ds as [|? ?]; [congruence|])].

(** C1 as stated: a tool path without a path separator is refused before
    anything is launched.  It is not: [whois_rdap.py] is launched. *)
Lemma C1_bare_tool_name_launched :
  ~ (forall (fs : FileSystem) un unpsl py tool (ds : list string) t,
       spec_tool_rejected fs tool \/ spec_python_rejected fs py ->
       (exists e, RunWhoisTool un py tool ds t = Ret (None, Some e)) /\
       (exists e, RunWhoisPSLPrivateList unpsl py tool t = Ret (None, Some e))).
Proof.
  intros H.
  destruct (H (fun _ => None) (fun _ => inl "") (fun _ => inl "") "python3" "whois_rdap.py"
              ["example.com"] 0) as [[e He] _].
  - left. right. left. reflexivity.
  - vm_compute in He. discriminate He.
Qed.

(** C1 (amended): the only check before launching is that the tool path
    is non-empty.  An empty tool path returns [ErrToolPathEmpty] from both
    entry points without launching; any other tool path and any
    interpreter path are launched unchecked (by [RunWhoisTool] when the
    domain list is non-empty), the interpreter defaulting to [python3]. *)
Theorem C1_only_empty_tool_refused :
  forall un unpsl py tool (ds : list string) t,
    (tool = "" ->
       RunWhoisTool un py tool ds t = Ret (None, Some ErrToolPathEmpty) /\
       RunWhoisPSLPrivateList unpsl py tool t = Ret (None, Some ErrToolPathEmpty)) /\
    (tool <> "" -> ds <> [] ->
       (exists args, exec_of (RunWhoisTool un py tool ds t) = Some (default_python py, args)) /\
       (exists args, exec_of (RunWhoisPSLPrivateList unpsl py tool t) = Some (default_python py, args))).
Proof.
  intros un unpsl py tool ds t. split.
  - intros ->. split; reflexivity.
  - intros Htool Hds. invoker_cases tool ds; [congruence|].
    split; eexists; reflexivity.
Qed.

Lemma C1_only_empty_tool_refused_witness :
  RunWhoisTool (fun _ => inl "") "" "" ["a.example"] 0 = Ret (None, Some ErrToolPathEmpty) /\
  (exists args, exec_of (RunWhoisTool (fun _ => inl "") "" "tool.py" ["a.example"] 0)
                = Some ("python3", args)).
Proof.
  split.
  - exact (proj1 (proj1 (C1_only_empty_tool_refused (fun _ => inl "") (fun _ => inl "") ""
                           "" ["a.example"] 0) eq_refl)).
  - exact (proj1 (proj2 (C1_only_empty_tool_refused (fun _ => inl "") (fun _ => inl "") ""
                           "tool.py" ["a.example"] 0) ltac:(discriminate) ltac:(discriminate))).
Defined.

(** C2: once the subprocess has run, a non-empty stdout that decodes
    gives a map and a nil error whatever the exit status; an empty stdout
    gives an error, the trimmed stderr text when the process failed and
    stderr is non-empty; a non-empty stdout that does not decode, from a
    process that succeeded, gives the parse error. *)
Theorem C2_exit_status_protocol :
  forall un py tool (ds : list string) t (res : ExecResult),
    tool <> "" -> ds <> [] ->
    (res_stdout res <> "" -> forall parsed, un (res_stdout res) = inr parsed ->
       exists m, after_exec (RunWhoisTool un py tool ds t) res = Some (Ret (Some m, None))) /\
    (res_stdout res = "" ->
       exists e, after_exec (RunWhoisTool un py tool ds t) res = Some (Ret (None, Some e))) /\
    (res_stdout res = "" -> res_err res <> None -> res_stderr res <> "" ->
       after_exec (RunWhoisTool un py tool ds t) res
       = Some (Ret (None, Some (ErrToolFailed (Go.TrimSpace (res_stderr res)))))) /\
    (res_stdout res <> "" -> forall uerr, un (res_stdout res) = inl uerr -> res_err res = None ->
       after_exec (RunWhoisTool un py tool ds t) res = Some (Ret (None, Some (ErrParse uerr)))).
Proof.
  intros un py tool ds t res Htool Hds.
  invoker_cases tool ds; [congruence|]. simpl. rewrite length_zero_empty.
  repeat split.
  - intros Hout parsed Hp. rewrite (eqb_neq_false _ _ Hout), Hp. eexists. reflexivity.
  - intros Hout. rewrite Hout. eexists. reflexivity.
  - intros Hout Herr Hstderr. rewrite Hout. unfold run_failure.
    destruct (res_err res) as [e|]; [|congruence].
    destruct (res_stderr res) as [|c rest]; [congruence|]. reflexivity.
  - intros Hout uerr Hu Herr. rewrite (eqb_neq_false _ _ Hout), Hu, Herr. reflexivity.
Qed.

Lemma C2_exit_status_protocol_witness :
  exists m, after_exec (RunWhoisTool (fun _ => inr (Some [])) "python3" "/opt/whois_rdap.py"
                          ["a.example"] 0)
              {| res_stdout := "[]"; res_stderr := "boom"; res_err := Some "exit status 1" |}
            = Some (Ret (Some m, None)).
Proof.
  refine (proj1 (C2_exit_status_protocol (fun _ => inr (Some [])) "python3" "/opt/whois_rdap.py"
            ["a.example"] 0 {| res_stdout := "[]"; res_stderr := "boom"; res_err := Some "exit status 1" |}
            ltac:(discriminate) ltac:(discriminate))
            ltac:(simpl; discriminate) (Some []) eq_refl).
Defined.

End WhoisClaims.

Module WhoisMap.
Import Whois WhoisRun.

Definition step (result : gmap string WhoisToolInfo) (info : WhoisToolInfo) : gmap string WhoisToolInfo :=
  if String.eqb (Domain info) "" then result
  else <[Domain info := filled info]> result.

Lemma build_result_fold (parsed : list WhoisToolInfo) :
  build_result parsed = fold_left step parsed ∅.
Proof. reflexivity. Qed.

Lemma find_app_single {A} (p : A -> bool) (l : list A) (x : A) :
  List.find p (l ++ [x]) = match List.find p l with Some r => Some r | None => if p x then Some x else None end.
Proof.
  induction l as [|y l IH]; simpl; [reflexivity|].
  destruct (p y); [reflexivity | exact IH].
Qed.

Lemma fold_step_lookup (l : list WhoisToolInfo) (m0 : gmap string WhoisToolInfo) (key : string) :
  fold_left step l m0 !! key =
  if String.eqb key "" then m0 !! key
  else match last_with_domain key l with Some r => Some (filled r) | None => m0 !! key end.
Proof.
  revert m0. induction l as [|x l IH]; intros m0; simpl.
  - destruct (String.eqb key ""); reflexivity.
  - rewrite IH. unfold last_with_domain. simpl. rewrite find_app_single.
    fold (last_with_domain key l).
    destruct (String.eqb_spec key "") as [Hk0|Hk].
    + rewrite Hk0. unfold step. destruct (String.eqb_spec (Domain x) "") as [Hx|Hx]; [reflexivity|].
      rewrite lookup_insert_ne by congruence. reflexivity.
    + destruct (last_with_domain key l); [reflexivity|].
      unfold step. destruct (String.eqb_spec (Domain x) "") as [Hx|Hx].
      * replace (String.eqb (Domain x) key) with false by (symmetry; apply String.eqb_neq; congruence).
        reflexivity.
      * destruct (String.eqb_spec (Domain x) key) as [<-|Hne].
        -- apply lookup_insert_eq.
        -- apply lookup_insert_ne. exact Hne.
Qed.

End WhoisMap.

Module WhoisResults.
Import Whois WhoisRun WhoisMap.

Lemma after_exec_success un py tool (ds : list string) t res parsed :
  tool <> "" -> ds <> [] -> res_stdout res <> "" -> un (res_stdout res) = inr parsed ->
  after_exec (RunWhoisTool un py tool ds t) res = Some (Ret (Some (build_result (default [] parsed)), None)).
Proof.
  intros Htool Hds Hout Hp.
  unfold RunWhoisTool. rewrite (WhoisClaims.eqb_neq_false _ _ Htool).
  destruct ds as [|d ds]; [congruence|]. simpl.
  rewrite WhoisClaims.length_zero_empty, (WhoisClaims.eqb_neq_false _ _ Hout), Hp. reflexivity.
Qed.

(** C4 as stated: every parsed record with a non-empty domain is what the
    map holds under that domain.  Two records for [a.example] refute it:
    the map holds only the second. *)
Lemma C4_duplicate_domain_keeps_last :
  ~ (forall un py tool (ds : list string) t res parsed m,
       tool <> "" -> ds <> [] -> un (res_stdout res) = inr parsed ->
       after_exec (RunWhoisTool un py tool ds t) res = Some (Ret (Some m, None)) ->
       m !! "" = None /\
       forall info, In info (default [] parsed) -> Domain info <> "" -> m !! Domain info = Some info).
Proof.
  intros H.
  set (res := {| res_stdout := duplicate_stdout; res_stderr := ""; res_err := None |}).
  set (parsed := Some [decoded_record "a.example" "One"; decoded_record "a.example" "Two"]).
  set (m := build_result (default [] parsed)).
  destruct (H duplicate_decoder "python3" "/opt/whois_rdap.py" ["a.example"] 0 res parsed m)
    as [_ Hin]; try discriminate.
  - vm_compute. reflexivity.
  - vm_compute. reflexivity.
  - specialize (Hin (decoded_record "a.example" "One") ltac:(simpl; auto) ltac:(discriminate)).
    vm_compute in Hin. discriminate Hin.
Qed.

(** C4 (amended): a successful invocation whose stdout decodes returns
    the map built from the decoded records; its key [""] is absent and
    under every other key it holds the last decoded record with that
    domain, its nil DDNS slices replaced by empty ones. *)
Theorem C4_map_holds_last_record :
  forall un py tool (ds : list string) t res parsed,
    tool <> "" -> ds <> [] -> res_stdout res <> "" -> un (res_stdout res) = inr parsed ->
    after_exec (RunWhoisTool un py tool ds t) res
      = Some (Ret (Some (build_result (default [] parsed)), None)) /\
    forall key, build_result (default [] parsed) !! key =
      if String.eqb key "" then None
      else option_map filled (last_with_domain key (default [] parsed)).
Proof.
  intros un py tool ds t res parsed Htool Hds Hout Hp. split.
  - apply after_exec_success; assumption.
  - intros key. rewrite build_result_fold, fold_step_lookup.
    destruct (String.eqb key ""); [reflexivity|].
    destruct (last_with_domain key _); reflexivity.
Qed.

Lemma C4_map_holds_last_record_witness :
  build_result (default [] (Some [decoded_record "a.example" "One"; decoded_record "a.example" "Two"]))
    !! "a.example" = Some (filled (decoded_record "a.example" "Two")).
Proof.
  rewrite (proj2 (C4_map_holds_last_record duplicate_decoder "python3" "/opt/whois_rdap.py"
                    ["a.example"] 0
                    {| res_stdout := duplicate_stdout; res_stderr := ""; res_err := None |}
                    (Some [decoded_record "a.example" "One"; decoded_record "a.example" "Two"])
                    ltac:(discriminate) ltac:(discriminate) ltac:(vm_compute; discriminate)
                    ltac:(vm_compute; reflexivity)) "a.example").
  vm_compute. reflexivity.
Defined.

(** C9: every record in a map a successful [RunWhoisTool] returns has
    non-nil [DDNSProvidersByNS] and [DDNSProviders] slices. *)
Theorem C9_ddns_slices_non_nil :
  forall un py tool (ds : list string) t m key v,
    may_return (RunWhoisTool un py tool ds t) (Some m, None) ->
    m !! key = Some v ->
    DDNSProvidersByNS v <> None /\ DDNSProviders v <> None.
Proof.
  intros un py tool ds t m key v Hret Hv.
  assert (Hm : m = ∅ \/ exists l, m = build_result l).
  { unfold may_return, RunWhoisTool in Hret.
    destruct (String.eqb tool "").
    - destruct Hret as [Hr | [res Hr]]; discriminate Hr.
    - destruct ds as [|d ds].
      + destruct Hret as [Hr | [res Hr]]; [|discriminate Hr].
        injection Hr as <-. left. reflexivity.
      + destruct Hret as [Hr | [res Hr]]; [discriminate Hr|]. simpl in Hr.
        destruct (Nat.eqb _ 0); [injection Hr as Hr; discriminate Hr|].
        destruct (un (res_stdout res)) as [uerr|parsed].
        * destruct (res_err res); injection Hr as Hr; discriminate Hr.
        * injection Hr as <-. right. eexists. reflexivity. }
  destruct Hm as [-> | [l ->]].
  - rewrite lookup_empty in Hv. discriminate Hv.
  - rewrite build_result_fold, fold_step_lookup, lookup_empty in Hv.
    destruct (String.eqb key ""); [discriminate Hv|].
    destruct (last_with_domain key l) as [r|]; [|discriminate Hv].
    injection Hv as <-. unfold filled, with_ddns. simpl.
    split; destruct (DDNSProvidersByNS r); destruct (DDNSProviders r); discriminate.
Qed.

Lemma C9_ddns_slices_non_nil_witness :
  DDNSProvidersByNS (filled (decoded_record "a.example" "Two")) <> None /\
  DDNSProviders (filled (decoded_record "a.example" "Two")) <> None.
Proof.
  apply (C9_ddns_slices_non_nil duplicate_decoder "python3" "/opt/whois_rdap.py" ["a.example"] 0
           (build_result (default [] (Some [decoded_record "a.example" "One";
                                             decoded_record "a.example" "Two"])))
           "a.example").
  - right. exists {| res_stdout := duplicate_stdout; res_stderr := ""; res_err := None |}.
    vm_compute. reflexivity.
  - vm_compute. reflexivity.
Defined.

End WhoisResults.

Module WhoisArgs.
Import Whois WhoisRun.

Ltac continuation_returns :=
  intros res; cbn beta;
  repeat match goal with
  | |- context [if ?b then _ else _] => destruct b
  | |- context [match ?x with inl _ => _ | inr _ => _ end] => destruct x
  | |- context [match ?x with Some _ => _ | None => _ end] => destruct x
  end; eexists; reflexivity.

Lemma exec_of_tool un py tool (ds : list string) t :
  tool <> "" -> ds <> [] ->
  exec_of (RunWhoisTool un py tool ds t)
    = Some (default_python py, [tool; "--list"; Go.Join ds ","; "--timeout"; Go.Sprintf_d (timeoutSeconds t)]).
Proof.
  intros Htool Hds. unfold RunWhoisTool. rewrite (WhoisClaims.eqb_neq_false _ _ Htool).
  destruct ds; [congruence|reflexivity].
Qed.


(** C5 as stated, with the timeout in whole seconds: a timeout of half a
    second is sent as [8], not [0]. *)
Lemma C5_subsecond_timeout_sent_as_8 :
  ~ (forall un unpsl py tool (ds : list string) t,
       tool <> "" -> ds <> [] ->
       launches_once (RunWhoisTool un py tool ds t) (default_python py)
         [tool; "--list"; Go.Join ds ","; "--timeout"; Go.Sprintf_d (Z.quot t Go.Second)] /\
       launches_once (RunWhoisPSLPrivateList unpsl py tool t) (default_python py)
         [tool; "--psl-private-list"; "--timeout"; Go.Sprintf_d (Z.quot t Go.Second)]).
Proof.
  intros H.
  destruct (H (fun _ => inl "") (fun _ => inl "") "python3" "/opt/whois_rdap.py" ["a.example"]
              500000000 ltac:(discriminate) ltac:(discriminate)) as [[k [Hp _]] _].
  apply (f_equal exec_of) in Hp.
  rewrite exec_of_tool in Hp by discriminate.
  vm_compute in Hp. discriminate Hp.
Qed.

(** C5 (amended): with a non-empty tool path, [RunWhoisTool] on a
    non-empty domain list and [RunWhoisPSLPrivateList] each launch the
    interpreter exactly once, with the timeout argument
    [int(timeout.Seconds())], replaced by 8 when that is not positive;
    with an empty tool path neither launches anything. *)
Theorem C5_launch_argument_vectors :
  forall un unpsl py tool (ds : list string) t,
    (tool <> "" ->
     (ds <> [] ->
      launches_once (RunWhoisTool un py tool ds t) (default_python py)
        [tool; "--list"; Go.Join ds ","; "--timeout"; Go.Sprintf_d (timeoutSeconds t)]) /\
     launches_once (RunWhoisPSLPrivateList unpsl py tool t) (default_python py)
       [tool; "--psl-private-list"; "--timeout"; Go.Sprintf_d (timeoutSeconds t)]) /\
    (tool = "" ->
     exec_of (RunWhoisTool un py tool ds t) = None /\
     exec_of (RunWhoisPSLPrivateList unpsl py tool t) = None).
Proof.
  intros un unpsl py tool ds t. split.
  - intros Htool. split.
    + intros Hds. unfold launches_once, RunWhoisTool.
      rewrite (WhoisClaims.eqb_neq_false _ _ Htool).
      destruct ds as [|d ds]; [congruence|].
      eexists. split; [reflexivity|]. continuation_returns.
    + unfold launches_once, RunWhoisPSLPrivateList.
      rewrite (WhoisClaims.eqb_neq_false _ _ Htool).
      eexists. split; [reflexivity|]. continuation_returns.
  - intros ->. split; reflexivity.
Qed.

Lemma C5_launch_argument_vectors_witness :
  launches_once (RunWhoisTool (fun _ => inl "") "" "/opt/whois_rdap.py" ["a.example"; "b.example"]
                   (20 * Go.Second))
    "python3" ["/opt/whois_rdap.py"; "--list"; "a.example,b.example"; "--timeout"; "20"].
Proof.
  pose proof (proj1 (proj1 (C5_launch_argument_vectors (fun _ => inl "") (fun _ => inl "") ""
                       "/opt/whois_rdap.py" ["a.example"; "b.example"] (20 * Go.Second))
                       ltac:(discriminate)) ltac:(discriminate)) as H.
  vm_compute in H. vm_compute. exact H.
Defined.



End WhoisArgs.

Module UniqueClaims.

(** C3: [uniqueDomains] removes the trailing dot before it trims
    whitespace, so an input [a.com. ] keeps its dot ([a.com.]) although
    stripping whitespace and then a trailing dot gives [a.com]; it is
    then also kept apart from the input [a.com]. *)
Theorem C3_dot_before_whitespace :
  Unique.uniqueDomains ["a.com. "; "a.com"] = ["a.com."; "a.com"] /\
  List.map UniqueSpec.spec_normalize ["a.com. "; "a.com"] = ["a.com"; "a.com"].
Proof. split; vm_compute; reflexivity. Qed.

End UniqueClaims.

Module LoaderClaims.
Import Loader LoaderFrame.

Lemma same_cell_refl k l h : same_cell k l h h.
Proof. destruct k as [|[|[|]]]; simpl; trivial. Qed.

Lemma same_cell_trans k l h1 h2 h3 :
  same_cell k l h1 h2 -> same_cell k l h2 h3 -> same_cell k l h1 h3.
Proof. destruct k as [|[|[|]]]; simpl; trivial; congruence. Qed.

Lemma set_string_frame sf opt name val h h' k l :
  set_string sf opt name val h = inl h' ->
  (opt = Some l -> k = 0%nat -> is_set sf name = true) -> same_cell k l h h'.
Proof.
  unfold set_string. destruct opt as [l'|].
  - destruct (is_set sf name) eqn:E; intros Heq Hc; injection Heq as <-;
      [apply same_cell_refl|].
    destruct k as [|[|[|]]]; simpl; trivial.
    destruct (Nat.eqb_spec l l'); [subst; specialize (Hc eq_refl eq_refl); congruence|reflexivity].
  - intros Heq _. injection Heq as <-. apply same_cell_refl.
Qed.

Lemma set_int_frame sf opt name val h h' k l :
  set_int sf opt name val h = inl h' ->
  (opt = Some l -> k = 1%nat -> is_set sf name = true) -> same_cell k l h h'.
Proof.
  unfold set_int. destruct opt as [l'|].
  - destruct (is_set sf name) eqn:E; intros Heq Hc;
      [injection Heq as <-; apply same_cell_refl|].
    destruct (Atoi val) as [n|]; [|discriminate Heq]. injection Heq as <-.
    destruct k as [|[|[|]]]; simpl; trivial.
    destruct (Nat.eqb_spec l l'); [subst; specialize (Hc eq_refl eq_refl); congruence|reflexivity].
  - intros Heq _. injection Heq as <-. apply same_cell_refl.
Qed.

Lemma set_bool_frame sf opt name val h h' k l :
  set_bool sf opt name val h = inl h' ->
  (opt = Some l -> k = 2%nat -> is_set sf name = true) -> same_cell k l h h'.
Proof.
  unfold set_bool. destruct opt as [l'|].
  - destruct (is_set sf name) eqn:E; intros Heq Hc;
      [injection Heq as <-; apply same_cell_refl|].
    destruct (ParseBool val) as [b|]; [|discriminate Heq]. injection Heq as <-.
    destruct k as [|[|[|]]]; simpl; trivial;
    (destruct (Nat.eqb_spec l l'); [subst; specialize (Hc eq_refl eq_refl); congruence|reflexivity]).
  - intros Heq _. injection Heq as <-. apply same_cell_refl.
Qed.

Ltac in_keys :=
  unfold option_keys; cbn [In];
  repeat match goal with H : _ = Some _ |- _ => rewrite H; clear H end;
  repeat match goal with H : _ = _ |- _ => subst; clear H end;
  repeat (first [left; reflexivity | right]).

Lemma apply_entry_frame sf opts key val h h' k l :
  apply_entry sf opts key val h = inl h' ->
  (In (key, Some l, k) (option_keys opts) -> is_set sf key = true) ->
  same_cell k l h h'.
Proof.
  intros Heq Hc. unfold apply_entry in Heq.
  repeat match type of Heq with
  | context [if String.eqb key ?c then _ else _] =>
      destruct (String.eqb_spec key c) as [->|?]
  end;
  first
  [ apply (set_string_frame _ _ _ _ _ _ _ _ Heq)
  | apply (set_int_frame _ _ _ _ _ _ _ _ Heq)
  | apply (set_bool_frame _ _ _ _ _ _ _ _ Heq)
  | injection Heq as <-; apply same_cell_refl ];
  intros Hopt Hk; apply Hc; in_keys.
Qed.

Lemma apply_frame values sf opts h k l :
  (forall key, In key (map fst values) -> In (key, Some l, k) (option_keys opts) ->
               is_set sf key = true) ->
  same_cell k l h (fst (applyConfigValues values sf opts h)).
Proof.
  revert h. induction values as [|[key val] rest IH]; intros h Hc; simpl.
  - apply same_cell_refl.
  - destruct (apply_entry sf opts key val h) as [h'|err] eqn:E; simpl.
    + apply (same_cell_trans _ _ _ h').
      * apply (apply_entry_frame _ _ _ _ _ _ _ _ E). apply Hc. left. reflexivity.
      * apply IH. intros k' Hin. apply Hc. right. exact Hin.
    + apply same_cell_refl.
Qed.

Lemma pointers_distinct_spec opts key1 key2 l k :
  pointers_distinct opts = true ->
  In (key1, Some l, k) (option_keys opts) -> In (key2, Some l, k) (option_keys opts) ->
  key1 = key2.
Proof.
  unfold pointers_distinct. intros H H1 H2.
  apply forallb_forall with (x := (key1, Some l, k)) in H; [|exact H1].
  apply forallb_forall with (x := (key2, Some l, k)) in H; [|exact H2].
  simpl in H. rewrite Nat.eqb_refl, Nat.eqb_refl in H. simpl in H.
  apply String.eqb_eq. exact H.
Qed.

(** C10: [applyConfigValues] leaves a variable unchanged unless the map
    has the key of an option pointing to it whose flag is not set.  So an
    empty map changes nothing; and when the options point to distinct
    variables (as the ones [main] builds do), the variable of an option
    whose flag is set, or whose key is absent from the map, is unchanged
    whatever the map holds, also when the call returns an error. *)
Theorem C10_set_flags_and_absent_keys_framed :
  (forall values sf opts h k l,
     (forall key, In key (map fst values) -> In (key, Some l, k) (option_keys opts) ->
                  is_set sf key = true) ->
     same_cell k l h (fst (applyConfigValues values sf opts h))) /\
  (forall sf opts h, applyConfigValues [] sf opts h = (h, None)) /\
  (forall values sf opts h name k l,
     pointers_distinct opts = true ->
     In (name, Some l, k) (option_keys opts) ->
     is_set sf name = true \/ ~ In name (map fst values) ->
     same_cell k l h (fst (applyConfigValues values sf opts h))) /\
  pointers_distinct CLI.main_opts = true.
Proof.
  split; [|split; [|split]].
  - exact apply_frame.
  - reflexivity.
  - intros values sf opts h name k l Hd Hname Hcase. apply apply_frame.
    intros key Hin Hkey.
    pose proof (pointers_distinct_spec _ _ _ _ _ Hd Hname Hkey) as <-.
    destruct Hcase as [Hs|Hn]; [exact Hs|contradiction].
  - vm_compute. reflexivity.
Qed.

Lemma C10_set_flags_and_absent_keys_framed_witness :
  let h := CLI.initial_heap (fun _ => "") in
  hs h CLI.L_dnsServers =
  hs (fst (applyConfigValues [("dns", "1.1.1.1:53"); ("city-db", "/tmp/c.mmdb")]
             {[ "dns" := true ]} CLI.main_opts h)) CLI.L_dnsServers.
Proof.
  intros h.
  exact (proj1 (proj2 (proj2 C10_set_flags_and_absent_keys_framed))
           [("dns", "1.1.1.1:53"); ("city-db", "/tmp/c.mmdb")] {[ "dns" := true ]} CLI.main_opts h
           "dns" 0%nat CLI.L_dnsServers
           ltac:(vm_compute; reflexivity) ltac:(vm_compute; left; reflexivity)
           ltac:(left; vm_compute; reflexivity)).
Defined.

End LoaderClaims.

Module MainClaims.
Import Loader LoaderFrame CLI MainTrace.

Section Generic.
Context {E : Type} {Resp : E -> Type}.

Lemma run_vis {A} (oracle : forall e, Resp e) (e : E) (k : Resp e -> Prog E Resp A) :
  fst (run oracle (Vis e k)) = e :: fst (run oracle (k (oracle e))).
Proof. simpl. destruct (run oracle (k (oracle e))). reflexivity. Qed.

Lemma safe_run {A} (P : E -> Prop) (p : Prog E Resp A) :
  Safe P p -> forall oracle e, In e (fst (run oracle p)) -> P e.
Proof.
  induction 1 as [a|e0 k He0 Hk IH]; intros oracle e Hin.
  - contradiction.
  - rewrite run_vis in Hin. destruct Hin as [<-|Hin]; [exact He0|].
    exact (IH (oracle e0) oracle e Hin).
Qed.

Lemma safe_bind {A B} (P : E -> Prop) (p : Prog E Resp A) (f : A -> Prog E Resp B) :
  Safe P p -> (forall a, Safe P (f a)) -> Safe P (bind p f).
Proof.
  induction 1 as [a|e0 k He0 Hk IH]; intros Hf; simpl.
  - apply Hf.
  - constructor; [exact He0|]. intros r. apply IH, Hf.
Qed.

End Generic.

Ltac safe_steps :=
  repeat (unfold write_output, say; cbn [bind];
    match goal with
    | |- Safe _ (Ret _) => constructor
    | |- Safe _ (Vis _ _) => constructor; [intros ? Hc; discriminate Hc | intros ?]
    | |- Safe _ (if ?b then _ else _) => destruct b
    | |- Safe _ (match ?x with Some _ => _ | None => _ end) => destruct x
    end).

Lemma psl_mode_safe Q h : Safe (cfg_events Q) (psl_mode h).
Proof. unfold psl_mode. safe_steps. Qed.

Lemma batch_mode_safe PS Q h inputs :
  Q (build_config PS h) -> Safe (cfg_events Q) (batch_mode PS h inputs).
Proof.
  intros HQ. unfold batch_mode.
  destruct (Z.ltb (hi h L_dbUpdateHours) 0); [safe_steps|].
  apply safe_bind.
  - safe_steps.
  - intros [e|]; [safe_steps|].
    constructor; [intros cfg Hc; injection Hc as <-; exact HQ|]. intros [e|]; [safe_steps|].
    constructor; [intros ? Hc; discriminate Hc|]. intros _.
    constructor; [intros cfg Hc; injection Hc as <-; exact HQ|]. intros [e|]; safe_steps.
Qed.

Lemma upd_s_frame h l0 v k l : (0%nat, l0) <> (k, l) -> same_cell k l h (upd_s h l0 v).
Proof.
  intros Hc. destruct k as [|[|[|]]]; simpl; trivial.
  destruct (Nat.eqb_spec l l0); [subst; congruence|reflexivity].
Qed.

Lemma upd_i_frame h l0 v k l : (1%nat, l0) <> (k, l) -> same_cell k l h (upd_i h l0 v).
Proof.
  intros Hc. destruct k as [|[|[|]]]; simpl; trivial.
  destruct (Nat.eqb_spec l l0); [subst; congruence|reflexivity].
Qed.

Lemma upd_b_frame h l0 v k l : (2%nat, l0) <> (k, l) -> same_cell k l h (upd_b h l0 v).
Proof.
  intros Hc. destruct k as [|[|[|]]]; simpl; trivial.
  destruct (Nat.eqb_spec l l0); [subst; congruence|reflexivity].
Qed.

Lemma parse_flags_frame defs h given h' k l :
  parse_flags defs h given = Some h' ->
  (forall name v d, In (name, v) given ->
     List.find (fun d => String.eqb (fst d) name) defs = Some d -> def_cell (snd d) <> (k, l)) ->
  same_cell k l h h'.
Proof.
  revert h. induction given as [|[name v] rest IH]; intros h Hp Hc; simpl in Hp.
  - injection Hp as <-. apply LoaderClaims.same_cell_refl.
  - destruct (List.find (fun d => String.eqb (fst d) name) defs) as [[n d]|] eqn:F;
      [|discriminate Hp].
    pose proof (Hc name v (n, d) (or_introl eq_refl) F) as Hd. simpl in Hd.
    assert (Hrest : forall h0, parse_flags defs h0 rest = Some h' -> same_cell k l h0 h').
    { intros h0 Hp0. apply (IH h0 Hp0). intros name' v' d' Hin. apply (Hc name' v'). right. exact Hin. }
    destruct d as [l0 def|l0 def|l0 def]; destruct v as [sv|nv|bv]; try discriminate Hp;
      eapply LoaderClaims.same_cell_trans; [| exact (Hrest _ Hp) | | exact (Hrest _ Hp)
                                           | | exact (Hrest _ Hp)].
    + apply upd_s_frame. exact Hd.
    + apply upd_i_frame. exact Hd.
    + apply upd_b_frame. exact Hd.
Qed.

Lemma flag_cell_default getenv d :
  In d (flag_defs getenv) ->
  In (def_cell (snd d)) [(0%nat, L_dnsServers); (1%nat, L_timeoutMS); (1%nat, L_parallel)] ->
  In (fst d) default_keys.
Proof.
  intros Hd Hc. cbn [flag_defs In] in Hd.
  repeat (destruct Hd as [<-|Hd]; [vm_compute in Hc |- *; intuition congruence|]).
  contradiction.
Qed.

Lemma parse_flags_defaults getenv given h0 :
  parse_flags (flag_defs getenv) (initial_heap getenv) given = Some h0 ->
  (forall key, In key (map fst given) -> ~ In key default_keys) ->
  hs h0 L_dnsServers = "8.8.8.8:53,8.8.4.4:53" /\ hi h0 L_timeoutMS = 2000 /\
  hi h0 L_parallel = 64.
Proof.
  intros Hp Hg.
  assert (Hc : forall c, In c [(0%nat, L_dnsServers); (1%nat, L_timeoutMS); (1%nat, L_parallel)] ->
     same_cell (fst c) (snd c) (initial_heap getenv) h0).
  { intros [k l] Hin. apply (parse_flags_frame _ _ _ _ _ _ Hp).
    intros name v d Hnv Hf Heq. apply find_some in Hf as [Hd Hn].
    apply String.eqb_eq in Hn.
    apply (Hg name); [apply (in_map fst _ (name, v)); exact Hnv|].
    rewrite <- Hn. apply (flag_cell_default getenv); [exact Hd|]. rewrite Heq. exact Hin. }
  pose proof (Hc (0%nat, L_dnsServers) ltac:(simpl; auto)) as H1.
  pose proof (Hc (1%nat, L_timeoutMS) ltac:(simpl; auto)) as H2.
  pose proof (Hc (1%nat, L_parallel) ltac:(simpl; auto)) as H3.
  simpl in H1, H2, H3. rewrite <- H1, <- H2, <- H3. repeat split; reflexivity.
Qed.

Lemma applied_defaults vals sf h0 h1 aerr :
  (forall key, In key (map fst vals) -> ~ In key default_keys) ->
  (if Nat.ltb 0 (length vals) then applyConfigValues vals sf main_opts h0 else (h0, None)) = (h1, aerr) ->
  hs h0 L_dnsServers = hs h1 L_dnsServers /\ hi h0 L_timeoutMS = hi h1 L_timeoutMS /\
  hi h0 L_parallel = hi h1 L_parallel.
Proof.
  intros Hv Happ.
  destruct (Nat.ltb 0 (length vals)); [|injection Happ as <- _; repeat split].
  apply (f_equal fst) in Happ. simpl in Happ. subst h1.
  assert (Hc : forall key k l, In (key, Some l, k) (option_keys main_opts) -> In key default_keys ->
     same_cell k l h0 (fst (applyConfigValues vals sf main_opts h0))).
  { intros key k l Hkey Hdef. apply LoaderClaims.apply_frame.
    intros key' Hin Hkey'. exfalso. apply (Hv key' Hin).
    rewrite (LoaderClaims.pointers_distinct_spec main_opts key' key l k
               ltac:(vm_compute; reflexivity) Hkey' Hkey). exact Hdef. }
  pose proof (Hc "dns" 0%nat L_dnsServers ltac:(vm_compute; tauto) ltac:(vm_compute; tauto)) as H1.
  pose proof (Hc "timeout-ms" 1%nat L_timeoutMS ltac:(vm_compute; tauto) ltac:(vm_compute; tauto)) as H2.
  pose proof (Hc "parallel" 1%nat L_parallel ltac:(vm_compute; tauto) ltac:(vm_compute; tauto)) as H3.
  exact (conj H1 (conj H2 H3)).
Qed.

(** C6: every [Config] [main] hands to [OpenDBs] or to the batch has an
    IP-cache capacity of 10000 and a TTL of 10 minutes; when neither the
    command line nor the config file names [dns], [timeout-ms] or
    [parallel], it has the servers parsed from [8.8.8.8:53,8.8.4.4:53], a
    lookup timeout of 2000 ms and a parallelism of 64. *)
Theorem C6_config_defaults_and_cache :
  forall PS Quote getenv cl (oracle : forall e, MainResp e) cfg,
    cfg_in_trace cfg (fst (run oracle (CLI.main PS Quote getenv cl))) ->
    IPCacheSize cfg = 10000 /\ IPCacheTTL cfg = 600000000000 /\
    ((forall key, In key (map fst (cl_flags cl)) -> ~ In key default_keys) ->
     (forall p key, In key (map fst (config_entries (oracle (EResolveConfig p)))) ->
                    ~ In key default_keys) ->
     DNSServers cfg = PS "8.8.8.8:53,8.8.4.4:53" /\ LookupTimeout cfg = 2000000000 /\
     Parallelism cfg = 64).
Proof.
  intros PS Quote getenv cl oracle cfg [e [Hin He]].
  unfold main in Hin.
  destruct (parse_flags (flag_defs getenv) (initial_heap getenv) (cl_flags cl)) as [h0|] eqn:Hp;
    [|simpl in Hin; contradiction].
  rewrite run_vis in Hin. destruct Hin as [<-|Hin]; [discriminate He|].
  destruct (oracle (EResolveConfig (hs h0 L_configPath))) as [[vals src] err] eqn:Hans.
  cbv beta iota zeta in Hin.
  destruct err as [msg|].
  { simpl in Hin. destruct Hin as [<-|[]]. discriminate He. }
  destruct (if Nat.ltb 0 (length vals)
            then applyConfigValues vals (visited (cl_flags cl)) main_opts h0 else (h0, None))
    as [h1 aerr] eqn:Happ.
  cbn [snd fst] in Hin.
  destruct aerr as [msg|].
  { simpl in Hin. destruct Hin as [<-|[]]. discriminate He. }
  set (Q := fun c : Config =>
    IPCacheSize c = 10000 /\ IPCacheTTL c = 600000000000 /\
    DNSServers c = PS (hs h1 L_dnsServers) /\
    LookupTimeout c = Go.dur_mul (hi h1 L_timeoutMS) Go.Millisecond /\
    Parallelism c = hi h1 L_parallel).
  match type of Hin with context [run _ ?p] => assert (HS : Safe (cfg_events Q) p) end.
  { assert (Hrest : forall h2, hs h2 L_dnsServers = hs h1 L_dnsServers ->
              hi h2 L_timeoutMS = hi h1 L_timeoutMS -> hi h2 L_parallel = hi h1 L_parallel ->
      Safe (cfg_events Q)
        (if hb h2 L_pslPrivateList then psl_mode h2 else
         let h3 :=
           if (negb (is_set (visited (cl_flags cl)) "whois") &&
               negb (existsb (fun kv => String.eqb (fst kv) "whois") vals) &&
               negb (String.eqb (hs h2 L_whoisToolPath) "") && negb (hb h2 L_enableWhois))%bool
           then upd_b h2 L_enableWhois true else h2 in
         match collect_inputs (hs h3 L_list) (cl_args cl) with
         | [] => _ <- say "Usage: dnsgeeo [--config file] [--list host1,host2] ..." ;; Ret 2
         | _ :: _ => batch_mode PS h3 (collect_inputs (hs h3 L_list) (cl_args cl))
         end)).
    { intros h2 E1 E2 E3.
      destruct (hb h2 L_pslPrivateList); [apply psl_mode_safe|]. cbv zeta.
      match goal with |- context [if ?b then upd_b _ _ _ else _] => destruct b end;
      (destruct (collect_inputs _ (cl_args cl)); [safe_steps|]);
      apply batch_mode_safe; unfold Q; simpl; rewrite ?E1, ?E2, ?E3;
      repeat split; reflexivity. }
    destruct (String.eqb (hs h1 L_whoisToolPath) ""); cbn [bind].
    - constructor; [intros ? Hc; discriminate Hc|]. intros ok. cbn [bind].
      destruct ok; apply Hrest; reflexivity.
    - apply Hrest; reflexivity. }
  destruct (safe_run _ _ HS oracle e Hin cfg He) as (H1 & H2 & H3 & H4 & H5).
  split; [exact H1|]. split; [exact H2|].
  intros Hflags Hconf.
  specialize (Hconf (hs h0 L_configPath)). rewrite Hans in Hconf.
  destruct (parse_flags_defaults getenv (cl_flags cl) h0 Hp Hflags) as (D1 & D2 & D3).
  destruct (applied_defaults vals (visited (cl_flags cl)) h0 h1 None Hconf Happ) as (A1 & A2 & A3).
  rewrite H3, H4, H5, <- A1, <- A2, <- A3, D1, D2, D3.
  repeat split; reflexivity.
Qed.

Lemma C6_config_defaults_and_cache_witness :
  let cfg := {| DNSServers := ["8.8.8.8:53,8.8.4.4:53"]; LookupTimeout := 2000000000;
                Parallelism := 64; PreferIPv6 := true; CheckMalicious := true;
                EnableWhois := true; WhoisToolPath := ""; WhoisPython := "python3";
                WhoisTimeout := 5000000000; CityDBPath := ""; ASNDBPath := "";
                IPCacheSize := 10000; IPCacheTTL := 600000000000 |} in
  DNSServers cfg = ["8.8.8.8:53,8.8.4.4:53"] /\ LookupTimeout cfg = 2000000000 /\
  Parallelism cfg = 64.
Proof.
  intros cfg.
  set (oracle := fun e : MainE =>
    match e as e0 return MainResp e0 with
    | EResolveConfig _ => ([("whois-timeout-ms", "5000")], "file", None)
    | EStatFile _ => false
    | EInitCache _ _ | EStdout | EStderr _ | ECloseDBs => tt
    | _ => None
    end).
  set (cl := {| cl_flags := [("pretty", VBool true)]; cl_args := ["example.com"] |}).
  refine (proj2 (proj2 (C6_config_defaults_and_cache (fun s => [s]) (fun s => s) (fun _ => "") cl oracle cfg _)) _ _).
  - exists (EOpenDBs cfg). split; [|reflexivity].
    vm_compute. right; right; left; reflexivity.
  - intros key Hk. simpl in Hk. destruct Hk as [<-|[]]. simpl. intuition discriminate.
  - intros p key Hk. simpl in Hk. destruct Hk as [<-|[]]. simpl. intuition discriminate.
Defined.

End MainClaims.

Module GeoClaims.
Import CLI MainTrace GeoUpdate.

(** C7: with a City database path and [--db-update-hours 2562048], which
    is positive, [time.Duration(2562048) * time.Hour] wraps around to a
    negative interval, so [main] never calls [maybeUpdateGeoLiteDatabases]
    and goes on to [OpenDBs] and the batch; with 24 hours it calls it
    first.  [maybeUpdateGeoLiteDatabases] itself returns nil without a
    request when its interval is not positive. *)
Theorem C7_overflowed_interval_skips_refresh :
  let cl hours := {| cl_flags := [("city-db", VString "/var/lib/GeoLite2-City.mmdb");
                                  ("db-update-hours", VInt hours)];
                     cl_args := ["example.com"] |} in
  Go.dur_mul 2562048 Go.Hour = -9223371273709551616 /\
  map event_name (fst (run quiet_oracle (main (fun s => [s]) (fun s => s) (fun _ => "") (cl 2562048))))
    = ["resolveConfigPath"; "os.Stat"; "OpenDBs"; "InitIPCache"; "RunBatch";
       "os.Stdout.Write"; "CloseDBs"] /\
  map event_name (fst (run quiet_oracle (main (fun s => [s]) (fun s => s) (fun _ => "") (cl 24))))
    = ["resolveConfigPath"; "os.Stat"; "maybeUpdateGeoLiteDatabases"; "OpenDBs";
       "InitIPCache"; "RunBatch"; "os.Stdout.Write"; "CloseDBs"] /\
  (forall key maxAge city asn, maxAge <= 0 -> maybeUpdateGeoLiteDatabases key maxAge city asn = Ret None).
Proof.
  intros cl. split; [vm_compute; reflexivity|].
  split; [vm_compute; reflexivity|]. split; [vm_compute; reflexivity|].
  intros key maxAge city asn Hm. unfold maybeUpdateGeoLiteDatabases.
  replace (Z.leb maxAge 0) with true by (symmetry; apply Z.leb_le; exact Hm). reflexivity.
Qed.

End GeoClaims.

Module UniqueFacts.
Import Unique Reference.

Lemma existsb_In x seen : existsb (String.eqb x) seen = true <-> In x seen.
Proof.
  rewrite existsb_exists. split.
  - intros [y [Hy Heq]]. apply String.eqb_eq in Heq. subst. exact Hy.
  - intros Hin. exists x. split; [exact Hin|apply String.eqb_refl].
Qed.

Lemma keep_first_ext s s' l :
  (forall x, In x s <-> In x s') -> keep_first s l = keep_first s' l.
Proof.
  revert s s'. induction l as [|x rest IH]; intros s s' Hs; simpl; [reflexivity|].
  destruct (existsb (String.eqb x) s) eqn:E1, (existsb (String.eqb x) s') eqn:E2.
  - apply IH, Hs.
  - apply existsb_In, Hs, existsb_In in E1. congruence.
  - apply existsb_In, Hs, existsb_In in E2. congruence.
  - f_equal. apply IH. intros y. simpl. rewrite Hs. reflexivity.
Qed.

Lemma keep_first_In s l x : In x (keep_first s l) <-> In x l /\ ~ In x s.
Proof.
  revert s. induction l as [|y rest IH]; intros s; simpl; [tauto|].
  destruct (existsb (String.eqb y) s) eqn:E.
  - apply existsb_In in E. rewrite IH. split; [tauto|].
    intros [[<-|H] Hn]; [contradiction|tauto].
  - simpl. rewrite IH. simpl.
    assert (~ In y s) by (intros H; apply existsb_In in H; congruence).
    split.
    + intros [<-|[H1 H2]]; [tauto|]. split; [tauto|]. tauto.
    + intros [[<-|H1] H2]; [tauto|].
      destruct (String.eqb_spec y x) as [->|Hne]; [tauto|]. right. split; [exact H1|].
      intros [H3|H3]; [congruence|contradiction].
Qed.

Lemma keep_first_NoDup s l : List.NoDup (keep_first s l).
Proof.
  revert s. induction l as [|y rest IH]; intros s; simpl; [constructor|].
  destruct (existsb (String.eqb y) s); [apply IH|].
  constructor; [|apply IH]. rewrite keep_first_In. simpl. tauto.
Qed.

Lemma unique_fold inputs (seen : gset string) out :
  (forall x, x ∈ seen <-> In x out) ->
  snd (fold_left
    (fun (acc : gset string * list string) raw =>
       let '(seen, out) := acc in
       let host := normalize raw in
       if String.eqb host "" then acc
       else if NetIP.ParseIP host then acc
       else if decide (host ∈ seen) then acc
       else ({[host]} ∪ seen, app out [host]))
    inputs (seen, out))
  = app out (keep_first out (List.filter valid_host (map normalize inputs))).
Proof.
  cbv zeta. revert seen out. induction inputs as [|raw rest IH]; intros seen out Hs; simpl.
  - rewrite app_nil_r. reflexivity.
  - cbn [List.filter]. destruct (String.eqb (normalize raw) "") eqn:E1.
    { replace (valid_host (normalize raw)) with false by (unfold valid_host; rewrite E1; reflexivity).
      apply IH, Hs. }
    destruct (NetIP.ParseIP (normalize raw)) eqn:E2.
    { replace (valid_host (normalize raw)) with false by (unfold valid_host; rewrite E1, E2; reflexivity).
      apply IH, Hs. }
    replace (valid_host (normalize raw)) with true by (unfold valid_host; rewrite E1, E2; reflexivity).
    simpl.
    destruct (decide (normalize raw ∈ seen)) as [Hin|Hnin].
    + rewrite (proj2 (existsb_In _ _) (proj1 (Hs _) Hin)). apply IH, Hs.
    + assert (Hno : existsb (String.eqb (normalize raw)) out = false).
      { destruct (existsb _ out) eqn:E; [|reflexivity].
        apply existsb_In, Hs in E. contradiction. }
      rewrite Hno. rewrite IH.
      * rewrite <- app_assoc. simpl. f_equal. f_equal.
        apply keep_first_ext. intros x. rewrite in_app_iff. simpl. tauto.
      * intros x. rewrite elem_of_union, elem_of_singleton, Hs, in_app_iff. simpl.
        split; intros [H|H]; auto; destruct H as [H|[]]; auto.
Qed.

(** [uniqueDomains] keeps the normalized inputs that are neither empty
    nor an IP literal, each once, at its first occurrence. *)
Theorem uniqueDomains_first_occurrences inputs :
  uniqueDomains inputs = keep_first [] (List.filter valid_host (map normalize inputs)) /\
  List.NoDup (uniqueDomains inputs) /\
  (forall d, In d (uniqueDomains inputs) <->
     exists raw, In raw inputs /\ normalize raw = d /\ d <> "" /\ NetIP.ParseIP d = false).
Proof.
  assert (Heq : uniqueDomains inputs = keep_first [] (List.filter valid_host (map normalize inputs))).
  { unfold uniqueDomains. rewrite (unique_fold inputs ∅ []); [reflexivity|].
    intros x. rewrite elem_of_empty. simpl. tauto. }
  split; [exact Heq|]. rewrite Heq. split; [apply keep_first_NoDup|].
  intros d. rewrite keep_first_In, List.filter_In, in_map_iff. unfold valid_host. split.
  - intros [[[raw [Hr Hin]] Hv] _]. exists raw. split; [exact Hin|]. split; [exact Hr|].
    apply andb_prop in Hv as [H1 H2]. apply negb_true_iff in H1, H2.
    split; [intros ->; discriminate H1|exact H2].
  - intros [raw [Hin [Hr [Hne Hip]]]]. split; [|simpl; tauto]. split; [exists raw; auto|].
    rewrite Hip. apply String.eqb_neq in Hne. rewrite Hne. reflexivity.
Qed.

End UniqueFacts.

Module SplitFacts.
Import ConfigFile.

Lemma Split_app a c rest :
  IndexByte a c = None -> Go.Split (a ++ String c rest) c = a :: Go.Split rest c.
Proof.
  induction a as [|x a IH]; simpl; intros H.
  - rewrite Ascii.eqb_refl. reflexivity.
  - destruct (Ascii.eqb x c); [discriminate H|].
    destruct (IndexByte a c); [discriminate H|]. rewrite IH by reflexivity. reflexivity.
Qed.

Lemma Split_none a c : IndexByte a c = None -> Go.Split a c = [a].
Proof.
  induction a as [|x a IH]; simpl; intros H; [reflexivity|].
  destruct (Ascii.eqb x c); [discriminate H|].
  destruct (IndexByte a c); [discriminate H|]. rewrite IH by reflexivity. reflexivity.
Qed.

Lemma Split_Join ds c :
  ds <> [] -> Forall (fun d => IndexByte d c = None) ds ->
  Go.Split (Go.Join ds (String c "")) c = ds.
Proof.
  induction ds as [|d [|d' ds] IH]; intros Hne Hf; [congruence| |].
  - inversion Hf; subst. apply Split_none. assumption.
  - inversion Hf; subst. change (Go.Join (d :: d' :: ds) (String c ""))
      with (d ++ String c (Go.Join (d' :: ds) (String c ""))).
    rewrite Split_app by assumption. f_equal. apply IH; [discriminate|assumption].
Qed.

End SplitFacts.

Module CollectFacts.
Import CLI ConfigFile.

Lemma filter_nonempty (l : list string) :
  Forall (fun h => h <> "") l ->
  filter (fun t => negb (String.eqb t "")) l = l.
Proof.
  induction l as [|x l IH]; intros Hf; [reflexivity|]. inversion Hf; subst.
  rewrite filter_cons_True; [f_equal; apply IH; assumption|].
  apply String.eqb_neq in H1. rewrite H1. exact I.
Qed.

(** Hosts that are non-empty, free of surrounding white space and of
    commas, passed as a comma-separated [--list], come out of
    [collect_inputs] unchanged, in order, before the positional
    arguments. *)
Theorem collect_inputs_joined_list hosts args :
  Forall (fun h => h <> "" /\ Go.TrimSpace h = h /\ IndexByte h "," = None) hosts ->
  collect_inputs (Go.Join hosts ",") args = app hosts args.
Proof.
  intros Hf. unfold collect_inputs. destruct hosts as [|h rest]; [reflexivity|].
  assert (Hj : String.eqb (Go.Join (h :: rest) ",") "" = false).
  { inversion Hf as [|? ? [Hh _] _]; subst.
    destruct rest as [|h' rest]; simpl.
    - apply String.eqb_neq. exact Hh.
    - destruct h; [congruence|reflexivity]. }
  rewrite Hj. f_equal.
  rewrite (SplitFacts.Split_Join (h :: rest) "," ltac:(discriminate)).
  2: { eapply List.Forall_impl; [|exact Hf]. simpl. tauto. }
  rewrite map_ext_in with (g := fun x => x).
  - rewrite map_id. apply filter_nonempty. eapply List.Forall_impl; [|exact Hf]. simpl. tauto.
  - intros x Hx. rewrite List.Forall_forall in Hf. apply Hf. exact Hx.
Qed.

Lemma collect_inputs_joined_list_witness :
  Forall (fun h => h <> "" /\ Go.TrimSpace h = h /\ IndexByte h "," = None) ["a.example"; "b.example"] /\
  collect_inputs (Go.Join ["a.example"; "b.example"] ",") ["c.example"]
  = ["a.example"; "b.example"; "c.example"].
Proof.
  split.
  - repeat constructor; (discriminate || reflexivity).
  - apply (collect_inputs_joined_list ["a.example"; "b.example"] ["c.example"]).
    repeat constructor; (discriminate || reflexivity).
Defined.

End CollectFacts.

Module DecimalFacts.
Import Loader.

Lemma digit_char r : 0 <= r < 10 ->
  NetIP.is_digit (ascii_of_nat (48 + Z.to_nat r)) = true /\
  NetIP.digit_val (ascii_of_nat (48 + Z.to_nat r)) = r.
Proof.
  intros Hr.
  assert (Hc : r = 0 \/ r = 1 \/ r = 2 \/ r = 3 \/ r = 4 \/ r = 5 \/ r = 6 \/ r = 7 \/ r = 8 \/ r = 9) by lia.
  repeat destruct Hc as [->|Hc]; try (subst; split; reflexivity).
Qed.

Lemma dec_digits_S f n acc :
  Go.dec_digits (S f) n acc =
  if Z.eqb (Z.quot n 10) 0 then String (ascii_of_nat (48 + Z.to_nat (Z.rem n 10))) acc
  else Go.dec_digits f (Z.quot n 10) (String (ascii_of_nat (48 + Z.to_nat (Z.rem n 10))) acc).
Proof. reflexivity. Qed.

Lemma dec_digits_value fuel n acc a :
  0 <= n < 10 ^ Z.of_nat fuel -> (0 < fuel)%nat ->
  exists k, dec_value (list_ascii_of_string (Go.dec_digits fuel n acc)) a
            = dec_value (list_ascii_of_string acc) (a * 10 ^ k + n) /\ 0 <= k.
Proof.
  revert n acc a. induction fuel as [|f IH]; intros n acc a Hn Hf; [lia|].
  rewrite dec_digits_S, Z.quot_div_nonneg, Z.rem_mod_nonneg by lia.
  destruct (digit_char (n mod 10) (Z.mod_pos_bound n 10 eq_refl)) as [Hd Hv].
  remember (ascii_of_nat (48 + Z.to_nat (n mod 10))) as d eqn:Ed.
  destruct (Z.eqb_spec (n / 10) 0) as [Hq|Hq].
  - exists 1. pose proof (Z.div_mod n 10 ltac:(lia)). cbn [list_ascii_of_string dec_value]. rewrite Hd, Hv, Z.pow_1_r. split; [|lia]. f_equal.
    pose proof (Z.div_mod n 10 ltac:(lia)). lia.
  - destruct f as [|f].
    + exfalso. apply Hq, Z.div_small. simpl in Hn. lia.
    + destruct (IH (n / 10) (String d acc) a) as [k [Hk Hk0]].
      * split; [apply Z.div_pos; lia|].
        apply Z.div_lt_upper_bound; [lia|]. rewrite Nat2Z.inj_succ, Z.pow_succ_r in Hn by lia.
        pose proof (Z.div_mod n 10 ltac:(lia)). pose proof (Z.mod_pos_bound n 10 eq_refl). lia.
      * lia.
      * exists (k + 1). rewrite Hk. cbn [list_ascii_of_string dec_value]. rewrite Hd, Hv. split; [|lia]. f_equal.
        rewrite Z.pow_add_r by lia. pose proof (Z.div_mod n 10 ltac:(lia)). lia.
Qed.

Lemma dec_digits_chars fuel n acc :
  0 <= n -> Forall (fun c => NetIP.is_digit c = true) (list_ascii_of_string acc) ->
  Forall (fun c => NetIP.is_digit c = true) (list_ascii_of_string (Go.dec_digits fuel n acc)) /\
  (0 < fuel -> Go.dec_digits fuel n acc <> "")%nat.
Proof.
  revert n acc. induction fuel as [|f IH]; intros n acc Hn Hacc; [split; [exact Hacc|simpl; lia]|].
  rewrite dec_digits_S, Z.quot_div_nonneg, Z.rem_mod_nonneg by lia.
  destruct (digit_char (n mod 10) (Z.mod_pos_bound n 10 eq_refl)) as [Hd _].
  remember (ascii_of_nat (48 + Z.to_nat (n mod 10))) as d eqn:Ed.
  assert (Hacc' : Forall (fun c => NetIP.is_digit c = true)
                    (list_ascii_of_string (String d acc)))
    by (constructor; [exact Hd|exact Hacc]).
  destruct (Z.eqb (n / 10) 0).
  - split; [exact Hacc'|discriminate].
  - destruct f as [|f]; [split; [exact Hacc'|discriminate]|].
    destruct (IH (n / 10) _ ltac:(apply Z.div_pos; lia) Hacc') as [H1 H2].
    split; [exact H1|]. intros _. apply H2. lia.
Qed.

Lemma size_nat_bound p : Zpos p < 2 ^ Z.of_nat (Pos.size_nat p).
Proof.
  induction p as [p IH|p IH|]; simpl Pos.size_nat; rewrite ?Nat2Z.inj_succ, ?Z.pow_succ_r by lia;
    [rewrite Pos2Z.inj_xI| rewrite Pos2Z.inj_xO|]; simpl; lia.
Qed.

Lemma pow2_le_pow10 k : 0 <= k -> 2 ^ k <= 10 ^ k.
Proof. intros Hk. apply Z.pow_le_mono_l. lia. Qed.

(** [strconv.Atoi] reads back what [fmt.Sprintf("%d", n)] writes, for
    every 64-bit integer [n]. *)
Theorem Atoi_Sprintf_d n :
  - 2 ^ 63 <= n < 2 ^ 63 -> Atoi (Go.Sprintf_d n) = Some n.
Proof.
  intros Hn. unfold Go.Sprintf_d.
  set (fuel := S (Pos.size_nat (Z.to_pos (Z.abs n + 1)))).
  assert (Hfuel : 0 <= Z.abs n < 10 ^ Z.of_nat fuel).
  { split; [lia|]. unfold fuel. rewrite Nat2Z.inj_succ, Z.pow_succ_r by lia.
    pose proof (size_nat_bound (Z.to_pos (Z.abs n + 1))) as Hb.
    rewrite Z2Pos.id in Hb by lia.
    pose proof (pow2_le_pow10 (Z.of_nat (Pos.size_nat (Z.to_pos (Z.abs n + 1)))) ltac:(lia)).
    lia. }
  destruct (dec_digits_value fuel (Z.abs n) "" 0 Hfuel ltac:(unfold fuel; lia)) as [k [Hk _]].
  destruct (dec_digits_chars fuel (Z.abs n) "" ltac:(lia) ltac:(constructor)) as [Hc Hne].
  specialize (Hne ltac:(unfold fuel; lia)).
  change (dec_value (list_ascii_of_string "") (0 * 10 ^ k + Z.abs n)) with (Some (0 * 10 ^ k + Z.abs n)) in Hk.
  rewrite Z.mul_0_l, Z.add_0_l in Hk.
  set (s := Go.dec_digits fuel (Z.abs n) "") in *.
  unfold Atoi.
  destruct s as [|c rest] eqn:Hs; [congruence|].
  inversion Hc as [|? ? Hcd _]; subst.
  destruct (Z.ltb_spec n 0) as [Hneg|Hpos].
  - cbn [list_ascii_of_string]. simpl String.length.
    change (list_ascii_of_string (String c rest)) with (c :: list_ascii_of_string rest) in Hk.
    rewrite Hk. cbv beta iota.
    replace (- Z.abs n) with n by lia.
    replace (Z.leb (- 2 ^ 63) n && Z.ltb n (2 ^ 63))%bool with true
      by (symmetry; apply andb_true_iff; split; [apply Z.leb_le|apply Z.ltb_lt]; lia).
    reflexivity.
  - change (list_ascii_of_string (String c rest)) with (c :: list_ascii_of_string rest) in *.
    assert (Hcm : c <> "-"%char /\ c <> "+"%char) by (split; intros ->; discriminate Hcd).
    destruct Hcm as [Hm Hp].
    assert (Hmatch : match c :: list_ascii_of_string rest with
                     | "-"%char :: r => (true, r)
                     | "+"%char :: r => (false, r)
                     | _ => (false, c :: list_ascii_of_string rest)
                     end = (false, c :: list_ascii_of_string rest)).
    { destruct c as [[] [] [] [] [] [] [] []]; try reflexivity; congruence. }
    rewrite Hmatch. rewrite Hk.
    replace (Z.abs n) with n by lia.
    replace (Z.leb (- 2 ^ 63) n && Z.ltb n (2 ^ 63))%bool with true
      by (symmetry; apply andb_true_iff; split; [apply Z.leb_le|apply Z.ltb_lt]; lia).
    reflexivity.
Qed.

Lemma Atoi_Sprintf_d_witness : Atoi (Go.Sprintf_d (- 42)) = Some (- 42).
Proof. apply Atoi_Sprintf_d. lia. Defined.

End DecimalFacts.

Module ApplyFacts.
Import Loader LoaderFrame Reference.

Ltac key_cases key :=
  repeat match goal with
  | |- context [if String.eqb key ?c then _ else _] =>
      destruct (String.eqb_spec key c) as [->|?]
  end.

Lemma apply_entry_result sf opts key val h :
  (exists h', apply_entry sf opts key val h = inl h') /\ entry_valid opts sf key val = true \/
  (exists err, apply_entry sf opts key val h = inr err /\ entry_valid opts sf key val = false /\
     (err = ErrMustBeInteger key (atoi_error val) \/ err = ErrMustBeBoolean key (parse_bool_error val))).
Proof.
  unfold apply_entry, entry_valid. key_cases key.
  all: unfold option_keys; cbn [List.find].
  all: repeat match goal with
              | H : ?k <> ?c |- _ =>
                  rewrite (proj2 (String.eqb_neq c k) (not_eq_sym H)); clear H
              end.
  all: cbn [List.find String.eqb Ascii.eqb Bool.eqb andb].
  all: try (left; split; [eexists; reflexivity|reflexivity]).
  all: unfold set_string, set_int, set_bool.
  all: match goal with |- context [match ?o with Some _ => _ | None => _ end] =>
         destruct o as [l|] end.
  all: try (left; split; [eexists; reflexivity|reflexivity]).
  all: destruct (is_set sf _); cbn [orb].
  all: try (left; split; [eexists; reflexivity|reflexivity]).
  all: match goal with
       | |- context [Atoi ?v] => destruct (Atoi v)
       | |- context [ParseBool ?v] => destruct (ParseBool v)
       end.
  all: first [ left; split; [eexists; reflexivity|reflexivity]
             | right; eexists; split; [reflexivity|]; split; [reflexivity|]; auto ].
Qed.

(** [applyConfigValues] fails exactly when an entry's value is rejected:
    its key names an option with a non-nil pointer whose flag is not set,
    and the value is not an integer for an integer option or not a
    boolean for a boolean one.  The error is the one of the first such
    entry: [<key> must be an integer] wrapping the [strconv.Atoi] error for
    its value, or [<key> must be a boolean] wrapping the
    [strconv.ParseBool] error. *)
Theorem applyConfigValues_error_iff values sf opts h :
  (snd (applyConfigValues values sf opts h) = None <->
   forallb (fun kv => entry_valid opts sf (fst kv) (snd kv)) values = true) /\
  (forall err, snd (applyConfigValues values sf opts h) = Some err ->
   exists pre key val post,
     values = app pre ((key, val) :: post) /\
     forallb (fun kv => entry_valid opts sf (fst kv) (snd kv)) pre = true /\
     entry_valid opts sf key val = false /\
     (err = ErrMustBeInteger key (atoi_error val) \/ err = ErrMustBeBoolean key (parse_bool_error val))).
Proof.
  revert h. induction values as [|[key val] rest IH]; intros h; simpl.
  - split; [tauto|]. intros err H. discriminate H.
  - destruct (apply_entry_result sf opts key val h) as [[[h' Hh'] Hv]|[err [He [Hv Hm]]]].
    + rewrite Hh', Hv. simpl. destruct (IH h') as [IH1 IH2]. split; [exact IH1|].
      intros err Herr. destruct (IH2 err Herr) as (pre & k & v & post & Heq & Hpre & Hk & Hmsg).
      exists ((key, val) :: pre), k, v, post. subst rest. simpl. rewrite Hv. auto.
    + rewrite He, Hv. simpl. split; [split; discriminate|].
      intros err' Herr. injection Herr as <-. exists [], key, val, rest. auto.
Qed.

Lemma apply_entry_writes sf opts key val h h' l kind :
  apply_entry sf opts key val h = inl h' ->
  In (key, Some l, kind) (option_keys opts) -> is_set sf key = false ->
  holds_value kind l h' val.
Proof.
  intros Ha Hin Hs. unfold option_keys in Hin. cbn [In] in Hin.
  repeat (destruct Hin as [Heq|Hin]; [injection Heq as Hk Ho Hkd; subst key kind;
    unfold apply_entry in Ha; cbn [String.eqb Ascii.eqb Bool.eqb andb] in Ha;
    rewrite Ho in Ha; unfold set_string, set_int, set_bool in Ha; rewrite Hs in Ha;
    first [ injection Ha as <- | destruct (Atoi val) eqn:Hv; [injection Ha as <-|discriminate Ha]
          | destruct (ParseBool val) eqn:Hv; [injection Ha as <-|discriminate Ha] ];
    unfold holds_value; simpl; rewrite ?Nat.eqb_refl; try assumption; reflexivity|]).
  contradiction.
Qed.

Lemma holds_value_frame kind l h h' val :
  holds_value kind l h val -> same_cell kind l h h' -> holds_value kind l h' val.
Proof. destruct kind as [|[|[|]]]; simpl; intros H1 H2; congruence. Qed.

(** When the options point to distinct variables and the config keys are
    distinct, a successful [applyConfigValues] leaves every option whose
    flag is not set holding its config value: the text itself for a
    string, the parsed integer or boolean otherwise. *)
Theorem applyConfigValues_writes values sf opts h h' :
  LoaderFrame.pointers_distinct opts = true -> List.NoDup (map fst values) ->
  applyConfigValues values sf opts h = (h', None) ->
  forall key val l kind, In (key, val) values -> In (key, Some l, kind) (option_keys opts) ->
    is_set sf key = false -> holds_value kind l h' val.
Proof.
  intros Hd. revert h. induction values as [|[k v] rest IH]; intros h Hnd Happ key val l kind Hin Hk Hs;
    [contradiction|].
  simpl in Happ. destruct (apply_entry sf opts k v h) as [h1|err] eqn:Ha; [|discriminate Happ].
  simpl in Hnd. inversion Hnd as [|? ? Hnot Hnd']; subst.
  destruct Hin as [Heq|Hin].
  - injection Heq as -> ->.
    apply (holds_value_frame _ _ h1); [exact (apply_entry_writes _ _ _ _ _ _ _ _ Ha Hk Hs)|].
    replace h' with (fst (applyConfigValues rest sf opts h1)) by (rewrite Happ; reflexivity).
    apply LoaderClaims.apply_frame. intros key' Hkey' Hopt.
    exfalso. apply Hnot. rewrite (LoaderClaims.pointers_distinct_spec _ _ _ _ _ Hd Hopt Hk) in Hkey'.
    exact Hkey'.
  - exact (IH h1 Hnd' Happ key val l kind Hin Hk Hs).
Qed.

Lemma applyConfigValues_writes_witness :
  let h := CLI.initial_heap (fun _ => "") in
  holds_value 1%nat CLI.L_parallel
    (fst (applyConfigValues [("parallel", "8"); ("dns", "1.1.1.1:53")] ∅ CLI.main_opts h)) "8".
Proof.
  intros h.
  apply (applyConfigValues_writes [("parallel", "8"); ("dns", "1.1.1.1:53")] ∅ CLI.main_opts h
           (fst (applyConfigValues [("parallel", "8"); ("dns", "1.1.1.1:53")] ∅ CLI.main_opts h))
           ltac:(vm_compute; reflexivity) ltac:(repeat constructor; simpl; intuition discriminate)
           ltac:(vm_compute; reflexivity) "parallel" "8");
    [left; reflexivity | vm_compute; tauto | reflexivity].
Defined.

End ApplyFacts.

Module StringFacts.











End StringFacts.

Module TrimFacts.
Import ConfigFile ConfigText StringFacts.








End TrimFacts.

Module ParseFacts.
Import ConfigFile ConfigText StringFacts TrimFacts.












Lemma segments_lines ls :
  Forall (fun l => IndexByte l newline = None) ls -> segments (lines_text ls) = ls.
Proof.
  intros Hf. unfold segments.
  assert (Hs : Go.Split (lines_text ls) newline = app ls [""]).
  { induction ls as [|l ls IH]; [reflexivity|]. inversion Hf; subst. simpl.
    rewrite SplitFacts.Split_app by assumption. rewrite IH by assumption. reflexivity. }
  rewrite Hs, rev_app_distr. simpl. rewrite rev_involutive. reflexivity.
Qed.

Lemma take_tokens_simple ls :
  Forall (fun l => simple_line l = true) ls -> take_tokens ls = (ls, false).
Proof.
  induction ls as [|l ls IH]; intros Hf; [reflexivity|]. inversion Hf as [|? ? Hl Hrest]; subst.
  unfold simple_line in Hl. apply andb_prop in Hl as [Hl Hlen]. apply andb_prop in Hl as [_ Hcr].
  apply Nat.ltb_lt in Hlen. cbn [take_tokens].
  replace (Nat.leb MaxScanTokenSize (String.length l)) with false
    by (symmetry; apply Nat.leb_gt; lia).
  rewrite IH by exact Hrest. unfold dropCR. apply negb_true_iff in Hcr. rewrite Hcr. reflexivity.
Qed.

(** On a file of simple lines, [parseConfig] is the loop over its lines. *)
Lemma parseConfig_lines f ls :
  Forall (fun l => simple_line l = true) ls ->
  parseConfig f (lines_text ls) None = parse_lines f ls 0 ∅.
Proof.
  intros Hf. unfold parseConfig. rewrite segments_lines.
  - rewrite take_tokens_simple by exact Hf. destruct (parse_lines f ls 0 ∅); reflexivity.
  - eapply List.Forall_impl; [|exact Hf]. intros l Hl. simpl in Hl.
    unfold simple_line in Hl. destruct (IndexByte l newline); [discriminate Hl|reflexivity].
Qed.





End ParseFacts.

Module ParseFacts2.
Import ConfigFile ConfigText StringFacts TrimFacts ParseFacts.








Lemma ReplaceAll_no_underscore s : IndexByte (ReplaceAll_byte s "_" "-") "_" = None.
Proof.
  induction s as [|x s IH]; [reflexivity|]. cbn [ReplaceAll_byte IndexByte].
  destruct (Ascii.eqb x "_") eqn:E; cbn [Ascii.eqb Bool.eqb andb].
  - rewrite IH. reflexivity.
  - rewrite E, IH. reflexivity.
Qed.

Lemma parse_lines_keys f ls n (m r : gmap string string) :
  (forall k v, m !! k = Some v -> k <> "" /\ IndexByte k "_" = None) ->
  parse_lines f ls n m = inl r ->
  forall k v, r !! k = Some v -> k <> "" /\ IndexByte k "_" = None.
Proof.
  revert n m. induction ls as [|t ls IH]; intros n m Hm H; cbn [parse_lines] in H.
  - injection H as <-. exact Hm.
  - destruct (_ || _ || _)%bool; [exact (IH _ _ Hm H)|].
    destruct (IndexByte (Go.TrimSpace t) "=") as [idx|]; [|discriminate H].
    destruct (String.eqb (canonicalKey f _) "") eqn:Ek; [discriminate H|].
    refine (IH _ _ _ H). intros k v Hk.
    apply lookup_insert_Some in Hk as [[<- _]|[_ Hk]]; [|exact (Hm k v Hk)].
    split; [apply String.eqb_neq; exact Ek|apply ReplaceAll_no_underscore].
Qed.

(** Every key of a parsed config is non-empty and has no underscore:
    [canonicalKey] turned each into a dash. *)
Theorem parseConfig_keys f data readErr m :
  parseConfig f data readErr = inl m ->
  forall k v, m !! k = Some v -> k <> "" /\ IndexByte k "_" = None.
Proof.
  unfold parseConfig. destruct (take_tokens (segments data)) as [tokens tooLong].
  destruct (parse_lines f tokens 0 ∅) as [r|e] eqn:Hp; [|discriminate].
  destruct tooLong; [discriminate|]. destruct readErr; [discriminate|].
  intros H. injection H as <-. apply (parse_lines_keys f tokens 0 ∅ r); [|exact Hp].
  intros k v Hk. rewrite lookup_empty in Hk. discriminate Hk.
Qed.

Lemma parseConfig_keys_witness :
  parseConfig (fun s => s) (lines_text ["Whois_Tool = /opt/t.py"]) None
    = inl (<["whois-tool" := "/opt/t.py"]> ∅) /\
  ("whois-tool" <> "" /\ IndexByte "whois-tool" "_" = None).
Proof.
  assert (H : parseConfig (fun s => s) (lines_text ["Whois_Tool = /opt/t.py"]) None
                = inl (<["whois-tool" := "/opt/t.py"]> ∅)) by (vm_compute; reflexivity).
  split; [exact H|].
  apply (parseConfig_keys (fun s => s) (lines_text ["Whois_Tool = /opt/t.py"]) None _ H
           "whois-tool" "/opt/t.py").
  apply lookup_insert_eq.
Defined.

Lemma take_tokens_short segs t :
  take_tokens segs = (t, false) -> Forall (fun s => (String.length s < MaxScanTokenSize)%nat) segs.
Proof.
  revert t. induction segs as [|x segs IH]; intros t H; [constructor|].
  cbn [take_tokens] in H. destruct (Nat.leb MaxScanTokenSize (String.length x)) eqn:E;
    [discriminate H|].
  destruct (take_tokens segs) as [t' e] eqn:Ht. injection H as _ ->.
  constructor; [apply Nat.leb_gt; exact E|]. exact (IH t' eq_refl).
Qed.

(** [parseConfig] succeeds only when the reader reported no error and
    every line fits in the scanner's 64 KiB token. *)
Theorem parseConfig_success_limits f data readErr m :
  parseConfig f data readErr = inl m ->
  readErr = None /\ Forall (fun s => (String.length s < MaxScanTokenSize)%nat) (segments data).
Proof.
  unfold parseConfig. destruct (take_tokens (segments data)) as [tokens tooLong] eqn:Ht.
  destruct (parse_lines f tokens 0 ∅); [|discriminate].
  destruct tooLong; [discriminate|]. destruct readErr; [discriminate|].
  intros _. split; [reflexivity|]. exact (take_tokens_short _ _ Ht).
Qed.

Lemma parseConfig_success_limits_witness :
  parseConfig (fun s => s) "dns=1.1.1.1:53" None = inl (<["dns" := "1.1.1.1:53"]> ∅) /\
  None = @None string /\
  Forall (fun s => (String.length s < MaxScanTokenSize)%nat) (segments "dns=1.1.1.1:53").
Proof.
  assert (H : parseConfig (fun s => s) "dns=1.1.1.1:53" None = inl (<["dns" := "1.1.1.1:53"]> ∅))
    by (vm_compute; reflexivity).
  split; [exact H|]. exact (parseConfig_success_limits _ _ _ _ H).
Defined.

End ParseFacts2.

Module ParseFacts3.
Import ConfigFile ConfigText ParseFacts.

Lemma parse_lines_fault f ls n m e :
  parse_lines f ls n m = inr e ->
  exists pre t post, ls = app pre (t :: post) /\
    forallb (fun x => negb (line_fault f x)) pre = true /\ line_fault f t = true /\
    e = match IndexByte (Go.TrimSpace t) "=" with
        | None => ErrInvalidLine (S (n + length pre)) (Go.TrimSpace t)
        | Some _ => ErrInvalidKey (S (n + length pre))
        end.
Proof.
  revert n m. induction ls as [|t ls IH]; intros n m H; [discriminate H|].
  cbn [parse_lines] in H.
  destruct (String.eqb (Go.TrimSpace t) "" || Go.HasPrefix (Go.TrimSpace t) "#"
            || Go.HasPrefix (Go.TrimSpace t) ";")%bool eqn:Hc.
  - destruct (IH _ _ H) as (pre & t' & post & -> & Hpre & Ht & He).
    exists (t :: pre), t', post. split; [reflexivity|]. split.
    + cbn [forallb]. unfold line_fault, comment_line. rewrite Hc. exact Hpre.
    + split; [exact Ht|]. rewrite He. cbn [length]. rewrite Nat.add_succ_r. reflexivity.
  - assert (Hcl : comment_line t = false) by (unfold comment_line; exact Hc).
    destruct (IndexByte (Go.TrimSpace t) "=") as [idx|] eqn:Hi.
    + destruct (String.eqb (canonicalKey f (Go.TrimSpace (substring 0 idx (Go.TrimSpace t)))) "") eqn:Hk.
      * injection H as <-. exists [], t, ls. split; [reflexivity|]. split; [reflexivity|].
        unfold line_fault. rewrite Hcl, Hi, Hk. split; [reflexivity|]. rewrite Nat.add_0_r. reflexivity.
      * destruct (IH _ _ H) as (pre & t' & post & -> & Hpre & Ht & He).
        exists (t :: pre), t', post. split; [reflexivity|]. split.
        -- cbn [forallb]. unfold line_fault at 1. rewrite Hcl, Hi, Hk. exact Hpre.
        -- split; [exact Ht|]. rewrite He. cbn [length]. rewrite Nat.add_succ_r. reflexivity.
    + injection H as <-. exists [], t, ls. split; [reflexivity|]. split; [reflexivity|].
      unfold line_fault. rewrite Hcl, Hi. split; [reflexivity|]. rewrite Nat.add_0_r. reflexivity.
Qed.

Lemma parse_lines_no_fault f ls n m :
  forallb (fun x => negb (line_fault f x)) ls = true -> exists r, parse_lines f ls n m = inl r.
Proof.
  revert n m. induction ls as [|t ls IH]; intros n m H; [eexists; reflexivity|].
  cbn [forallb] in H. apply andb_prop in H as [Ht H]. cbn [parse_lines].
  unfold line_fault, comment_line in Ht.
  destruct (String.eqb (Go.TrimSpace t) "" || Go.HasPrefix (Go.TrimSpace t) "#"
            || Go.HasPrefix (Go.TrimSpace t) ";")%bool; [apply IH, H|].
  destruct (IndexByte (Go.TrimSpace t) "=") as [idx|]; [|discriminate Ht].
  destruct (String.eqb _ ""); [discriminate Ht|]. apply IH, H.
Qed.

Lemma parse_lines_first_fault f pre t post n m :
  forallb (fun x => negb (line_fault f x)) pre = true -> line_fault f t = true ->
  parse_lines f (app pre (t :: post)) n m = inr
    match IndexByte (Go.TrimSpace t) "=" with
    | None => ErrInvalidLine (S (n + length pre)) (Go.TrimSpace t)
    | Some _ => ErrInvalidKey (S (n + length pre))
    end.
Proof.
  revert n m. induction pre as [|x pre IH]; intros n m Hpre Ht.
  - cbn [app parse_lines]. rewrite Nat.add_0_r.
    unfold line_fault, comment_line in Ht.
    destruct (String.eqb (Go.TrimSpace t) "" || Go.HasPrefix (Go.TrimSpace t) "#"
              || Go.HasPrefix (Go.TrimSpace t) ";")%bool; [discriminate Ht|].
    destruct (IndexByte (Go.TrimSpace t) "=") as [idx|]; [|reflexivity].
    cbn [negb andb] in Ht. rewrite Ht. reflexivity.
  - cbn [forallb] in Hpre. apply andb_prop in Hpre as [Hx Hpre].
    cbn [app parse_lines]. unfold line_fault, comment_line in Hx.
    destruct (String.eqb (Go.TrimSpace x) "" || Go.HasPrefix (Go.TrimSpace x) "#"
              || Go.HasPrefix (Go.TrimSpace x) ";")%bool.
    + rewrite (IH (S n) m Hpre Ht). cbn [length]. rewrite Nat.add_succ_r. reflexivity.
    + destruct (IndexByte (Go.TrimSpace x) "=") as [idx|]; [|discriminate Hx].
      cbn [negb andb] in Hx.
      destruct (String.eqb _ "") eqn:Hk; [discriminate Hx|].
      rewrite (IH _ _ Hpre Ht). cbn [length]. rewrite Nat.add_succ_r. reflexivity.
Qed.

(** On a file of simple lines, [parseConfig] fails exactly when a line is
    neither blank, nor a comment, nor a [key=value] line with a non-empty
    key; the error is about the first such line, numbered from 1 counting
    every line: [invalid config line] for one without [=], [invalid config
    key] for one with an empty key.  Conversely such a line, with none
    before it, makes [parseConfig] fail with that error. *)
Theorem parseConfig_first_fault f ls :
  Forall (fun l => simple_line l = true) ls ->
  (forall e, parseConfig f (lines_text ls) None = inr e ->
     exists pre t post, ls = app pre (t :: post) /\
       forallb (fun x => negb (line_fault f x)) pre = true /\ line_fault f t = true /\
       e = match IndexByte (Go.TrimSpace t) "=" with
           | None => ErrInvalidLine (S (length pre)) (Go.TrimSpace t)
           | Some _ => ErrInvalidKey (S (length pre))
           end) /\
  (forall pre t post, ls = app pre (t :: post) ->
     forallb (fun x => negb (line_fault f x)) pre = true -> line_fault f t = true ->
     parseConfig f (lines_text ls) None =
       inr match IndexByte (Go.TrimSpace t) "=" with
           | None => ErrInvalidLine (S (length pre)) (Go.TrimSpace t)
           | Some _ => ErrInvalidKey (S (length pre))
           end) /\
  (forallb (fun x => negb (line_fault f x)) ls = true ->
     exists m, parseConfig f (lines_text ls) None = inl m).
Proof.
  intros Hs. rewrite parseConfig_lines by exact Hs. split; [|split].
  - intros e H. exact (parse_lines_fault f ls 0 ∅ e H).
  - intros pre t post -> Hpre Ht.
    exact (parse_lines_first_fault f pre t post 0 ∅ Hpre Ht).
  - apply parse_lines_no_fault.
Qed.

Lemma parseConfig_first_fault_witness :
  exists pre t post, ["# settings"; "dns=1.1.1.1:53"; "oops"; "=x"] = app pre (t :: post) /\
    forallb (fun x => negb (line_fault (fun s => s) x)) pre = true /\
    line_fault (fun s => s) t = true /\
    ErrInvalidLine 3 "oops" = match IndexByte (Go.TrimSpace t) "=" with
                              | None => ErrInvalidLine (S (length pre)) (Go.TrimSpace t)
                              | Some _ => ErrInvalidKey (S (length pre))
                              end.
Proof.
  apply (proj1 (parseConfig_first_fault (fun s => s) ["# settings"; "dns=1.1.1.1:53"; "oops"; "=x"]
                  ltac:(repeat constructor; vm_compute; reflexivity))).
  vm_compute. reflexivity.
Defined.

End ParseFacts3.

Module ResolveFacts.
Import ConfigFile ConfigText.

Lemma parse_lines_not_open f ls n m e :
  parse_lines f ls n m = inr e -> match e with ErrInvalidLine _ _ | ErrInvalidKey _ => True | _ => False end.
Proof.
  revert n m. induction ls as [|t ls IH]; intros n m H; cbn [parse_lines] in H; [discriminate H|].
  destruct (_ || _ || _)%bool; [exact (IH _ _ H)|].
  destruct (IndexByte (Go.TrimSpace t) "=") as [idx|]; [|injection H as <-; exact I].
  destruct (String.eqb _ ""); [injection H as <-; exact I|]. exact (IH _ _ H).
Qed.

Lemma parseConfigFile_open f fs path msg :
  parseConfigFile f fs path = inr (ErrOpen true msg) -> fs path = FOpenError true msg.
Proof.
  unfold parseConfigFile. destruct (fs path) as [ne m|data rerr].
  - intros H. injection H as -> ->. reflexivity.
  - unfold parseConfig. destruct (take_tokens (segments data)) as [tokens tl].
    destruct (parse_lines f tokens 0 ∅) as [r|e] eqn:Hp.
    + destruct tl; [discriminate|]. destruct rerr; discriminate.
    + intros H. injection H as ->. apply parse_lines_not_open in Hp. contradiction.
Qed.

Lemma search_missing f fs pre rest :
  Forall (fun p => missing fs p = true) pre ->
  search_paths f fs (app pre rest) = search_paths f fs rest.
Proof.
  induction pre as [|p pre IH]; intros H; [reflexivity|]. inversion H as [|? ? Hp Hpre]; subst.
  cbn [app search_paths]. unfold missing in Hp. unfold parseConfigFile at 1.
  destruct (fs p) as [[|] msg|]; try discriminate Hp. apply IH. exact Hpre.
Qed.

(** With no explicit path, [resolveConfigPath] tries the default paths
    in order, skipping the ones that do not exist: the first one that
    exists is the source, with its map or its error (a broken file is not
    skipped); when none exists the result is a nil map, an empty source
    and no error. *)
Theorem resolveConfigPath_search f fs overrides home :
  let paths := defaultConfigPaths overrides home in
  (Forall (fun p => missing fs p = true) paths ->
     resolveConfigPath f fs overrides home "" = (None, "", None)) /\
  (forall pre p post, paths = app pre (p :: post) ->
     Forall (fun q => missing fs q = true) pre -> missing fs p = false ->
     resolveConfigPath f fs overrides home "" =
       match parseConfigFile f fs p with
       | inl cfg => (Some cfg, p, None)
       | inr e => (None, p, Some e)
       end).
Proof.
  intros paths. unfold resolveConfigPath. cbn [String.eqb negb]. fold paths. split.
  - intros H. rewrite <- (app_nil_r paths), search_missing by exact H. reflexivity.
  - intros pre p post Hp Hpre Hm. rewrite Hp, search_missing by exact Hpre. cbn [search_paths].
    destruct (parseConfigFile f fs p) as [cfg|[] ] eqn:E; try reflexivity.
    destruct notExist; [|reflexivity].
    apply parseConfigFile_open in E. unfold missing in Hm. rewrite E in Hm. discriminate Hm.
Qed.

(** With an explicit path, [resolveConfigPath] reads that file and no
    other: the source is the explicit path, the result depends only on
    what that file holds, and a missing file is an error, not a fall back
    to the defaults. *)
Theorem resolveConfigPath_explicit f fs overrides home explicitPath :
  explicitPath <> "" ->
  snd (fst (resolveConfigPath f fs overrides home explicitPath)) = explicitPath /\
  (forall fs' overrides' home', fs' explicitPath = fs explicitPath ->
     resolveConfigPath f fs' overrides' home' explicitPath = resolveConfigPath f fs overrides home explicitPath) /\
  (forall msg, fs explicitPath = FOpenError true msg ->
     resolveConfigPath f fs overrides home explicitPath = (None, explicitPath, Some (ErrOpen true msg))).
Proof.
  intros Hne. unfold resolveConfigPath.
  replace (negb (String.eqb explicitPath "")) with true
    by (symmetry; apply negb_true_iff, String.eqb_neq; exact Hne).
  split; [|split].
  - destruct (parseConfigFile f fs explicitPath); reflexivity.
  - intros fs' o' h' Hfs. unfold parseConfigFile. rewrite Hfs. reflexivity.
  - intros msg Hfs. unfold parseConfigFile. rewrite Hfs. reflexivity.
Qed.

Lemma resolveConfigPath_explicit_witness :
  resolveConfigPath (fun s => s) (fun _ => FOpenError true "no such file") [] None "/etc/custom.conf"
    = (None, "/etc/custom.conf", Some (ErrOpen true "no such file")).
Proof.
  apply (proj2 (proj2 (resolveConfigPath_explicit (fun s => s) (fun _ => FOpenError true "no such file")
           [] None "/etc/custom.conf" ltac:(discriminate)))).
  reflexivity.
Defined.

End ResolveFacts.

Module RunFacts.

Section Generic.
Context {E : Type} {Resp : E -> Type}.

Lemma run_vis_eq {A} (oracle : forall e, Resp e) (e : E) (k : Resp e -> Prog E Resp A) :
  run oracle (Vis e k) = (e :: fst (run oracle (k (oracle e))), snd (run oracle (k (oracle e)))).
Proof. simpl. destruct (run oracle (k (oracle e))). reflexivity. Qed.

Lemma run_ret {A} (oracle : forall e, Resp e) (a : A) : run oracle (Ret (E:=E) (Resp:=Resp) a) = ([], a).
Proof. reflexivity. Qed.

Lemma run_bind {A B} (oracle : forall e, Resp e) (p : Prog E Resp A) (f : A -> Prog E Resp B) :
  run oracle (bind p f) =
    (app (fst (run oracle p)) (fst (run oracle (f (snd (run oracle p))))),
     snd (run oracle (f (snd (run oracle p))))).
Proof.
  induction p as [a|e k IH]; simpl.
  - destruct (run oracle (f a)). reflexivity.
  - rewrite IH. destruct (run oracle (k (oracle e))) as [t a]. simpl.
    destruct (run oracle (f a)). reflexivity.
Qed.

End Generic.

End RunFacts.

Module GeoUpdateFacts.
Import GeoUpdate GeoRef RunFacts.

Lemma download_requests_app t1 t2 :
  download_requests (app t1 t2) = app (download_requests t1) (download_requests t2).
Proof. induction t1 as [|[] t1 IH]; simpl; rewrite ?IH; reflexivity. Qed.

Lemma refresh_targets_ok key maxAge targets oracle :
  0 < maxAge ->
  Forall (fun '(p, ed, _) => p <> "" -> stat_ok oracle p = true /\ oracle (UDownload key ed p) = None) targets ->
  download_requests (fst (run oracle (refresh_targets key maxAge targets))) =
    flat_map (fun '(p, ed, _) => if negb (String.eqb p "") && stale oracle maxAge p then [(key, ed, p)] else [])
      targets /\
  snd (run oracle (refresh_targets key maxAge targets)) = None.
Proof.
  intros Hm. induction targets as [|[[p ed] l] ts IH]; intros H; [split; reflexivity|].
  inversion H as [|? ? Hp Hts]; subst. cbn [refresh_targets flat_map].
  destruct (String.eqb p "") eqn:Ep; [exact (IH Hts)|].
  apply String.eqb_neq in Ep. destruct (Hp Ep) as [Hs Hd].
  unfold fileNeedsRefresh. cbn [bind]. rewrite run_vis_eq. cbn [fst snd download_requests negb andb].
  unfold stat_ok, stale in *. destruct (oracle (UStat p)) as [|err|age]; [| discriminate Hs |].
  - cbn [bind]. rewrite !run_vis_eq. cbn [fst snd download_requests]. rewrite Hd.
    destruct (IH Hts) as [IH1 IH2]. rewrite IH1, IH2. split; reflexivity.
  - replace (Z.leb maxAge 0) with false by (symmetry; apply Z.leb_gt; exact Hm).
    destruct (Z.leb maxAge age).
    + cbn [bind]. rewrite !run_vis_eq. cbn [fst snd download_requests]. rewrite Hd.
      destruct (IH Hts) as [IH1 IH2]. rewrite IH1, IH2. split; reflexivity.
    + cbn [bind app]. exact (IH Hts).
Qed.

(** When the interval is positive, the license key is not blank and
    every [os.Stat] and download succeeds, [maybeUpdateGeoLiteDatabases]
    returns nil after downloading, with the given key, exactly the
    databases whose path is set and whose file is missing or at least
    [maxAge] old: the City edition into the City path first, then the ASN
    edition into the ASN path. *)
Theorem maybeUpdate_downloads_stale key maxAge cityPath asnPath oracle :
  0 < maxAge -> Go.TrimSpace key <> "" ->
  (cityPath <> "" -> stat_ok oracle cityPath = true /\ oracle (UDownload key "GeoLite2-City" cityPath) = None) ->
  (asnPath <> "" -> stat_ok oracle asnPath = true /\ oracle (UDownload key "GeoLite2-ASN" asnPath) = None) ->
  download_requests (fst (run oracle (maybeUpdateGeoLiteDatabases key maxAge cityPath asnPath))) =
    app (if negb (String.eqb cityPath "") && stale oracle maxAge cityPath
         then [(key, "GeoLite2-City", cityPath)] else [])
        (if negb (String.eqb asnPath "") && stale oracle maxAge asnPath
         then [(key, "GeoLite2-ASN", asnPath)] else []) /\
  snd (run oracle (maybeUpdateGeoLiteDatabases key maxAge cityPath asnPath)) = None.
Proof.
  intros Hm Hk Hc Ha. unfold maybeUpdateGeoLiteDatabases.
  replace (Z.leb maxAge 0) with false by (symmetry; apply Z.leb_gt; exact Hm).
  replace (String.eqb (Go.TrimSpace key) "") with false by (symmetry; apply String.eqb_neq; exact Hk).
  destruct (refresh_targets_ok key maxAge
    [(cityPath, "GeoLite2-City", "GeoLite2 City"); (asnPath, "GeoLite2-ASN", "GeoLite2 ASN")] oracle Hm)
    as [H1 H2].
  - constructor; [exact Hc|constructor; [exact Ha|constructor]].
  - rewrite H1, H2. cbn [flat_map]. rewrite app_nil_r. split; reflexivity.
Qed.

Lemma maybeUpdate_downloads_stale_witness :
  download_requests (fst (run fresh_city_oracle
     (maybeUpdateGeoLiteDatabases "KEY" 86400 "/db/city.mmdb" "/db/asn.mmdb")))
    = [("KEY", "GeoLite2-ASN", "/db/asn.mmdb")].
Proof.
  refine (eq_trans (proj1 (maybeUpdate_downloads_stale "KEY" 86400 "/db/city.mmdb" "/db/asn.mmdb"
            fresh_city_oracle ltac:(lia) ltac:(vm_compute; discriminate)
            ltac:(intros _; split; vm_compute; reflexivity)
            ltac:(intros _; split; vm_compute; reflexivity))) _).
  vm_compute. reflexivity.
Defined.

Lemma refresh_targets_safe key maxAge cityPath asnPath targets :
  Forall (fun '(p, ed, _) => (ed = "GeoLite2-City" /\ p = cityPath) \/ (ed = "GeoLite2-ASN" /\ p = asnPath)) targets ->
  MainTrace.Safe (upd_allowed key cityPath asnPath) (refresh_targets key maxAge targets).
Proof.
  induction targets as [|[[p ed] l] ts IH]; intros H; [constructor|].
  inversion H as [|? ? Hp Hts]; subst. cbn [refresh_targets].
  destruct (String.eqb p "") eqn:Ep; [exact (IH Hts)|]. apply String.eqb_neq in Ep.
  unfold fileNeedsRefresh. cbn [bind]. constructor.
  - cbn. split; [exact Ep|]. destruct Hp as [[_ ->]|[_ ->]]; auto.
  - intros [|err|age]; cbn [bind].
    + constructor; [exact I|]. intros _. cbn [bind]. constructor.
      * cbn. auto.
      * intros [err|]; [constructor|exact (IH Hts)].
    + constructor.
    + destruct (Z.leb maxAge 0); [exact (IH Hts)|]. destruct (Z.leb maxAge age); [|exact (IH Hts)].
      constructor; [exact I|]. intros _. cbn [bind]. constructor.
      * cbn. auto.
      * intros [err|]; [constructor|exact (IH Hts)].
Qed.

(** Whatever the file system and the network answer,
    [maybeUpdateGeoLiteDatabases] only stats the City and ASN paths that
    are set, and only downloads with the given license key, the City
    edition into the City path and the ASN edition into the ASN path. *)
Theorem maybeUpdate_requests key maxAge cityPath asnPath oracle e :
  In e (fst (run oracle (maybeUpdateGeoLiteDatabases key maxAge cityPath asnPath))) ->
  upd_allowed key cityPath asnPath e.
Proof.
  apply MainClaims.safe_run. unfold maybeUpdateGeoLiteDatabases.
  destruct (Z.leb maxAge 0); [constructor|]. destruct (String.eqb _ ""); [constructor|].
  apply refresh_targets_safe.
  constructor; [left; split; reflexivity|constructor; [right; split; reflexivity|constructor]].
Qed.

Lemma maybeUpdate_requests_witness :
  upd_allowed "KEY" "/db/city.mmdb" "/db/asn.mmdb" (UDownload "KEY" "GeoLite2-ASN" "/db/asn.mmdb").
Proof.
  apply (maybeUpdate_requests "KEY" 86400 "/db/city.mmdb" "/db/asn.mmdb" fresh_city_oracle).
  vm_compute. do 3 right. left. reflexivity.
Defined.

Lemma refresh_targets_fail key maxAge targets oracle err :
  snd (run oracle (refresh_targets key maxAge targets)) = Some err ->
  exists t last, fst (run oracle (refresh_targets key maxAge targets)) = app t [last] /\
  exists p ed label, In (p, ed, label) targets /\ p <> "" /\
    ((last = UStat p /\ exists m, oracle (UStat p) = StatError m /\
        err = "check " ++ label ++ " freshness: " ++ m) \/
     (last = UDownload key ed p /\ exists m, oracle (UDownload key ed p) = Some m /\
        err = "refresh " ++ label ++ " database: " ++ m)).
Proof.
  induction targets as [|[[p ed] l] ts IH]; intros H; [discriminate H|].
  cbn [refresh_targets] in *.
  destruct (String.eqb p "") eqn:Ep.
  { destruct (IH H) as (t & last & Ht & p' & ed' & l' & Hin & Hrest).
    exists t, last. split; [exact Ht|]. exists p', ed', l'. split; [right; exact Hin|exact Hrest]. }
  apply String.eqb_neq in Ep.
  assert (Hlift : forall pre, fst (run oracle (refresh_targets key maxAge ts)) = fst (run oracle (refresh_targets key maxAge ts)) ->
            snd (run oracle (refresh_targets key maxAge ts)) = Some err ->
            exists t last, app pre (fst (run oracle (refresh_targets key maxAge ts))) = app t [last] /\
            exists p0 ed0 label, In (p0, ed0, label) ((p, ed, l) :: ts) /\ p0 <> "" /\
             ((last = UStat p0 /\ exists m, oracle (UStat p0) = StatError m /\
                 err = "check " ++ label ++ " freshness: " ++ m) \/
              (last = UDownload key ed0 p0 /\ exists m, oracle (UDownload key ed0 p0) = Some m /\
                 err = "refresh " ++ label ++ " database: " ++ m))).
  { intros pre _ H'. destruct (IH H') as (t & last & Ht & p' & ed' & l' & Hin & Hrest).
    exists (app pre t), last. split; [rewrite Ht, app_assoc; reflexivity|].
    exists p', ed', l'. split; [right; exact Hin|exact Hrest]. }
  unfold fileNeedsRefresh in *. cbn [bind] in *. rewrite run_vis_eq in *. cbn [fst snd] in *.
  destruct (oracle (UStat p)) as [|m|age] eqn:Es.
  - cbn [bind] in *. rewrite !run_vis_eq in *. cbn [fst snd] in *.
    destruct (oracle (UDownload key ed p)) as [m|] eqn:Ed.
    + cbn in H. injection H as <-. exists [UStat p; UStderr ("Refreshing " ++ l ++ " database (target: " ++ p ++ ")")], (UDownload key ed p).
      split; [reflexivity|]. exists p, ed, l. split; [left; reflexivity|]. split; [exact Ep|]. right. eauto.
    + destruct (Hlift [UStat p; UStderr ("Refreshing " ++ l ++ " database (target: " ++ p ++ ")"); UDownload key ed p] eq_refl H)
        as (t & last & Ht & rest). exists t, last. split; [exact Ht|exact rest].
  - cbn in H. injection H as <-. exists [], (UStat p). split; [reflexivity|].
    exists p, ed, l. split; [left; reflexivity|]. split; [exact Ep|]. left. eauto.
  - destruct (Z.leb maxAge 0).
    + destruct (Hlift [UStat p] eq_refl H) as (t & last & Ht & rest). exists t, last. split; [exact Ht|exact rest].
    + destruct (Z.leb maxAge age).
      * cbn [bind] in *. rewrite !run_vis_eq in *. cbn [fst snd] in *.
        destruct (oracle (UDownload key ed p)) as [m|] eqn:Ed.
        -- cbn in H. injection H as <-. exists [UStat p; UStderr ("Refreshing " ++ l ++ " database (target: " ++ p ++ ")")], (UDownload key ed p).
           split; [reflexivity|]. exists p, ed, l. split; [left; reflexivity|]. split; [exact Ep|]. right. eauto.
        -- destruct (Hlift [UStat p; UStderr ("Refreshing " ++ l ++ " database (target: " ++ p ++ ")"); UDownload key ed p] eq_refl H)
             as (t & last & Ht & rest). exists t, last. split; [exact Ht|exact rest].
      * destruct (Hlift [UStat p] eq_refl H) as (t & last & Ht & rest). exists t, last. split; [exact Ht|exact rest].
Qed.

(** When the interval is positive and the key is not blank, an error of
    [maybeUpdateGeoLiteDatabases] comes from the last request it made:
    either [os.Stat] of a set target path failed, reported as [check
    <label> freshness: <err>], or the download of that target failed,
    reported as [refresh <label> database: <err>]; nothing is requested
    after the failure. *)
Theorem maybeUpdate_stops_at_failure key maxAge cityPath asnPath oracle err :
  0 < maxAge -> Go.TrimSpace key <> "" ->
  snd (run oracle (maybeUpdateGeoLiteDatabases key maxAge cityPath asnPath)) = Some err ->
  exists t last, fst (run oracle (maybeUpdateGeoLiteDatabases key maxAge cityPath asnPath)) = app t [last] /\
  exists p ed label,
    In (p, ed, label) [(cityPath, "GeoLite2-City", "GeoLite2 City"); (asnPath, "GeoLite2-ASN", "GeoLite2 ASN")] /\
    p <> "" /\
    ((last = UStat p /\ exists m, oracle (UStat p) = StatError m /\
        err = "check " ++ label ++ " freshness: " ++ m) \/
     (last = UDownload key ed p /\ exists m, oracle (UDownload key ed p) = Some m /\
        err = "refresh " ++ label ++ " database: " ++ m)).
Proof.
  intros Hm Hk. unfold maybeUpdateGeoLiteDatabases.
  replace (Z.leb maxAge 0) with false by (symmetry; apply Z.leb_gt; exact Hm).
  replace (String.eqb (Go.TrimSpace key) "") with false by (symmetry; apply String.eqb_neq; exact Hk).
  apply refresh_targets_fail.
Qed.

Lemma maybeUpdate_stops_at_failure_witness :
  exists t last, fst (run failing_asn_oracle (maybeUpdateGeoLiteDatabases "KEY" 86400 "/db/city.mmdb" "/db/asn.mmdb")) = app t [last] /\
  exists p ed label,
    In (p, ed, label) [("/db/city.mmdb", "GeoLite2-City", "GeoLite2 City"); ("/db/asn.mmdb", "GeoLite2-ASN", "GeoLite2 ASN")] /\
    p <> "" /\
    ((last = UStat p /\ exists m, failing_asn_oracle (UStat p) = StatError m /\
        "refresh GeoLite2 ASN database: status 401" = "check " ++ label ++ " freshness: " ++ m) \/
     (last = UDownload "KEY" ed p /\ exists m, failing_asn_oracle (UDownload "KEY" ed p) = Some m /\
        "refresh GeoLite2 ASN database: status 401" = "refresh " ++ label ++ " database: " ++ m)).
Proof.
  apply maybeUpdate_stops_at_failure; [lia | vm_compute; discriminate | vm_compute; reflexivity].
Defined.

End GeoUpdateFacts.

Module DownloadFacts.
Import GeoDownload GeoRef RunFacts.

Ltac fin :=
  repeat match goal with
  | |- _ /\ _ => split
  | |- Forall _ [] => constructor
  | |- Forall _ (_ :: _) => constructor
  end; cbn; try reflexivity; try assumption.

(** The run of [writeMMDBFile], by the answer to [os.CreateTemp]. *)
Lemma writeMMDBFile_run data destPath (oracle : forall e, DlResp e) :
  match oracle (DCreateTemp (ConfigFile.Dir destPath) "geolite-*") with
  | inr err =>
      run oracle (writeMMDBFile data destPath) =
        ([DCreateTemp (ConfigFile.Dir destPath) "geolite-*"], Some ("create temp file: " ++ err))
  | inl tmp =>
      (snd (run oracle (writeMMDBFile data destPath)) = None /\
       Forall (fun s => err_answer oracle (fst s) = None) (write_steps tmp data destPath) /\
       fst (run oracle (writeMMDBFile data destPath)) =
         DCreateTemp (ConfigFile.Dir destPath) "geolite-*" ::
           app (map fst (write_steps tmp data destPath)) [DClose tmp; DRemove tmp]) \/
      (exists pre op prefix post err,
         write_steps tmp data destPath = app pre ((op, prefix) :: post) /\
         Forall (fun s => err_answer oracle (fst s) = None) pre /\
         err_answer oracle op = Some err /\
         snd (run oracle (writeMMDBFile data destPath)) = Some (prefix ++ ": " ++ err) /\
         fst (run oracle (writeMMDBFile data destPath)) =
           DCreateTemp (ConfigFile.Dir destPath) "geolite-*" ::
             app (map fst pre) [op; DClose tmp; DRemove tmp])
  end.
Proof.
  unfold writeMMDBFile. rewrite run_vis_eq. cbn [fst snd].
  destruct (oracle (DCreateTemp (ConfigFile.Dir destPath) "geolite-*")) as [tmp|err]; [|reflexivity].
  rewrite run_bind. unfold check. cbn [eq_rect]. rewrite !run_vis_eq. cbn [fst snd app].
  unfold write_steps, err_answer. cbn [fst].
  destruct (oracle (DCopy tmp data)) as [e1|] eqn:E1.
  { right. exists [], (DCopy tmp data), "write mmdb", (tl (write_steps tmp data destPath)), e1.
    rewrite ?run_vis_eq. cbn. fin. }
  cbn [fst snd app]. rewrite ?run_vis_eq. cbn [fst snd app].
  destruct (oracle (DSync tmp)) as [e2|] eqn:E2.
  { right. exists [(DCopy tmp data, "write mmdb")], (DSync tmp), "sync mmdb", (skipn 2 (write_steps tmp data destPath)), e2.
    rewrite ?run_vis_eq. cbn. fin. }
  cbn [fst snd app]. rewrite ?run_vis_eq. cbn [fst snd app].
  destruct (oracle (DChmod tmp 420)) as [e3|] eqn:E3.
  { right. exists [(DCopy tmp data, "write mmdb"); (DSync tmp, "sync mmdb")], (DChmod tmp 420), "chmod mmdb",
      (skipn 3 (write_steps tmp data destPath)), e3.
    rewrite ?run_vis_eq. cbn. fin. }
  cbn [fst snd app]. rewrite ?run_vis_eq. cbn [fst snd app].
  destruct (oracle (DClose tmp)) as [e4|] eqn:E4.
  { right. exists [(DCopy tmp data, "write mmdb"); (DSync tmp, "sync mmdb"); (DChmod tmp 420, "chmod mmdb")],
      (DClose tmp), "close mmdb", (skipn 4 (write_steps tmp data destPath)), e4.
    rewrite ?run_vis_eq. cbn. fin. }
  cbn [fst snd app]. rewrite ?run_vis_eq. cbn [fst snd app].
  destruct (oracle (DRename tmp destPath)) as [e5|] eqn:E5.
  { right. exists [(DCopy tmp data, "write mmdb"); (DSync tmp, "sync mmdb"); (DChmod tmp 420, "chmod mmdb");
      (DClose tmp, "close mmdb")], (DRename tmp destPath), "rename mmdb", [], e5.
    rewrite ?run_vis_eq. cbn. fin. }
  left. cbn [fst snd app]. rewrite ?run_vis_eq. cbn. fin.
Qed.

(** For any answers of the file system, [writeMMDBFile(r, destPath)]
    creates its temporary file in [filepath.Dir(destPath)]; if that
    fails nothing else is done.  Otherwise it copies, syncs, chmods to
    0644, closes and renames the temporary file onto [destPath] in that
    order, stopping at the first step that fails with that step's error,
    and then always closes and removes the temporary file; it returns nil
    exactly when all five steps succeeded. *)
Theorem writeMMDBFile_protocol data destPath (oracle : forall e, DlResp e) :
  match oracle (DCreateTemp (ConfigFile.Dir destPath) "geolite-*") with
  | inr err =>
      run oracle (writeMMDBFile data destPath) =
        ([DCreateTemp (ConfigFile.Dir destPath) "geolite-*"], Some ("create temp file: " ++ err))
  | inl tmp =>
      (snd (run oracle (writeMMDBFile data destPath)) = None /\
       Forall (fun s => err_answer oracle (fst s) = None) (write_steps tmp data destPath) /\
       fst (run oracle (writeMMDBFile data destPath)) =
         DCreateTemp (ConfigFile.Dir destPath) "geolite-*" ::
           app (map fst (write_steps tmp data destPath)) [DClose tmp; DRemove tmp]) \/
      (exists pre op prefix post err,
         write_steps tmp data destPath = app pre ((op, prefix) :: post) /\
         Forall (fun s => err_answer oracle (fst s) = None) pre /\
         err_answer oracle op = Some err /\
         snd (run oracle (writeMMDBFile data destPath)) = Some (prefix ++ ": " ++ err) /\
         fst (run oracle (writeMMDBFile data destPath)) =
           DCreateTemp (ConfigFile.Dir destPath) "geolite-*" ::
             app (map fst pre) [op; DClose tmp; DRemove tmp])
  end.
Proof. exact (writeMMDBFile_run data destPath oracle). Qed.

Lemma tar_loop_pick f destPath tr :
  tar_loop f destPath tr =
    match tar_pick f tr with
    | inl (Some data) => writeMMDBFile data destPath
    | inl None => Ret (Some "no .mmdb file found in archive")
    | inr err => Ret (Some ("read tar: " ++ err))
    end.
Proof.
  induction tr as [|err|name isDir data rest IH]; cbn [tar_loop tar_pick]; try reflexivity.
  destruct isDir; [exact IH|]. destruct (Go.HasSuffix _ ".mmdb"); [reflexivity|exact IH].
Qed.

Lemma writeMMDBFile_ok data destPath (oracle : forall e, DlResp e) :
  snd (run oracle (writeMMDBFile data destPath)) = None ->
  exists tmp, oracle (DCreateTemp (ConfigFile.Dir destPath) "geolite-*") = inl tmp /\
    Forall (fun s => err_answer oracle (fst s) = None) (write_steps tmp data destPath) /\
    fst (run oracle (writeMMDBFile data destPath)) =
      DCreateTemp (ConfigFile.Dir destPath) "geolite-*" ::
        app (map fst (write_steps tmp data destPath)) [DClose tmp; DRemove tmp].
Proof.
  intros H. pose proof (writeMMDBFile_run data destPath oracle) as P.
  destruct (oracle (DCreateTemp (ConfigFile.Dir destPath) "geolite-*")) as [tmp|err].
  - destruct P as [(_ & Hf & Ht)|(pre & op & prefix & post & err & _ & _ & _ & Hs & _)].
    + exists tmp. auto.
    + rewrite H in Hs. discriminate Hs.
  - rewrite P in H. discriminate H.
Qed.

(** [downloadGeoLiteEdition] returns nil only when the destination is
    not blank, the GET of the download URL for the key and edition
    answered 200, its body un-gzipped, the tar stream holds, before any
    read error, an entry that is not a directory (any other type, a
    symlink or a hard link too, is taken) whose name ends in [.mmdb] in
    any case, and the first such entry's bytes were written to a temporary file in the
    destination's directory that was then renamed onto [destPath]; the
    requests are exactly those, in that order, and the temporary file is
    closed and removed at the end. *)
Theorem downloadGeoLiteEdition_success f licenseKey editionID destPath (oracle : forall e, DlResp e) :
  snd (run oracle (downloadGeoLiteEdition f licenseKey editionID destPath)) = None ->
  exists body tr data tmp,
    Go.TrimSpace destPath <> "" /\
    err_answer oracle (DMkdirAll (ConfigFile.Dir destPath) 493) = None /\
    oracle (DGet (download_url licenseKey editionID)) = GetResponse 200 body /\
    oracle (DGunzip body) = inr tr /\
    tar_pick f tr = inl (Some data) /\
    oracle (DCreateTemp (ConfigFile.Dir destPath) "geolite-*") = inl tmp /\
    Forall (fun s => err_answer oracle (fst s) = None) (write_steps tmp data destPath) /\
    fst (run oracle (downloadGeoLiteEdition f licenseKey editionID destPath)) =
      app [DMkdirAll (ConfigFile.Dir destPath) 493; DGet (download_url licenseKey editionID); DGunzip body;
       DCreateTemp (ConfigFile.Dir destPath) "geolite-*"]
        (app (map fst (write_steps tmp data destPath)) [DClose tmp; DRemove tmp]).
Proof.
  unfold downloadGeoLiteEdition.
  destruct (String.eqb (Go.TrimSpace destPath) "") eqn:Eb; [discriminate|].
  apply String.eqb_neq in Eb. unfold check. cbn [eq_rect]. rewrite run_vis_eq. cbn [fst snd].
  unfold err_answer at 1.
  destruct (oracle (DMkdirAll (ConfigFile.Dir destPath) 493)) as [m|] eqn:Em; [discriminate|].
  rewrite run_vis_eq. cbn [fst snd].
  destruct (oracle (DGet (download_url licenseKey editionID))) as [m|status body] eqn:Eg; [discriminate|].
  destruct (negb (Z.eqb status 200)) eqn:Es; [discriminate|].
  apply negb_false_iff, Z.eqb_eq in Es. subst status.
  rewrite run_vis_eq. cbn [fst snd].
  destruct (oracle (DGunzip body)) as [m|tr] eqn:Ez; [discriminate|].
  rewrite tar_loop_pick.
  destruct (tar_pick f tr) as [[data|]|err] eqn:Ep; [|discriminate|discriminate].
  intros H. destruct (writeMMDBFile_ok data destPath oracle H) as (tmp & Ht & Hf & Htr).
  exists body, tr, data, tmp. repeat split; try assumption; try reflexivity.
  rewrite Htr. reflexivity.
Qed.

Lemma downloadGeoLiteEdition_success_witness :
  exists body tr data tmp,
    Go.TrimSpace "/db/city.mmdb" <> "" /\
    err_answer good_dl_oracle (DMkdirAll (ConfigFile.Dir "/db/city.mmdb") 493) = None /\
    good_dl_oracle (DGet (download_url "KEY" "GeoLite2-City")) = GetResponse 200 body /\
    good_dl_oracle (DGunzip body) = inr tr /\
    tar_pick (fun s => s) tr = inl (Some data) /\
    good_dl_oracle (DCreateTemp (ConfigFile.Dir "/db/city.mmdb") "geolite-*") = inl tmp /\
    Forall (fun s => err_answer good_dl_oracle (fst s) = None) (write_steps tmp data "/db/city.mmdb") /\
    fst (run good_dl_oracle (downloadGeoLiteEdition (fun s => s) "KEY" "GeoLite2-City" "/db/city.mmdb")) =
      app [DMkdirAll (ConfigFile.Dir "/db/city.mmdb") 493; DGet (download_url "KEY" "GeoLite2-City"); DGunzip body;
       DCreateTemp (ConfigFile.Dir "/db/city.mmdb") "geolite-*"]
        (app (map fst (write_steps tmp data "/db/city.mmdb")) [DClose tmp; DRemove tmp]).
Proof.
  apply downloadGeoLiteEdition_success. vm_compute. reflexivity.
Defined.

End DownloadFacts.

Module MainFacts.
Import Loader CLI MainTrace MainRef RunFacts.

Lemma last_event_app pre t : t <> [] -> last_event (app pre t) = last_event t.
Proof.
  intros Ht. induction pre as [|a pre IH]; [reflexivity|].
  cbn [app]. rewrite <- IH. destruct (app pre t) eqn:E; [|reflexivity].
  apply app_eq_nil in E. destruct E; contradiction.
Qed.

Lemma outcome_app oracle pre t s :
  Forall early_event pre -> outcome oracle t s -> outcome oracle (app pre t) s.
Proof.
  intros Hpre [[-> (pre' & H)]|[[-> (pfx & rest & Hp & Hl)]|[-> H]]].
  - left. split; [reflexivity|]. exists (app pre pre').
    destruct H as [(cfg & inputs & w & Hi & -> & H)|(py & tool & tm & w & Ht & -> & H)].
    + left. exists cfg, inputs, w. rewrite app_assoc. auto.
    + right. exists py, tool, tm, w. rewrite app_assoc. auto.
  - right; left. split; [reflexivity|]. exists pfx, rest. split; [exact Hp|].
    rewrite last_event_app; [exact Hl|]. intros ->. discriminate Hl.
  - right; right. split; [reflexivity|]. apply Forall_app. auto.
Qed.

Ltac fail1 p :=
  right; left; split; [reflexivity|]; exists p; eexists;
  split; [cbn [In exit1_prefixes]; repeat first [left; reflexivity | right] | try (rewrite last_event_app by discriminate); reflexivity].

Lemma write_output_outcome oracle h (pre : list MainE) (extra : list MainE) (finish : Main Z) :
  run oracle finish = (extra, 0) ->
  (forall w, write_ok oracle w -> (w = EStdout \/ w = EWriteFile (hs h L_outputFile)) ->
     outcome oracle (app pre (w :: extra)) 0) ->
  outcome oracle (app pre (fst (run oracle (write_output h finish)))) (snd (run oracle (write_output h finish))).
Proof.
  intros Hf Hok. unfold write_output.
  destruct (negb (String.eqb (hs h L_outputFile) "")) eqn:Eo.
  - rewrite run_vis_eq. cbn [fst snd].
    destruct (oracle (EWriteFile (hs h L_outputFile))) as [e|] eqn:Ew.
    + cbn [run bind say fst snd]. fail1 "Failed to write output file: ".
    + rewrite Hf. apply Hok; [|right; reflexivity]. cbn. split; [|exact Ew].
      apply negb_true_iff, String.eqb_neq in Eo. exact Eo.
  - rewrite run_vis_eq. cbn [fst snd]. rewrite Hf. apply Hok; [exact I|left; reflexivity].
Qed.

Ltac wo :=
  lazymatch goal with
  | |- outcome ?o (?a :: ?b :: ?c :: ?d :: ?e :: fst (run _ (write_output ?h ?f))) _ =>
      apply (write_output_outcome o h [a; b; c; d; e] _ f eq_refl)
  | |- outcome ?o (?a :: ?b :: ?c :: ?d :: fst (run _ (write_output ?h ?f))) _ =>
      apply (write_output_outcome o h [a; b; c; d] _ f eq_refl)
  | |- outcome ?o (?a :: ?b :: ?c :: fst (run _ (write_output ?h ?f))) _ =>
      apply (write_output_outcome o h [a; b; c] _ f eq_refl)
  | |- outcome ?o (?a :: fst (run _ (write_output ?h ?f))) _ =>
      apply (write_output_outcome o h [a] _ f eq_refl)
  end.

Lemma psl_mode_outcome oracle h :
  outcome oracle (fst (run oracle (psl_mode h))) (snd (run oracle (psl_mode h))).
Proof.
  unfold psl_mode. destruct (String.eqb (hs h L_whoisToolPath) "") eqn:Et.
  - cbn [run bind say fst snd]. right; right. split; [reflexivity|]. constructor; [exact I|constructor].
  - rewrite run_vis_eq. cbn [fst snd].
    destruct (oracle (ERunPSL (hs h L_whoisPython) (hs h L_whoisToolPath)
                 (Go.dur_mul (hi h L_whoisTimeoutMS) Go.Millisecond))) as [e|] eqn:Ep.
    + cbn [run bind say fst snd]. fail1 "PSL private list error: ".
    + wo. intros w Hw _. left. split; [reflexivity|]. exists []. right.
      eexists _, _, _, w. split; [apply String.eqb_neq; exact Et|]. split; [reflexivity|]. auto.
Qed.

Ltac db_tail oracle pre :=
  rewrite run_vis_eq; cbn [fst snd];
  lazymatch goal with
  | |- context[oracle (EOpenDBs ?cfg)] =>
      destruct (oracle (EOpenDBs cfg)) as [e|] eqn:Ed;
      [cbn [run bind say fst snd]; fail1 "DB error: "|];
      rewrite run_vis_eq; cbn [fst snd]; rewrite run_vis_eq; cbn [fst snd];
      lazymatch goal with
      | |- context[oracle (EBatch ?c ?ins)] =>
          destruct (oracle (EBatch c ins)) as [e|] eqn:Eb;
          [cbn [run bind say fst snd]; fail1 "Lookup error: "|];
          wo; intros w Hw _; left; split; [reflexivity|]; exists pre; left;
          exists cfg, ins, w; split; [assumption|]; split; [reflexivity|]; auto
      end
  end.

Lemma batch_mode_outcome P oracle h inputs :
  inputs <> [] ->
  outcome oracle (fst (run oracle (batch_mode P h inputs))) (snd (run oracle (batch_mode P h inputs))).
Proof.
  intros Hin. unfold batch_mode.
  destruct (Z.ltb (hi h L_dbUpdateHours) 0).
  { cbn [run bind say fst snd]. right; right. split; [reflexivity|]. constructor; [exact I|constructor]. }
  cbv zeta. destruct (Z.ltb 0 (Go.dur_mul (hi h L_dbUpdateHours) Go.Hour)).
  - destruct (String.eqb (hs h L_cityDB) "" && String.eqb (hs h L_asnDB) "")%bool.
    + cbn [bind say]. rewrite run_vis_eq. cbn [fst snd]. db_tail oracle [EStderr "db-update-hours is set but no GeoLite2 DB paths were provided; skipping auto-update"].
    + cbn [bind]. rewrite run_vis_eq. cbn [fst snd].
      lazymatch goal with
      | |- context[oracle (EGeoUpdate ?a ?b ?c ?d)] =>
          destruct (oracle (EGeoUpdate a b c d)) as [e|] eqn:Eg;
          [cbn [run bind say fst snd]; fail1 "DB auto-update error: "|];
          db_tail oracle [EGeoUpdate a b c d]
      end.
  - cbn [bind]. db_tail oracle (@nil MainE).
Qed.

Lemma flag_exit_status_cases defs given :
  (flag_exit_status defs given = 0 /\
   (In "h" (map fst given) \/ In "help" (map fst given))) \/
  flag_exit_status defs given = 2.
Proof.
  induction given as [|[name v] rest IH]; [right; reflexivity|]. cbn [flag_exit_status map fst In].
  destruct (List.find _ defs) as [[n [l d|l d|l d]]|], v;
    try (right; reflexivity);
    try (destruct IH as [[H1 H2]|H]; [left; split; [exact H1|tauto]|right; exact H]).
  all: destruct (String.eqb_spec name "h") as [->|_]; [left; split; [reflexivity|tauto]|].
  all: destruct (String.eqb_spec name "help") as [->|_]; [left; split; [reflexivity|tauto]|].
  all: right; reflexivity.
Qed.

Lemma main_outcome P Quote getenv cl oracle :
  outcome oracle (fst (run oracle (main P Quote getenv cl))) (snd (run oracle (main P Quote getenv cl))) \/
  (fst (run oracle (main P Quote getenv cl)) = [] /\ snd (run oracle (main P Quote getenv cl)) = 0 /\
   help_requested cl).
Proof.
  unfold main. destruct (parse_flags (flag_defs getenv) (initial_heap getenv) (cl_flags cl)) as [h0|].
  2:{ cbn [run fst snd].
      destruct (flag_exit_status_cases (flag_defs getenv) (cl_flags cl)) as [[-> H] | ->].
      - right. split; [reflexivity|]. split; [reflexivity|exact H].
      - left. right; right. split; [reflexivity|constructor]. }
  left.
  rewrite run_vis_eq. cbn [fst snd].
  destruct (oracle (EResolveConfig (hs h0 L_configPath))) as [[vals src] err].
  destruct err as [e|].
  { cbn [run bind say fst snd]. fail1 "Config error (". }
  destruct (snd (if Nat.ltb 0 (length vals) then applyConfigValues vals (visited (cl_flags cl)) main_opts h0
                 else (h0, None))) as [e|].
  { cbn [run bind say fst snd]. fail1 "Config parse error (". }
  rewrite run_bind. cbn [fst snd]. rewrite app_comm_cons. apply outcome_app.
  { constructor; [exact I|]. destruct (String.eqb _ ""); [|constructor].
    rewrite run_vis_eq. constructor; [exact I|constructor]. }
  destruct (hb _ L_pslPrivateList); [apply psl_mode_outcome|].
  destruct (collect_inputs _ (cl_args cl)) as [|i is] eqn:Ei.
  - cbn [run bind say fst snd]. right; right. split; [reflexivity|]. constructor; [exact I|constructor].
  - apply batch_mode_outcome. discriminate.
Qed.

(** Whatever the environment answers, [main] exits with status 0, 1 or
    2.  Status 2 (a usage error) comes before any database, download,
    lookup, subprocess or output request: only config resolution, the
    [os.Stat] of the default tool and messages on stderr precede it.
    Status 1 always follows an error message on stderr with one of the
    fixed prefixes.  Status 0 means the run ended with either a non-empty
    batch of inputs looked up after [OpenDBs] and [InitCache], both
    succeeding, its output written and the databases closed, or the PSL
    list fetched with a non-empty tool path and its output written; or
    else that nothing was requested at all, the command line holding
    [-h] or [-help] ([flag.ErrHelp]). *)
Theorem main_exit_status P Quote getenv cl oracle :
  let t := fst (run oracle (main P Quote getenv cl)) in
  let status := snd (run oracle (main P Quote getenv cl)) in
  (status = 0 \/ status = 1 \/ status = 2) /\
  (status = 2 -> Forall early_event t) /\
  (status = 1 -> fail_trace t) /\
  (status = 0 -> ok_trace oracle t \/ (t = [] /\ help_requested cl)).
Proof.
  cbv zeta. destruct (main_outcome P Quote getenv cl oracle) as [[[Hs H]|[[Hs H]|[Hs H]]]|(Ht & Hs & Hh)];
    rewrite Hs; (split; [lia|]); repeat split; intros Hc; try discriminate Hc; auto.
Qed.

Lemma psl_cell_untouched vals sf h :
  hb (fst (applyConfigValues vals sf main_opts h)) L_pslPrivateList = hb h L_pslPrivateList.
Proof.
  symmetry. apply (LoaderClaims.apply_frame vals sf main_opts h 2%nat L_pslPrivateList).
  intros key _ Hin. cbn in Hin. exfalso.
  unfold L_pslPrivateList, L_preferIPv6, L_cityDB, L_asnDB, L_pretty, L_checkMalicious, L_enableWhois,
    L_whoisToolPath, L_whoisPython, L_whoisTimeoutMS, L_outputFile, L_maxmindKey, L_dbUpdateHours,
    L_dnsServers, L_timeoutMS, L_parallel in Hin.
  repeat (destruct Hin as [Hin|Hin]; [congruence|]). exact Hin.
Qed.

(** With [--psl-private-list] set, [main] never refreshes, opens or
    closes the GeoLite2 databases, initialises the cache or runs a lookup
    batch, whatever the config file holds and the environment answers: a
    config file cannot reset the flag, since no config key points to it. *)
Theorem psl_mode_no_database_work P Quote getenv cl h0 oracle e :
  parse_flags (flag_defs getenv) (initial_heap getenv) (cl_flags cl) = Some h0 ->
  hb h0 L_pslPrivateList = true ->
  In e (fst (run oracle (main P Quote getenv cl))) -> db_event e = false.
Proof.
  intros Hp Hb. unfold main. rewrite Hp. rewrite run_vis_eq. cbn [fst snd].
  intros [<-|Hin]; [reflexivity|]. revert Hin.
  destruct (oracle (EResolveConfig (hs h0 L_configPath))) as [[vals src] err].
  destruct err as [m|].
  { cbn [run bind say fst snd]. intros [<-|[]]. reflexivity. }
  assert (Hb1 : hb (fst (if Nat.ltb 0 (length vals) then applyConfigValues vals (visited (cl_flags cl)) main_opts h0
                         else (h0, None))) L_pslPrivateList = true).
  { destruct (Nat.ltb 0 (length vals)); [rewrite psl_cell_untouched|]; exact Hb. }
  revert Hb1.
  destruct (if Nat.ltb 0 (length vals) then applyConfigValues vals (visited (cl_flags cl)) main_opts h0
            else (h0, None)) as [h1 [m|]]; cbn [fst snd]; intros Hb1.
  { cbn [run bind say fst snd]. intros [<-|[]]. reflexivity. }
  rewrite run_bind. cbn [fst snd]. intros Hin. apply in_app_or in Hin. destruct Hin as [Hin|Hin].
  { destruct (String.eqb (hs h1 L_whoisToolPath) ""); [|destruct Hin].
    rewrite run_vis_eq in Hin. destruct Hin as [<-|[]]. reflexivity. }
  assert (Hb2 : hb (snd (run oracle (if String.eqb (hs h1 L_whoisToolPath) "" then
           Vis (EStatFile "./tools/whois_rdap.py") (fun ok : bool =>
             Ret (if ok then upd_s h1 L_whoisToolPath "./tools/whois_rdap.py" else h1))
         else Ret h1))) L_pslPrivateList = true).
  { destruct (String.eqb (hs h1 L_whoisToolPath) ""); [|exact Hb1].
    rewrite run_vis_eq. cbn [snd run]. destruct (oracle (EStatFile "./tools/whois_rdap.py")); exact Hb1. }
  rewrite Hb2 in Hin. revert Hin. apply (MainClaims.safe_run (fun e => db_event e = false)).
  unfold psl_mode.
  repeat (unfold write_output, say; cbn [bind];
    match goal with
    | |- Safe _ (Ret _) => constructor
    | |- Safe _ (Vis _ _) => constructor; [reflexivity | intros ?]
    | |- Safe _ (if ?b then _ else _) => destruct b
    | |- Safe _ (match ?x with Some _ => _ | None => _ end) => destruct x
    end).
Qed.

Lemma psl_mode_no_database_work_witness :
  db_event (EStdout) = false.
Proof.
  apply (psl_mode_no_database_work (fun s => [s]) (fun s => s) (fun _ => "") psl_command_line
           (match parse_flags (flag_defs (fun _ => "")) (initial_heap (fun _ => "")) (cl_flags psl_command_line)
            with Some h => h | None => zero_heap end)
           MainTrace.quiet_oracle EStdout).
  - vm_compute. reflexivity.
  - vm_compute. reflexivity.
  - vm_compute. right. right. left. reflexivity.
Defined.

End MainFacts.

Module WhoisDefaultFacts.
Import Loader LoaderFrame CLI MainTrace MainRef RunFacts.

Lemma whois_cell_owner getenv d :
  In d (flag_defs getenv) -> def_cell (snd d) = (2%nat, L_enableWhois) -> fst d = "whois".
Proof.
  intros Hd Hc. cbn [flag_defs In] in Hd.
  repeat (destruct Hd as [<-|Hd]; [vm_compute in Hc |- *; congruence|]). contradiction.
Qed.

Lemma tool_cell_owner getenv d :
  In d (flag_defs getenv) -> def_cell (snd d) = (0%nat, L_whoisToolPath) -> fst d = "whois-tool".
Proof.
  intros Hd Hc. cbn [flag_defs In] in Hd.
  repeat (destruct Hd as [<-|Hd]; [vm_compute in Hc |- *; congruence|]). contradiction.
Qed.

Lemma parse_flags_untouched getenv given h0 k l name :
  parse_flags (flag_defs getenv) (initial_heap getenv) given = Some h0 ->
  (forall d, In d (flag_defs getenv) -> def_cell (snd d) = (k, l) -> fst d = name) ->
  ~ In name (map fst given) ->
  same_cell k l (initial_heap getenv) h0.
Proof.
  intros Hp Howner Hn. apply (MainClaims.parse_flags_frame _ _ _ _ _ _ Hp).
  intros name' v d Hin Hf Heq. apply find_some in Hf as [Hd Hn']. apply String.eqb_eq in Hn'.
  apply Hn. rewrite <- (Howner d Hd Heq), Hn'. apply (in_map fst _ (name', v)). exact Hin.
Qed.

Lemma applied_untouched vals sf h0 key k l :
  In (key, Some l, k) (option_keys main_opts) -> ~ In key (map fst vals) ->
  same_cell k l h0 (fst (if Nat.ltb 0 (length vals) then applyConfigValues vals sf main_opts h0 else (h0, None))).
Proof.
  intros Hkey Hn. destruct (Nat.ltb 0 (length vals)); [|apply LoaderClaims.same_cell_refl].
  apply LoaderClaims.apply_frame. intros key' Hin Hkey'. exfalso. apply Hn.
  rewrite (LoaderClaims.pointers_distinct_spec main_opts key' key l k
             ltac:(vm_compute; reflexivity) Hkey' Hkey) in Hin. exact Hin.
Qed.

(** When neither the command line nor the config file sets [whois], every
    [Config] [main] hands to [OpenDBs] or to the batch has WHOIS enabled;
    when neither sets [whois-tool], its tool path is
    [./tools/whois_rdap.py] if [os.Stat] finds that file and empty
    otherwise. *)
Theorem main_whois_defaults P Quote getenv cl (oracle : forall e, MainResp e) cfg :
  cfg_in_trace cfg (fst (run oracle (main P Quote getenv cl))) ->
  ((~ In "whois" (map fst (cl_flags cl)) ->
    (forall p, ~ In "whois" (map fst (config_entries (oracle (EResolveConfig p))))) ->
    EnableWhois cfg = true) /\
   (~ In "whois-tool" (map fst (cl_flags cl)) ->
    (forall p, ~ In "whois-tool" (map fst (config_entries (oracle (EResolveConfig p))))) ->
    WhoisToolPath cfg = if oracle (EStatFile "./tools/whois_rdap.py") then "./tools/whois_rdap.py" else "")).
Proof.
  intros [e [Hin He]].
  unfold main in Hin.
  destruct (parse_flags (flag_defs getenv) (initial_heap getenv) (cl_flags cl)) as [h0|] eqn:Hp;
    [|simpl in Hin; contradiction].
  rewrite MainClaims.run_vis in Hin. destruct Hin as [<-|Hin]; [discriminate He|].
  destruct (oracle (EResolveConfig (hs h0 L_configPath))) as [[vals src] err] eqn:Hans.
  cbv beta iota zeta in Hin.
  destruct err as [msg|].
  { simpl in Hin. destruct Hin as [<-|[]]. discriminate He. }
  assert (Hw1 : ~ In "whois" (map fst (cl_flags cl)) ->
            (forall p, ~ In "whois" (map fst (config_entries (oracle (EResolveConfig p))))) ->
            hb (fst (if Nat.ltb 0 (length vals) then applyConfigValues vals (visited (cl_flags cl)) main_opts h0
                     else (h0, None))) L_enableWhois = true).
  { intros Hf Hc. specialize (Hc (hs h0 L_configPath)). rewrite Hans in Hc.
    pose proof (parse_flags_untouched getenv _ _ 2%nat L_enableWhois "whois" Hp
                  (whois_cell_owner getenv) Hf) as H1.
    pose proof (applied_untouched vals (visited (cl_flags cl)) h0 "whois" 2%nat L_enableWhois
                  ltac:(vm_compute; tauto) Hc) as H2.
    cbn [same_cell] in H1, H2. rewrite <- H2, <- H1. reflexivity. }
  assert (Ht1 : ~ In "whois-tool" (map fst (cl_flags cl)) ->
            (forall p, ~ In "whois-tool" (map fst (config_entries (oracle (EResolveConfig p))))) ->
            hs (fst (if Nat.ltb 0 (length vals) then applyConfigValues vals (visited (cl_flags cl)) main_opts h0
                     else (h0, None))) L_whoisToolPath = "").
  { intros Hf Hc. specialize (Hc (hs h0 L_configPath)). rewrite Hans in Hc.
    pose proof (parse_flags_untouched getenv _ _ 0%nat L_whoisToolPath "whois-tool" Hp
                  (tool_cell_owner getenv) Hf) as H1.
    pose proof (applied_untouched vals (visited (cl_flags cl)) h0 "whois-tool" 0%nat L_whoisToolPath
                  ltac:(vm_compute; tauto) Hc) as H2.
    cbn [same_cell] in H1, H2. rewrite <- H2, <- H1. reflexivity. }
  revert Hw1 Ht1.
  destruct (if Nat.ltb 0 (length vals)
            then applyConfigValues vals (visited (cl_flags cl)) main_opts h0 else (h0, None))
    as [h1 aerr] eqn:Happ.
  cbn [snd fst] in Hin |- *. intros Hw1 Ht1.
  destruct aerr as [msg|].
  { simpl in Hin. destruct Hin as [<-|[]]. discriminate He. }
  rewrite run_bind in Hin. cbn [fst snd] in Hin. apply in_app_or in Hin. destruct Hin as [Hin|Hin].
  { destruct (String.eqb (hs h1 L_whoisToolPath) ""); [|destruct Hin].
    rewrite run_vis_eq in Hin. destruct Hin as [<-|[]]. discriminate He. }
  set (h2 := snd (run oracle (if String.eqb (hs h1 L_whoisToolPath) "" then
           Vis (EStatFile "./tools/whois_rdap.py") (fun ok : bool =>
             Ret (if ok then upd_s h1 L_whoisToolPath "./tools/whois_rdap.py" else h1))
         else Ret h1))) in Hin.
  assert (Hw2 : hb h1 L_enableWhois = true -> hb h2 L_enableWhois = true).
  { unfold h2. destruct (String.eqb (hs h1 L_whoisToolPath) ""); [|exact (fun H => H)].
    rewrite run_vis_eq. cbn [snd run]. destruct (oracle (EStatFile "./tools/whois_rdap.py")); exact (fun H => H). }
  assert (Ht2 : hs h1 L_whoisToolPath = "" ->
            hs h2 L_whoisToolPath = if oracle (EStatFile "./tools/whois_rdap.py") then "./tools/whois_rdap.py" else "").
  { intros Hh. unfold h2. rewrite Hh. cbn [String.eqb]. rewrite run_vis_eq. cbn [snd run].
    destruct (oracle (EStatFile "./tools/whois_rdap.py")); [reflexivity|exact Hh]. }
  clearbody h2.
  set (Q := fun c : Config =>
    (hb h2 L_enableWhois = true -> EnableWhois c = true) /\ WhoisToolPath c = hs h2 L_whoisToolPath).
  assert (HS : Safe (cfg_events Q)
        (if hb h2 L_pslPrivateList then psl_mode h2 else
         let h3 :=
           if (negb (is_set (visited (cl_flags cl)) "whois") &&
               negb (existsb (fun kv => String.eqb (fst kv) "whois") vals) &&
               negb (String.eqb (hs h2 L_whoisToolPath) "") && negb (hb h2 L_enableWhois))%bool
           then upd_b h2 L_enableWhois true else h2 in
         match collect_inputs (hs h3 L_list) (cl_args cl) with
         | [] => _ <- say "Usage: dnsgeeo [--config file] [--list host1,host2] ..." ;; Ret 2
         | _ :: _ => batch_mode P h3 (collect_inputs (hs h3 L_list) (cl_args cl))
         end)).
  { destruct (hb h2 L_pslPrivateList); [apply MainClaims.psl_mode_safe|]. cbv zeta.
    match goal with |- context [if ?b then upd_b _ _ _ else _] => destruct b end;
    (destruct (collect_inputs _ (cl_args cl)); [MainClaims.safe_steps|]);
    apply MainClaims.batch_mode_safe; unfold Q; cbn; split; auto. }
  destruct (MainClaims.safe_run _ _ HS oracle e Hin cfg He) as [Q1 Q2].
  split.
  - intros Hf Hc. apply Q1, Hw2, Hw1; assumption.
  - intros Hf Hc. rewrite Q2. apply Ht2, Ht1; assumption.
Qed.

Lemma main_whois_defaults_witness :
  let cfg := {| DNSServers := ["8.8.8.8:53,8.8.4.4:53"]; LookupTimeout := 2000000000;
                Parallelism := 64; PreferIPv6 := true; CheckMalicious := true;
                EnableWhois := true; WhoisToolPath := "./tools/whois_rdap.py";
                WhoisPython := "python3"; WhoisTimeout := 20000000000;
                CityDBPath := ""; ASNDBPath := "";
                IPCacheSize := 10000; IPCacheTTL := 600000000000 |} in
  EnableWhois cfg = true /\ WhoisToolPath cfg = "./tools/whois_rdap.py".
Proof.
  intros cfg.
  set (cl := {| cl_flags := []; cl_args := ["example.com"] |}).
  assert (Hin : cfg_in_trace cfg (fst (run tool_present_oracle (main (fun s => [s]) (fun s => s) (fun _ => "") cl)))).
  { exists (EOpenDBs cfg). split; [|reflexivity]. vm_compute. right; right; left; reflexivity. }
  destruct (main_whois_defaults (fun s => [s]) (fun s => s) (fun _ => "") cl tool_present_oracle cfg Hin) as [A B].
  split.
  - apply A; simpl; tauto.
  - apply B; simpl; tauto.
Defined.

End WhoisDefaultFacts.

Module InvokerFacts.
Import Whois WhoisRun WhoisRef.

(** Whatever the subprocess does, [RunWhoisTool] returns a nil map
    exactly when it returns a non-nil error. *)
Theorem RunWhoisTool_nil_map_iff_error un py tool ds t r :
  may_return (RunWhoisTool un py tool ds t) r -> (fst r = None <-> snd r <> None).
Proof.
  unfold may_return, RunWhoisTool.
  destruct (String.eqb tool ""); [intros [H|[res H]]; [injection H as <-|discriminate H]; cbn; split; congruence|].
  destruct ds as [|d ds].
  { intros [H|[res H]]; [injection H as <-|discriminate H]. cbn. split; congruence. }
  intros [H|[res H]]; [discriminate H|]. cbn in H. injection H as H.
  destruct (Nat.eqb _ 0); [injection H as <-; cbn; split; congruence|].
  destruct (un (res_stdout res)) as [u|parsed]; [destruct (res_err res)|];
    injection H as <-; cbn; split; congruence.
Qed.

Lemma RunWhoisTool_nil_map_iff_error_witness :
  fst (@None (gmap string WhoisToolInfo), Some ErrOutputEmpty) = None <->
  snd (@None (gmap string WhoisToolInfo), Some ErrOutputEmpty) <> None.
Proof.
  apply (RunWhoisTool_nil_map_iff_error (fun _ => inl "invalid character") "python3" "/opt/whois_rdap.py"
           ["a.example"] 0).
  right. exists {| res_stdout := ""; res_stderr := ""; res_err := None |}. reflexivity.
Defined.

(** [RunWhoisPSLPrivateList] returns a nil slice with every error, and
    returns a nil error only after launching the tool once, when its
    stdout was non-empty and decoded: the slice returned is then the
    decoded one, whatever the exit status. *)
Theorem RunWhoisPSLPrivateList_result unpsl py tool t r :
  may_return (RunWhoisPSLPrivateList unpsl py tool t) r ->
  (snd r <> None -> fst r = None) /\
  (snd r = None -> exists res, after_exec (RunWhoisPSLPrivateList unpsl py tool t) res = Some (Ret r) /\
     res_stdout res <> "" /\ unpsl (res_stdout res) = inr (fst r)).
Proof.
  unfold may_return. intros Hr.
  assert (Hlaunch : String.eqb tool "" = false -> exists res, after_exec (RunWhoisPSLPrivateList unpsl py tool t) res = Some (Ret r)).
  { intros Ht. destruct Hr as [H|H]; [|exact H]. unfold RunWhoisPSLPrivateList in H. rewrite Ht in H. discriminate H. }
  unfold RunWhoisPSLPrivateList in *.
  destruct (String.eqb tool "") eqn:Ht.
  { destruct Hr as [H|[res H]]; [injection H as <-|discriminate H]. cbn. split; [reflexivity|congruence]. }
  destruct (Hlaunch eq_refl) as [res H]. clear Hr Hlaunch. cbn in H. injection H as H.
  destruct (Nat.eqb (String.length (res_stdout res)) 0) eqn:El;
    [injection H as <-; cbn; split; [reflexivity|congruence]|].
  destruct (unpsl (res_stdout res)) as [u|parsed] eqn:Eu;
    [destruct (res_err res); injection H as <-; cbn; (split; [reflexivity|congruence])|].
  injection H as <-. cbn. split; [congruence|]. intros _. exists res. split.
  - cbn. rewrite El, Eu. reflexivity.
  - split; [|exact Eu]. intros He. rewrite He in El. discriminate El.
Qed.

Lemma RunWhoisPSLPrivateList_result_witness :
  exists res, after_exec (RunWhoisPSLPrivateList empty_psl_decoder "python3" "/opt/whois_rdap.py" 0) res
                = Some (Ret (Some [], None)) /\
    res_stdout res <> "" /\ empty_psl_decoder (res_stdout res) = inr (Some []).
Proof.
  apply (proj2 (RunWhoisPSLPrivateList_result empty_psl_decoder "python3" "/opt/whois_rdap.py" 0
    (Some [], None)
    (or_intror (ex_intro _ {| res_stdout := "[]"; res_stderr := "warning"; res_err := Some "exit status 1" |} eq_refl)))).
  reflexivity.
Defined.

End InvokerFacts.

Module EscapeFacts.
Import GeoDownload GeoRef.

Lemma hex_upper_unreserved n : unreserved (hex_upper n) = true.
Proof. unfold hex_upper. do 16 (destruct n as [|n]; [reflexivity|]). reflexivity. Qed.

Lemma hex_upper_inj a b : (a < 16)%nat -> (b < 16)%nat -> hex_upper a = hex_upper b -> a = b.
Proof.
  intros Ha Hb. unfold hex_upper.
  do 16 (destruct a as [|a]; [do 16 (destruct b as [|b]; [intros H; first [reflexivity | discriminate H]|]); lia|]).
  lia.
Qed.

Lemma QueryEscape_safe_list s : forallb query_safe (list_ascii_of_string (QueryEscape s)) = true.
Proof.
  induction s as [|c rest IH]; [reflexivity|]. cbn [QueryEscape].
  destruct (unreserved c) eqn:Eu.
  { cbn [list_ascii_of_string forallb]. rewrite IH. unfold query_safe. rewrite Eu. reflexivity. }
  destruct (Ascii.eqb c " "); [cbn [list_ascii_of_string forallb]; rewrite IH; reflexivity|].
  cbn [list_ascii_of_string forallb]. rewrite IH.
  unfold query_safe at 2 3. rewrite !hex_upper_unreserved. reflexivity.
Qed.

Lemma IndexByte_forallb s c :
  forallb (fun x => negb (Ascii.eqb x c)) (list_ascii_of_string s) = true -> ConfigFile.IndexByte s c = None.
Proof.
  induction s as [|x rest IH]; intros H; [reflexivity|].
  cbn in H. apply andb_true_iff in H as [H1 H2]. destruct (Ascii.eqb x c) eqn:E; [discriminate H1|].
  cbn. rewrite E, IH by exact H2. reflexivity.
Qed.

Lemma safe_excludes c d : query_safe d = false -> query_safe c = true -> negb (Ascii.eqb c d) = true.
Proof.
  intros Hd Hc. destruct (Ascii.eqb c d) eqn:E; [|reflexivity].
  apply Ascii.eqb_eq in E. subst. rewrite Hc in Hd. discriminate Hd.
Qed.

Lemma QueryEscape_excludes s d : query_safe d = false -> ConfigFile.IndexByte (QueryEscape s) d = None.
Proof.
  intros Hd. apply IndexByte_forallb. pose proof (QueryEscape_safe_list s) as H.
  rewrite forallb_forall in H |- *. intros x Hx. apply safe_excludes; [exact Hd|]. apply H, Hx.
Qed.

(** [url.QueryEscape] only emits unreserved bytes, [+] and [%] (with
    upper-case hex digits after it): a license key or edition holding
    [&], [=], [#] or a space cannot end its parameter or start another. *)
Theorem QueryEscape_safe s :
  forallb query_safe (list_ascii_of_string (QueryEscape s)) = true /\
  ConfigFile.IndexByte (QueryEscape s) "&" = None /\
  ConfigFile.IndexByte (QueryEscape s) "=" = None /\
  ConfigFile.IndexByte (QueryEscape s) "#" = None /\
  ConfigFile.IndexByte (QueryEscape s) " " = None.
Proof.
  split; [apply QueryEscape_safe_list|].
  repeat split; apply QueryEscape_excludes; reflexivity.
Qed.

(** [url.QueryEscape] leaves a text of unreserved bytes unchanged, as it
    does the edition names and [tar.gz]. *)
Theorem QueryEscape_unreserved_id s :
  forallb unreserved (list_ascii_of_string s) = true -> QueryEscape s = s.
Proof.
  induction s as [|c rest IH]; intros H; [reflexivity|].
  cbn in H. apply andb_true_iff in H as [H1 H2]. cbn. rewrite H1, IH by exact H2. reflexivity.
Qed.

Lemma QueryEscape_unreserved_id_witness : QueryEscape "GeoLite2-City" = "GeoLite2-City".
Proof. apply QueryEscape_unreserved_id. reflexivity. Defined.

Lemma nat_of_ascii_lt c : (nat_of_ascii c < 256)%nat.
Proof. destruct (nat_ascii_bounded c); lia. Qed.

Lemma escaped_inj c1 c2 :
  hex_upper (nat_of_ascii c1 / 16) = hex_upper (nat_of_ascii c2 / 16) ->
  hex_upper (nat_of_ascii c1 mod 16) = hex_upper (nat_of_ascii c2 mod 16) -> c1 = c2.
Proof.
  intros Hh Hl. pose proof (nat_of_ascii_lt c1). pose proof (nat_of_ascii_lt c2).
  apply hex_upper_inj in Hh; [|apply Nat.Div0.div_lt_upper_bound; lia|apply Nat.Div0.div_lt_upper_bound; lia].
  apply hex_upper_inj in Hl; [|apply Nat.mod_upper_bound; lia|apply Nat.mod_upper_bound; lia].
  rewrite <- (ascii_nat_embedding c1), <- (ascii_nat_embedding c2). f_equal.
  rewrite (Nat.div_mod_eq (nat_of_ascii c1) 16), (Nat.div_mod_eq (nat_of_ascii c2) 16). lia.
Qed.

(** [url.QueryEscape] is injective: two different texts never escape to
    the same text. *)
Theorem QueryEscape_inj s1 s2 : QueryEscape s1 = QueryEscape s2 -> s1 = s2.
Proof.
  revert s2. induction s1 as [|c1 r1 IH]; intros [|c2 r2] H.
  - reflexivity.
  - cbn in H. destruct (unreserved c2); [discriminate H|]. destruct (Ascii.eqb c2 " "); discriminate H.
  - cbn in H. destruct (unreserved c1); [discriminate H|]. destruct (Ascii.eqb c1 " "); discriminate H.
  - cbn [QueryEscape] in H.
    destruct (unreserved c1) eqn:U1; [|destruct (Ascii.eqb c1 " ") eqn:S1];
    (destruct (unreserved c2) eqn:U2; [|destruct (Ascii.eqb c2 " ") eqn:S2]);
    injection H; intros; subst; try discriminate;
    try (apply Ascii.eqb_eq in S1; subst);
    try (apply Ascii.eqb_eq in S2; subst);
    try discriminate;
    try (f_equal; apply IH; assumption).
    f_equal; [apply escaped_inj; assumption | apply IH; assumption].
Qed.

Lemma append_cancel_l a x y : a ++ x = a ++ y -> x = y.
Proof. induction a as [|c a IH]; intros H; [exact H|]. injection H as H. apply IH, H. Qed.

Lemma split_first_byte a a' c b b' :
  ConfigFile.IndexByte a c = None -> ConfigFile.IndexByte a' c = None ->
  a ++ String c b = a' ++ String c b' -> a = a' /\ b = b'.
Proof.
  revert a'. induction a as [|x a IH]; intros [|x' a'] Ha Ha' H; cbn in H.
  - injection H as ->. split; reflexivity.
  - injection H as Hx _. subst x'. cbn in Ha'. rewrite Ascii.eqb_refl in Ha'. discriminate Ha'.
  - injection H as Hx _. subst x. cbn in Ha. rewrite Ascii.eqb_refl in Ha. discriminate Ha.
  - injection H as Hx H. subst x'. cbn in Ha, Ha'. destruct (Ascii.eqb x c); [discriminate Ha|].
    destruct (ConfigFile.IndexByte a c) eqn:E; [discriminate Ha|].
    destruct (ConfigFile.IndexByte a' c) eqn:E'; [discriminate Ha'|].
    destruct (IH a' eq_refl E' H) as [-> ->]. split; reflexivity.
Qed.

(** The download URL determines the license key and the edition: two
    requests with different keys or editions never go to the same URL. *)
Theorem download_url_inj k1 e1 k2 e2 : download_url k1 e1 = download_url k2 e2 -> k1 = k2 /\ e1 = e2.
Proof.
  unfold download_url. intros H.
  apply append_cancel_l in H. apply append_cancel_l in H. apply append_cancel_l in H.
  apply split_first_byte in H; [|apply QueryEscape_excludes; reflexivity|apply QueryEscape_excludes; reflexivity].
  destruct H as [He H]. apply append_cancel_l in H.
  apply split_first_byte in H; [|apply QueryEscape_excludes; reflexivity|apply QueryEscape_excludes; reflexivity].
  destruct H as [Hk _]. split; apply QueryEscape_inj; assumption.
Qed.

Lemma download_url_inj_witness :
  "KEY" = "KEY" /\ "GeoLite2-City" = "GeoLite2-City".
Proof. apply (download_url_inj "KEY" "GeoLite2-City" "KEY" "GeoLite2-City"). reflexivity. Defined.

End EscapeFacts.
